(** * URL shortener: short-code allocation and click-analytics pipeline

    A shallow embedding of the Go packages [models], [customerrors],
    [repository], [services], [api] and [workers], and of the bootstrap in
    [cmd/server].  Go functions with effects are state transformers over an
    explicit world: the SQLite tables behind GORM, the entropy source, the
    process log, the clock, the click channel and the cancellation context.
    Goroutines are interleaved by a step function driven by a schedule. *)

From Stdlib Require Import List String Ascii ZArith NArith Lia Bool Arith.
From Stdlib Require Import Permutation DecimalString.
Import ListNotations.

Local Open Scope string_scope.
Local Open Scope list_scope.

(** ** A state monad for Go functions with effects *)

Definition State (S A : Type) : Type := S -> A * S.

Definition ret {S A : Type} (a : A) : State S A := fun s => (a, s).

Definition bind {S A B : Type} (m : State S A) (k : A -> State S B) : State S B :=
  fun s => let (a, s') := m s in k a s'.

Definition gets {S A : Type} (f : S -> A) : State S A := fun s => (f s, s).

Definition modify {S : Type} (f : S -> S) : State S unit := fun s => (tt, f s).

(** Runs a computation on a component of a larger state. *)
Definition zoom {S T A : Type} (get : T -> S) (set : S -> T -> T)
  (m : State S A) : State T A :=
  fun t => let (a, s') := m (get t) in (a, set s' t).

Declare Scope go_scope.
Delimit Scope go_scope with go.
Notation "x <- m ;; k" := (bind m (fun x => k))
  (at level 61, m at next level, right associativity) : go_scope.
Notation "m ;;; k" := (bind m (fun _ => k))
  (at level 61, right associativity) : go_scope.

(** ** Go's [error] values

    [error] is an open interface in Go; the constructors below are the
    dynamic types this program and its database layer can produce. *)

Inductive error : Type :=
| errorString (s : string)
  (* errors.New(s) *)
| wrapError (msg : string) (err : error)
  (* fmt.Errorf("...%w", err): the formatted message and the wrapped error *)
| ErrRecordNotFound
  (* gorm.ErrRecordNotFound, a sentinel *)
| sqliteError (msg : string)
  (* any failure the SQLite driver reports *)
| ErrCodeCollision (Code : string) (Attempts : Z)
| ErrLinkNotFound (ShortCode : string)
| ErrInvalidURL (URL Reason : string)
| ErrMaxRetriesExceeded (MaxRetries : Z) (Operation : string)
| ErrDatabaseOperation (Operation Entity : string) (Err : error).

(** A Go function returning [(T, error)]: the value when the error is nil. *)
Inductive result (T : Type) : Type :=
| Ok (v : T)
| Err (e : error).
Arguments Ok {T} v.
Arguments Err {T} e.

(** The verb [%d] on an [int] and on a [uint]. *)
Definition itoa (z : Z) : string := NilZero.string_of_int (Z.to_int z).
Definition utoa (n : N) : string := NilZero.string_of_uint (N.to_uint n).

(** The [Error()] method of each dynamic type (custom_errors.go for the
    five types of package customerrors). *)
Fixpoint Error (e : error) : string :=
  match e with
  | errorString s => s
  | wrapError msg _ => msg
  | ErrRecordNotFound => "record not found"
  | sqliteError msg => msg
  | ErrCodeCollision code attempts =>
      "collision détectée pour le code court '" ++ code ++ "' après "
        ++ itoa attempts ++ " tentative(s)"
  | ErrLinkNotFound code =>
      "le lien avec le code court '" ++ code ++ "' est introuvable"
  | ErrInvalidURL url reason => "URL invalide '" ++ url ++ "': " ++ reason
  | ErrMaxRetriesExceeded n op =>
      "nombre maximum de tentatives (" ++ itoa n
        ++ ") dépassé pour l'opération: " ++ op
  | ErrDatabaseOperation op entity err =>
      "erreur lors de l'opération " ++ op ++ " sur " ++ entity ++ ": " ++ Error err
  end.

Module fmt.

(** [fmt.Errorf(prefix + "%w", err)]: every format of the program that wraps
    an error ends in [%w]. *)
Definition Errorf (prefix : string) (err : error) : error :=
  wrapError (prefix ++ Error err) err.

End fmt.

Module errors.

Definition New (text : string) : error := errorString text.

Definition Unwrap (e : error) : option error :=
  match e with
  | wrapError _ err => Some err
  | ErrDatabaseOperation _ _ err => Some err
  | _ => None
  end.

Fixpoint eqb (a b : error) : bool :=
  match a, b with
  | errorString s, errorString t => String.eqb s t
  | wrapError m a', wrapError n b' => String.eqb m n && eqb a' b'
  | ErrRecordNotFound, ErrRecordNotFound => true
  | sqliteError m, sqliteError n => String.eqb m n
  | ErrCodeCollision c k, ErrCodeCollision c' k' => String.eqb c c' && Z.eqb k k'
  | ErrLinkNotFound c, ErrLinkNotFound c' => String.eqb c c'
  | ErrInvalidURL x r, ErrInvalidURL x' r' => String.eqb x x' && String.eqb r r'
  | ErrMaxRetriesExceeded n o, ErrMaxRetriesExceeded n' o' => Z.eqb n n' && String.eqb o o'
  | ErrDatabaseOperation o t a', ErrDatabaseOperation o' t' b' =>
      String.eqb o o' && String.eqb t t' && eqb a' b'
  | _, _ => false
  end.

(** [errors.Is]: walks the [Unwrap] chain of [err] looking for [target]. *)
Fixpoint Is (err target : error) : bool :=
  if eqb err target then true
  else match err with
       | wrapError _ err' => Is err' target
       | ErrDatabaseOperation _ _ err' => Is err' target
       | _ => false
       end.

End errors.

(** ** Package models *)

Module models.

(** [time.Time] is a count of nanoseconds; [uint] identifiers are naturals
    (the program never does arithmetic on them). *)
Record Link : Type := {
  ID : N;
  ShortCode : string;
  LongURL : string;
  CreatedAt : Z
}.

(** [ClickID] is the field [Click.ID] and [Link_] the association field
    [Click.Link]. *)
Record Click : Type := {
  ClickID : N;
  LinkID : N;
  Link_ : Link;
  Timestamp : Z;
  UserAgent : string;
  IPAddress : string
}.

Definition zero_Link : Link :=
  {| ID := 0; ShortCode := ""; LongURL := ""; CreatedAt := 0 |}.

End models.

(** ** GORM over SQLite: the tables [links] and [clicks]

    The storage engine is an external collaborator.  Its model keeps the two
    tables as lists of rows in insertion order, enforces the unique index on
    [links.short_code] (the tag [gorm:"unique;index;size:10"] of models.Link),
    and assigns row ids itself: every [Create] of the program passes a struct
    whose [ID] is unset.  Each statement consumes one event of [env], the
    script of what the rest of the world does to the database when the
    statement arrives; an exhausted script means nothing happens any more.
    [journal] records the statements issued, oldest first. *)

Module gorm.

Inductive event : Type :=
| Quiet
  (* the statement runs undisturbed *)
| Fails (e : error)
  (* the driver reports [e] and the statement has no effect *)
| Races (short_code long_url : string)
  (* another connection commits INSERT INTO links first *).

Inductive stmt : Type :=
| INSERT_links (l : models.Link)
| SELECT_links (short_code : string)
| INSERT_clicks (c : models.Click)
| COUNT_clicks (link_id : N).

Record DB : Type := {
  links : list models.Link;
  clicks : list models.Click;
  env : list event;
  journal : list stmt
}.

Definition next_rowid (ids : list N) : N := N.succ (fold_right N.max 0%N ids).

Definition has_short_code (code : string) (l : models.Link) : bool :=
  String.eqb (models.ShortCode l) code.

Definition unique_violation : error :=
  sqliteError "UNIQUE constraint failed: links.short_code".

(** INSERT INTO links: refused when the short code is taken; the row gets
    the next rowid. *)
Definition insert_link (l : models.Link) (rows : list models.Link)
  : result models.Link * list models.Link :=
  if existsb (has_short_code (models.ShortCode l)) rows
  then (Err unique_violation, rows)
  else
    let l' := {| models.ID := next_rowid (map models.ID rows);
                 models.ShortCode := models.ShortCode l;
                 models.LongURL := models.LongURL l;
                 models.CreatedAt := models.CreatedAt l |} in
    (Ok l', rows ++ [l']).

Definition insert_click (c : models.Click) (rows : list models.Click)
  : models.Click * list models.Click :=
  let c' := {| models.ClickID := next_rowid (map models.ClickID rows);
               models.LinkID := models.LinkID c;
               models.Link_ := models.Link_ c;
               models.Timestamp := models.Timestamp c;
               models.UserAgent := models.UserAgent c;
               models.IPAddress := models.IPAddress c |} in
  (c', rows ++ [c']).

(** What the rest of the world does when a statement arrives: the event is
    consumed, the statement journalled, a concurrent insert applied.  The
    answer is the driver failure, if any. *)
Definition arrive (st : stmt) : State DB (option error) :=
  fun db =>
    let ev := hd Quiet (env db) in
    let rows :=
      match ev with
      | Races code url =>
          snd (insert_link {| models.ID := 0; models.ShortCode := code;
                              models.LongURL := url; models.CreatedAt := 0 |}
                 (links db))
      | _ => links db
      end in
    (match ev with Fails e => Some e | _ => None end,
     {| links := rows; clicks := clicks db; env := tl (env db);
        journal := journal db ++ [st] |}).

(** [db.Create(link)]: the struct comes back with its [ID] filled;
    [result.Error] is the second component. *)
Definition Create_Link (l : models.Link) : State DB (models.Link * option error) :=
  (failure <- arrive (INSERT_links l) ;;
   match failure with
   | Some e => ret (l, Some e)
   | None =>
       fun db =>
         match insert_link l (links db) with
         | (Ok l', rows) =>
             ((l', None),
              {| links := rows; clicks := clicks db; env := env db;
                 journal := journal db |})
         | (Err e, _) => ((l, Some e), db)
         end
   end)%go.

(** [db.Where("short_code = ?", code).First(&link)]: the first matching row
    in primary-key order, [ErrRecordNotFound] when there is none. *)
Definition Where_short_code_First (code : string)
  : State DB (models.Link * option error) :=
  (failure <- arrive (SELECT_links code) ;;
   match failure with
   | Some e => ret (models.zero_Link, Some e)
   | None =>
       rows <- gets links ;;
       match find (has_short_code code) rows with
       | Some l => ret (l, None)
       | None => ret (models.zero_Link, Some ErrRecordNotFound)
       end
   end)%go.

(** [db.Create(click)]. *)
Definition Create_Click (c : models.Click) : State DB (models.Click * option error) :=
  (failure <- arrive (INSERT_clicks c) ;;
   match failure with
   | Some e => ret (c, Some e)
   | None =>
       fun db =>
         let (c', rows) := insert_click c (clicks db) in
         ((c', None),
          {| links := links db; clicks := rows; env := env db;
             journal := journal db |})
   end)%go.

Definition has_link_id (id : N) (c : models.Click) : bool :=
  N.eqb (models.LinkID c) id.

(** [db.Model(&models.Click{}).Where("link_id = ?", id).Count(&count)]:
    [count] keeps its zero value when the statement fails. *)
Definition Where_link_id_Count (id : N) : State DB (Z * option error) :=
  (failure <- arrive (COUNT_clicks id) ;;
   match failure with
   | Some e => ret (0%Z, Some e)
   | None =>
       rows <- gets clicks ;;
       ret (Z.of_nat (List.length (filter (has_link_id id) rows)), None)
   end)%go.

End gorm.

(** ** Package repository *)

Module repository.

(** GormLinkRepository.CreateLink: the link comes back as [db.Create] left
    it behind the pointer. *)
Definition CreateLink (link : models.Link) : State gorm.DB (models.Link * option error) :=
  (r <- gorm.Create_Link link ;;
   match r with
   | (link', Some e) =>
       ret (link', Some (fmt.Errorf "erreur lors de la création du lien : " e))
   | (link', None) => ret (link', None)
   end)%go.

(** GormLinkRepository.GetLinkByShortCode. *)
Definition GetLinkByShortCode (shortCode : string) : State gorm.DB (result models.Link) :=
  (r <- gorm.Where_short_code_First shortCode ;;
   match r with
   | (_, Some e) =>
       ret (Err (fmt.Errorf
                   ("erreur lors de la récupération du lien par shortCode '"
                      ++ shortCode ++ "' : ") e))
   | (link, None) => ret (Ok link)
   end)%go.

(** GormClickRepository.CreateClick. *)
Definition CreateClick (click : models.Click) : State gorm.DB (models.Click * option error) :=
  (r <- gorm.Create_Click click ;;
   match r with
   | (click', Some e) =>
       ret (click', Some (fmt.Errorf "erreur lors de la création du clic : " e))
   | (click', None) => ret (click', None)
   end)%go.

(** GormClickRepository.CountClicksByLinkID (GormLinkRepository has the same
    method, word for word).  [int(count)] is the identity on the 64-bit
    platforms the server runs on. *)
Definition CountClicksByLinkID (linkID : N) : State gorm.DB (Z * option error) :=
  (r <- gorm.Where_link_id_Count linkID ;;
   match r with
   | (_, Some e) =>
       ret (0%Z, Some (fmt.Errorf
                         ("erreur lors du comptage des clics pour LinkID "
                            ++ utoa linkID ++ " : ") e))
   | (count, None) => ret (count, None)
   end)%go.

End repository.

(** ** Go channels

    A buffered channel: its capacity, the values waiting in it (oldest
    first) and whether it has been closed.  A value always travels through
    the buffer; the hand-off of an unbuffered channel to a receiver that is
    already parked is not modelled, so with [cap = 0] a send in a [select]
    with a [default] takes the [default]. *)

Module channel.

Record chan (T : Type) : Type := {
  cap : nat;
  buf : list T;
  closed : bool
}.
Arguments cap {T} c.
Arguments buf {T} c.
Arguments closed {T} c.

(** [make(chan T, size)]. *)
Definition make (T : Type) (size : nat) : chan T :=
  {| cap := size; buf := []; closed := false |}.

(** The outcome of [select { case ch <- v: ...; default: ... }]. *)
Inductive send_outcome : Type :=
| Sent
| Default
| PanicClosed (* send on closed channel *).

Definition select_send {T : Type} (v : T) (ch : chan T) : send_outcome * chan T :=
  if closed ch then (PanicClosed, ch)
  else if Nat.ltb (List.length (buf ch)) (cap ch)
       then (Sent, {| cap := cap ch; buf := buf ch ++ [v]; closed := false |})
       else (Default, ch).

(** The outcome of the receive [v, ok := <-ch] once it can proceed; [None]
    while it would block (the channel is open and empty). *)
Definition receive {T : Type} (ch : chan T) : option (option T * chan T) :=
  match buf ch with
  | v :: rest => Some (Some v, {| cap := cap ch; buf := rest; closed := closed ch |})
  | [] => if closed ch then Some (None, ch) else None
  end.

(** [close(ch)]; closing twice panics, which [None] stands for. *)
Definition close {T : Type} (ch : chan T) : option (chan T) :=
  if closed ch then None
  else Some {| cap := cap ch; buf := buf ch; closed := true |}.

End channel.

(** ** Package api: the click event and the process-wide channel *)

Module api.

Record ClickEvent : Type := {
  LinkID : N;
  ShortCode : string;
  Timestamp : Z;
  UserAgent : string;
  IP : string
}.

End api.

(** ** The world a server process runs in *)

Record World : Type := {
  db : gorm.DB;
  (* the database handle shared by the repositories *)
  rand_Reader : list N;
  (* crypto/rand.Reader: the draws still to come; reading past the end fails *)
  log_output : list string;
  (* what package log has printed, oldest first, without the time prefix *)
  clock : Z;
  (* what time.Now() reads *)
  ClickEventsChannel : channel.chan api.ClickEvent;
  (* api.ClickEventsChannel, made by RunServerCmd before anything uses it *)
  ctx_done : bool
  (* whether cancel() has been called on the workers' context *)
}.

Definition set_db (d : gorm.DB) (w : World) : World :=
  {| db := d; rand_Reader := rand_Reader w; log_output := log_output w;
     clock := clock w; ClickEventsChannel := ClickEventsChannel w;
     ctx_done := ctx_done w |}.

Definition set_rand_Reader (r : list N) (w : World) : World :=
  {| db := db w; rand_Reader := r; log_output := log_output w;
     clock := clock w; ClickEventsChannel := ClickEventsChannel w;
     ctx_done := ctx_done w |}.

Definition set_log_output (l : list string) (w : World) : World :=
  {| db := db w; rand_Reader := rand_Reader w; log_output := l;
     clock := clock w; ClickEventsChannel := ClickEventsChannel w;
     ctx_done := ctx_done w |}.

Definition set_ClickEventsChannel (c : channel.chan api.ClickEvent) (w : World) : World :=
  {| db := db w; rand_Reader := rand_Reader w; log_output := log_output w;
     clock := clock w; ClickEventsChannel := c; ctx_done := ctx_done w |}.

Definition set_ctx_done (b : bool) (w : World) : World :=
  {| db := db w; rand_Reader := rand_Reader w; log_output := log_output w;
     clock := clock w; ClickEventsChannel := ClickEventsChannel w;
     ctx_done := b |}.

(** A repository call from the process. *)
Definition on_db {A : Type} (m : State gorm.DB A) : State World A :=
  zoom db set_db m.

Module log.

Definition Printf (line : string) : State World unit :=
  modify (fun w => set_log_output (log_output w ++ [line]) w).

End log.

Module time.

Definition Now : State World Z := gets clock.

(** A [time.Duration] is an [int64] count of nanoseconds; its arithmetic
    wraps around. *)
Definition Duration : Type := Z.

Definition int64 (z : Z) : Z := ((z + 2 ^ 63) mod 2 ^ 64 - 2 ^ 63)%Z.

Definition Minute : Duration := 60000000000%Z.

(** [time.Duration(n) * time.Minute]. *)
Definition Minutes (n : Z) : Duration := int64 (n * Minute).

(** [fmtFrac]: the [prec] low digits of [v] as a fraction, trailing zeros
    and a fraction of zeros only omitted, and [v / 10^prec]. *)
Fixpoint fmtFrac (prec : nat) (v : Z) (print : bool) (tail : string) : string * Z :=
  match prec with
  | O => ((if print then "." ++ tail else tail)%string, v)
  | S prec' =>
      let digit := (v mod 10)%Z in
      let print' := print || negb (digit =? 0)%Z in
      fmtFrac prec' (v / 10)%Z print'
        (if print' then String (ascii_of_nat (48 + Z.to_nat digit)) tail else tail)
  end.

(** [Duration.String], the text the verb [%v] prints. *)
Definition Duration_String (d : Duration) : string :=
  let u := Z.abs d in
  let text : string :=
    if (u <? 1000000000)%Z then
      if (u =? 0)%Z then "0s"
      else if (u <? 1000)%Z then (itoa u ++ "ns")%string
      else if (u <? 1000000)%Z then
        let (frac, v) := fmtFrac 3 u false "" in (itoa v ++ frac ++ "µs")%string
      else
        let (frac, v) := fmtFrac 6 u false "" in (itoa v ++ frac ++ "ms")%string
    else
      let (frac, secs) := fmtFrac 9 u false "" in
      let s := (itoa (secs mod 60) ++ frac ++ "s")%string in
      let mins := (secs / 60)%Z in
      if (0 <? mins)%Z then
        let m := (itoa (mins mod 60) ++ "m")%string in
        let hours := (mins / 60)%Z in
        if (0 <? hours)%Z then (itoa hours ++ "h" ++ m ++ s)%string
        else (m ++ s)%string
      else s in
  if (d <? 0)%Z then ("-" ++ text)%string else text.

End time.

Module rand.

(** [rand.Int(rand.Reader, max)]: a uniform draw in [0, max), or the
    reader's error. *)
Definition Int (max : N) : State World (result N) :=
  fun w =>
    match rand_Reader w with
    | [] => (Err (errorString "unexpected EOF"), w)
    | v :: rest => (Ok (v mod max)%N, set_rand_Reader rest w)
    end.

End rand.

(** ** Package services *)

Module services.

Definition charset : string :=
  "abcdefghijklmnopqrstuvwxyzABCDEFGHIJKLMNOPQRSTUVWXYZ0123456789".

(** [charset[i]]; the index is a draw below [len(charset)], so the default
    is never read. *)
Definition charset_at (i : N) : ascii :=
  match String.get (N.to_nat i) charset with
  | Some c => c
  | None => Ascii.zero
  end.

(** [result[i] = c] on a byte slice; the loop below keeps [i] in range. *)
Fixpoint store (i : nat) (c : ascii) (bytes : list ascii) : list ascii :=
  match bytes, i with
  | [], _ => []
  | _ :: rest, O => c :: rest
  | b :: rest, S i' => b :: store i' c rest
  end.

(** The loop of GenerateShortCode, [n] iterations before [i] reaches
    [length]. *)
Fixpoint GenerateShortCode_loop (n i : nat) (bytes : list ascii)
  : State World (result (list ascii)) :=
  match n with
  | O => ret (Ok bytes)
  | S n' =>
      (r <- rand.Int (N.of_nat (String.length charset)) ;;
       match r with
       | Err e =>
           ret (Err (fmt.Errorf "erreur lors de la génération du code aléatoire: " e))
       | Ok randomIndex =>
           GenerateShortCode_loop n' (S i) (store i (charset_at randomIndex) bytes)
       end)%go
  end.

(** LinkService.GenerateShortCode. *)
Definition GenerateShortCode (length : nat) : State World (result string) :=
  (r <- GenerateShortCode_loop length 0 (repeat Ascii.zero length) ;;
   match r with
   | Ok bytes => ret (Ok (string_of_list_ascii bytes))
   | Err e => ret (Err e)
   end)%go.

Definition maxRetries : Z := 5.

(** The retry loop of CreateLink from iteration [i], with [n] iterations
    before [i] reaches [maxRetries].  It ends with the value of [shortCode]
    (still empty when no iteration broke out) or with the error the
    function returns from inside the loop. *)
Fixpoint CreateLink_loop (n : nat) (i : Z) : State World (result string) :=
  match n with
  | O => ret (Ok "")
  | S n' =>
      (r <- GenerateShortCode 6 ;;
       match r with
       | Err e =>
           ret (Err (fmt.Errorf "erreur lors de la génération du code court: " e))
       | Ok code =>
           found <- on_db (repository.GetLinkByShortCode code) ;;
           match found with
           | Err e =>
               if errors.Is e ErrRecordNotFound
               then ret (Ok code)
               else ret (Err (fmt.Errorf
                                "database error checking short code uniqueness: " e))
           | Ok _ =>
               _ <- log.Printf
                      ("Short code '" ++ code
                         ++ "' already exists, retrying generation ("
                         ++ itoa (i + 1) ++ "/" ++ itoa maxRetries ++ ")...") ;;
               CreateLink_loop n' (i + 1)%Z
           end
       end)%go
  end.

(** What CreateLink does once the loop is over. *)
Definition CreateLink_persist (longURL : string) (looped : result string)
  : State World (result models.Link) :=
  match looped with
  | Err e => ret (Err e)
  | Ok shortCode =>
      if String.eqb shortCode ""
      then ret (Err (errors.New
             "impossible de générer un code court unique après plusieurs tentatives"))
      else
        (now <- time.Now ;;
         let link := {| models.ID := 0;
                        models.ShortCode := shortCode;
                        models.LongURL := longURL;
                        models.CreatedAt := now |} in
         created <- on_db (repository.CreateLink link) ;;
         match created with
         | (_, Some e) =>
             ret (Err (fmt.Errorf "erreur lors de la création du lien: " e))
         | (link', None) => ret (Ok link')
         end)%go
  end.

(** CreateLink entered at iteration [i] of its loop. *)
Definition CreateLink_from (n : nat) (i : Z) (longURL : string)
  : State World (result models.Link) :=
  (looped <- CreateLink_loop n i ;; CreateLink_persist longURL looped)%go.

(** LinkService.CreateLink. *)
Definition CreateLink (longURL : string) : State World (result models.Link) :=
  CreateLink_from (Z.to_nat maxRetries) 0 longURL.

(** LinkService.GetLinkByShortCode. *)
Definition GetLinkByShortCode (shortCode : string) : State World (result models.Link) :=
  (r <- on_db (repository.GetLinkByShortCode shortCode) ;;
   match r with
   | Err e => ret (Err (fmt.Errorf "erreur lors de la récupération du lien: " e))
   | Ok link => ret (Ok link)
   end)%go.

(** LinkService.GetLinkStats. *)
Definition GetLinkStats (shortCode : string)
  : State World (result (models.Link * Z)) :=
  (r <- on_db (repository.GetLinkByShortCode shortCode) ;;
   match r with
   | Err e => ret (Err (fmt.Errorf "erreur lors de la récupération du lien: " e))
   | Ok link =>
       counted <- on_db (repository.CountClicksByLinkID (models.ID link)) ;;
       match counted with
       | (_, Some e) => ret (Err (fmt.Errorf "erreur lors du comptage des clics: " e))
       | (count, None) => ret (Ok (link, count))
       end
   end)%go.

End services.

(** ** Package api: the HTTP handlers *)

Module handlers.

(** What a handler reads from its [*gin.Context]. *)
Record Request : Type := {
  Param_shortCode : string;
  (* c.Param("shortCode") *)
  Header_User_Agent : string;
  (* c.GetHeader("User-Agent") *)
  ClientIP : string;
  (* c.ClientIP() *)
  Body_long_url : option string
  (* the field long_url when c.ShouldBindJSON accepts the body *)
}.

Inductive json : Type :=
| JString (s : string)
| JNumber (z : Z).

(** What a handler writes: [c.JSON], [c.Redirect], or a panic that unwinds
    into gin's recovery middleware. *)
Inductive Response : Type :=
| JSON (status : Z) (body : list (string * json))
| Redirect (status : Z) (location : string)
| Panicked.

Definition StatusOK : Z := 200.
Definition StatusCreated : Z := 201.
Definition StatusFound : Z := 302.
Definition StatusBadRequest : Z := 400.
Definition StatusNotFound : Z := 404.
Definition StatusInternalServerError : Z := 500.

(** HealthCheckHandler. *)
Definition HealthCheckHandler (c : Request) : State World Response :=
  ret (JSON StatusOK [("status", JString "ok")]).

(** CreateShortLinkHandler. *)
Definition CreateShortLinkHandler (c : Request) : State World Response :=
  match Body_long_url c with
  | None => ret (JSON StatusBadRequest [("error", JString "invalid request body")])
  | Some longURL =>
      (r <- services.CreateLink longURL ;;
       match r with
       | Err err =>
           _ <- log.Printf ("CreateLink error: " ++ Error err) ;;
           ret (JSON StatusInternalServerError
                  [("error", JString "could not create short link")])
       | Ok link =>
           ret (JSON StatusCreated
                  [("short_code", JString (models.ShortCode link));
                   ("long_url", JString (models.LongURL link));
                   ("full_short_url",
                    JString ("http://localhost:8080/" ++ models.ShortCode link))])
       end)%go
  end.

(** The non-blocking send of RedirectHandler:
    [select { case ClickEventsChannel <- clickEvent: default: log.Printf(...) }]. *)
Definition tryEnqueue (clickEvent : api.ClickEvent) (shortCode : string)
  : State World channel.send_outcome :=
  fun w =>
    match channel.select_send clickEvent (ClickEventsChannel w) with
    | (channel.Sent, ch) => (channel.Sent, set_ClickEventsChannel ch w)
    | (channel.Default, _) =>
        (channel.Default,
         snd (log.Printf
                ("Warning: ClickEventsChannel is full, dropping click event for "
                   ++ shortCode ++ ".") w))
    | (channel.PanicClosed, _) => (channel.PanicClosed, w)
    end.

(** RedirectHandler. *)
Definition RedirectHandler (c : Request) : State World Response :=
  let shortCode := Param_shortCode c in
  (r <- services.GetLinkByShortCode shortCode ;;
   match r with
   | Err err =>
       if errors.Is err ErrRecordNotFound
       then ret (JSON StatusNotFound [("error", JString "link not found")])
       else
         _ <- log.Printf ("Error retrieving link for " ++ shortCode ++ ": "
                            ++ Error err) ;;
         ret (JSON StatusInternalServerError
                [("error", JString "internal server error")])
   | Ok link =>
       now <- time.Now ;;
       let clickEvent := {| api.LinkID := models.ID link;
                            api.ShortCode := shortCode;
                            api.Timestamp := now;
                            api.UserAgent := Header_User_Agent c;
                            api.IP := ClientIP c |} in
       sent <- tryEnqueue clickEvent shortCode ;;
       match sent with
       | channel.PanicClosed => ret Panicked
       | _ => ret (Redirect StatusFound (models.LongURL link))
       end
   end)%go.

(** GetLinkStatsHandler. *)
Definition GetLinkStatsHandler (c : Request) : State World Response :=
  let shortCode := Param_shortCode c in
  (r <- services.GetLinkStats shortCode ;;
   match r with
   | Err err =>
       if errors.Is err ErrRecordNotFound
       then ret (JSON StatusNotFound [("error", JString "link not found")])
       else
         _ <- log.Printf ("Error getting stats for " ++ shortCode ++ ": "
                            ++ Error err) ;;
         ret (JSON StatusInternalServerError
                [("error", JString "internal server error")])
   | Ok (link, totalClicks) =>
       ret (JSON StatusOK
              [("short_code", JString (models.ShortCode link));
               ("long_url", JString (models.LongURL link));
               ("total_clicks", JNumber totalClicks)])
   end)%go.

(** The routes SetupRoutes registers.  Its channel initialisation does
    nothing here: RunServerCmd has made the channel before calling it. *)
Inductive route : Type :=
| GET_health
| POST_api_v1_links
| GET_api_v1_links_stats
| GET_shortCode.

Definition SetupRoutes (r : route) : Request -> State World Response :=
  match r with
  | GET_health => HealthCheckHandler
  | POST_api_v1_links => CreateShortLinkHandler
  | GET_api_v1_links_stats => GetLinkStatsHandler
  | GET_shortCode => RedirectHandler
  end.

End handlers.

(** ** Package workers *)

Module workers.

(** Where a clickWorker goroutine stands.  Every state but [Stopped] is the
    specification's Running. *)
Inductive goroutine : Type :=
| Spawned
  (* [go clickWorker(...)] has run, the body has not started *)
| Selecting
  (* at the [select] of the loop *)
| Persisting (ev : api.ClickEvent)
  (* [ev] received, CreateClick not yet called *)
| Sleeping
  (* in [time.Sleep(5 * time.Millisecond)] *)
| Stopped
  (* returned; the deferred log line is out *).

(** The case a [select] takes; Go picks among the ready ones at random. *)
Inductive select_case : Type :=
| case_Done
  (* [case <-ctx.Done()] *)
| case_Receive
  (* [case ev, ok := <-in] *).

Definition stopped (id : Z) : State World goroutine :=
  (_ <- log.Printf ("clickWorker " ++ itoa id ++ ": stopped") ;; ret Stopped)%go.

Definition click_of (ev : api.ClickEvent) : models.Click :=
  {| models.ClickID := 0;
     models.LinkID := api.LinkID ev;
     models.Link_ := models.zero_Link;
     models.Timestamp := api.Timestamp ev;
     models.UserAgent := api.UserAgent ev;
     models.IPAddress := api.IP ev |}.

(** One move of clickWorker [id]: from where it stands to its next stop, or
    [None] when it cannot move (blocked in the [select], or returned).
    [choice] matters at the [select] only. *)
Definition clickWorker_step (id : Z) (choice : select_case) (g : goroutine)
  (w : World) : option (goroutine * World) :=
  match g with
  | Spawned =>
      Some (Selecting, snd (log.Printf ("clickWorker " ++ itoa id ++ ": started") w))
  | Selecting =>
      match choice with
      | case_Done => if ctx_done w then Some (stopped id w) else None
      | case_Receive =>
          match channel.receive (ClickEventsChannel w) with
          | None => None
          | Some (None, _) => Some (stopped id w)
          | Some (Some ev, ch) => Some (Persisting ev, set_ClickEventsChannel ch w)
          end
      end
  | Persisting ev =>
      let click := click_of ev in
      Some
        ((created <- on_db (repository.CreateClick click) ;;
          _ <- match created with
               | (_, Some err) =>
                   log.Printf ("clickWorker " ++ itoa id
                                 ++ ": failed to persist click for link "
                                 ++ utoa (api.LinkID ev) ++ ": " ++ Error err)
               | (_, None) =>
                   log.Printf ("clickWorker " ++ itoa id
                                 ++ ": persisted click for link "
                                 ++ utoa (api.LinkID ev))
               end ;;
          ret Sleeping)%go w)
  | Sleeping => Some (Selecting, w)
  | Stopped => None
  end.

(** The goroutines of the pool with the [id] each was started with. *)
Definition pool : Type := list (Z * goroutine).

(** StartClickWorkers: [n] goroutines, numbered from 0. *)
Definition StartClickWorkers (n : Z) (p : pool) : pool :=
  p ++ map (fun i => (Z.of_nat i, Spawned)) (seq 0 (Z.to_nat n)).

End workers.

(** ** cmd/server: the running process *)

Module server.

Record System : Type := {
  world : World;
  workers_pool : workers.pool
}.

(** What can happen next in the process. *)
Inductive action : Type :=
| Cancel
  (* RunServerCmd calls [cancel()] after the stop signal *)
| CloseChannel
  (* [close(api.ClickEventsChannel)]: the worker provides for it, though
     nothing in the repository does it *)
| Serve (r : handlers.route) (c : handlers.Request)
  (* gin runs the handler of a route on a request *)
| Worker (i : nat) (choice : workers.select_case)
  (* the goroutine at position [i] of the pool moves *).

Fixpoint replace {A : Type} (i : nat) (x : A) (l : list A) : list A :=
  match l, i with
  | [], _ => []
  | _ :: rest, O => x :: rest
  | a :: rest, S i' => a :: replace i' x rest
  end.

(** One step of the process; [None] when the action cannot happen. *)
Definition step (a : action) (s : System) : option System :=
  match a with
  | Cancel =>
      Some {| world := set_ctx_done true (world s); workers_pool := workers_pool s |}
  | CloseChannel =>
      match channel.close (ClickEventsChannel (world s)) with
      | Some ch =>
          Some {| world := set_ClickEventsChannel ch (world s);
                  workers_pool := workers_pool s |}
      | None => None
      end
  | Serve r c =>
      Some {| world := snd (handlers.SetupRoutes r c (world s));
              workers_pool := workers_pool s |}
  | Worker i choice =>
      match nth_error (workers_pool s) i with
      | None => None
      | Some (id, g) =>
          match workers.clickWorker_step id choice g (world s) with
          | None => None
          | Some (g', w') =>
              Some {| world := w';
                      workers_pool := replace i (id, g') (workers_pool s) |}
          end
      end
  end.

(** A schedule runs step by step and stops at the first action that cannot
    happen. *)
Fixpoint run (schedule : list action) (s : System) : option System :=
  match schedule with
  | [] => Some s
  | a :: rest =>
      match step a s with
      | Some s' => run rest s'
      | None => None
      end
  end.

(** RunServerCmd from the creation of the workers' context to the start
    of the HTTP server (server.go 62-98), for the values of
    [cfg.Analytics.BufferSize], [cfg.Analytics.WorkerCount],
    [cfg.Monitor.IntervalMinutes] and [cfg.Server.Port]: the channel is
    made, the workers are started, the routes are configured and the
    goroutine of the HTTP server announces itself, with the four lines
    logged on the way.  [make] panics on a negative size, which [None]
    stands for; the memory of the buffer is taken to be there, and so is
    the port [ListenAndServe] then binds.  The goroutine of the URL monitor
    belongs to package monitor, which is not part of these sources, and is
    left out. *)
Definition RunServerCmd_start (BufferSize WorkerCount IntervalMinutes Port : Z)
  (w : World) : option System :=
  if (BufferSize <? 0)%Z then None
  else
    let w1 := set_ctx_done false
                (set_ClickEventsChannel
                   (channel.make api.ClickEvent (Z.to_nat BufferSize)) w) in
    let p := workers.StartClickWorkers WorkerCount [] in
    let monitorInterval := time.Minutes IntervalMinutes in
    let serverAddr := (":" ++ itoa Port)%string in
    Some
      {| world :=
           snd ((_ <- log.Printf
                        ("Channel d'événements de clic initialisé avec un buffer de "
                           ++ itoa BufferSize ++ ". " ++ itoa WorkerCount
                           ++ " worker(s) de clics démarré(s).") ;;
                 _ <- log.Printf
                        ("Moniteur d'URLs démarré avec un intervalle de "
                           ++ time.Duration_String monitorInterval ++ ".") ;;
                 _ <- log.Printf "Routes API configurées." ;;
                 log.Printf ("Serveur HTTP démarré sur " ++ serverAddr))%go w1);
         workers_pool := p |}.

End server.

(** ** Scenarios the properties are stated on *)

(** A producer calling tryEnqueue once per event, in order; each call comes
    with the short code the handler names in its warning. *)
Fixpoint tryEnqueue_all (calls : list (api.ClickEvent * string))
  : State World (list channel.send_outcome) :=
  match calls with
  | [] => ret []
  | (ev, shortCode) :: rest =>
      (o <- handlers.tryEnqueue ev shortCode ;;
       os <- tryEnqueue_all rest ;;
       ret (o :: os))%go
  end.

Definition dropped_warning (shortCode : string) : string :=
  "Warning: ClickEventsChannel is full, dropping click event for " ++ shortCode ++ ".".

(** ** Sample data *)

Definition sample_click (id link_id : N) : models.Click :=
  {| models.ClickID := id; models.LinkID := link_id;
     models.Link_ := models.zero_Link; models.Timestamp := 1700000000;
     models.UserAgent := "curl/8.5.0"; models.IPAddress := "192.0.2.7" |}.

Definition sample_link_at (id : N) (code url : string) (created : Z) : models.Link :=
  {| models.ID := id; models.ShortCode := code; models.LongURL := url;
     models.CreatedAt := created |}.

Definition sample_link (id : N) (code url : string) : models.Link :=
  sample_link_at id code url 1600000000.

(** Two links, three clicks on the first and none on the second. *)
Definition sample_db : gorm.DB :=
  {| gorm.links := [sample_link 1 "aaaaaa" "https://go.dev/doc";
                    sample_link 2 "Zx91Qp" "https://rocq-prover.org"];
     gorm.clicks := [sample_click 1 1; sample_click 2 1; sample_click 3 1];
     gorm.env := [];
     gorm.journal := [] |}.

Definition count_error_prefix (linkID : N) : string :=
  "erreur lors du comptage des clics pour LinkID " ++ utoa linkID ++ " : ".

(** The line CreateLink logs when attempt [i] (counted from 0) collides. *)
Definition retry_line (code : string) (i : Z) : string :=
  "Short code '" ++ code ++ "' already exists, retrying generation ("
    ++ itoa (i + 1) ++ "/" ++ itoa services.maxRetries ++ ")...".

(** [k] attempts of CreateLink in a row, the first one numbered [i]: each
    generates a candidate and the pre-check finds it taken.  They lead from
    [w] to [w'], and [codes] are the candidates, oldest first. *)
Inductive collisions : nat -> Z -> World -> list string -> World -> Prop :=
| collisions_O : forall i w, collisions 0 i w [] w
| collisions_S : forall k i w code w1 l d2 codes w',
    services.GenerateShortCode 6 w = (Ok code, w1) ->
    repository.GetLinkByShortCode code (db w1) = (Ok l, d2) ->
    collisions k (i + 1)
      (set_log_output (log_output w1 ++ [retry_line code i]) (set_db d2 w1))
      codes w' ->
    collisions (S k) i w (code :: codes) w'.

Definition in_charset (c : ascii) : Prop :=
  In c (list_ascii_of_string services.charset).

Definition sample_world (d : gorm.DB) (draws : list N) : World :=
  {| db := d; rand_Reader := draws; log_output := []; clock := 1700000000;
     ClickEventsChannel := channel.make api.ClickEvent 2; ctx_done := false |}.

Definition with_env (script : list gorm.event) (d : gorm.DB) : gorm.DB :=
  {| gorm.links := gorm.links d; gorm.clicks := gorm.clicks d;
     gorm.env := script; gorm.journal := gorm.journal d |}.

(** Thirty draws are enough for the five attempts of CreateLink.  The first
    six spell "bcdefg", a code no sample link has. *)
Definition fresh_draws : list N :=
  [1; 2; 3; 4; 5; 6]%N ++ repeat 7%N 24.

(** Six zero draws spell "aaaaaa", the code of the first sample link. *)
Definition zero_draws (n : nat) : list N := repeat 0%N n.

(** Another request inserts "bcdefg" between our pre-check and our INSERT. *)
Definition race_world : World :=
  sample_world
    (with_env [gorm.Quiet; gorm.Races "bcdefg" "https://elsewhere.example/"] sample_db)
    fresh_draws.

(** Every candidate will be "aaaaaa", which is taken. *)
Definition crowded_world : World := sample_world sample_db (zero_draws 30).

(** The first candidate collides; the pre-check of the second one hits a
    locked database. *)
Definition locked_world : World :=
  sample_world
    (with_env [gorm.Quiet; gorm.Fails (sqliteError "database is locked")] sample_db)
    (zero_draws 6 ++ fresh_draws).

(** The first candidate collides, the second is free and is persisted. *)
Definition calm_world : World :=
  sample_world sample_db (zero_draws 6 ++ fresh_draws).

Definition exhausted_message : string :=
  "impossible de générer un code court unique après plusieurs tentatives".

(** The link CreateLink builds for a short code before persisting it. *)
Definition new_link (shortCode longURL : string) (now : Z) : models.Link :=
  {| models.ID := 0; models.ShortCode := shortCode; models.LongURL := longURL;
     models.CreatedAt := now |}.

(** Where the goroutine at position [i] of the pool stands. *)
Definition state_of (s : server.System) (i : nat) : option workers.goroutine :=
  option_map snd (nth_error (server.workers_pool s) i).

Definition a_system (w : World) (p : workers.pool) : server.System :=
  {| server.world := w; server.workers_pool := p |}.

Definition failed_line (id : Z) (ev : api.ClickEvent) (err : error) : string :=
  "clickWorker " ++ itoa id ++ ": failed to persist click for link "
    ++ utoa (api.LinkID ev) ++ ": " ++ Error err.

Definition sample_event (link_id : N) (code : string) (at_ : Z) : api.ClickEvent :=
  {| api.LinkID := link_id; api.ShortCode := code; api.Timestamp := at_;
     api.UserAgent := "curl/8.5.0"; api.IP := "192.0.2.7" |}.

(** Worker 0 waits in its select, worker 1 has returned; the context is
    cancelled and one event is still queued. *)
Definition cancelled_system : server.System :=
  a_system
    {| db := sample_db; rand_Reader := []; log_output := []; clock := 1700000000;
       ClickEventsChannel :=
         {| channel.cap := 2; channel.buf := [sample_event 1 "aaaaaa" 1700000001];
            channel.closed := false |};
       ctx_done := true |}
    [(0%Z, workers.Selecting); (1%Z, workers.Stopped)].

(** Worker 0 holds an event whose INSERT the driver will fail; a second
    event is queued. *)
Definition failing_system : server.System :=
  a_system
    {| db := with_env [gorm.Fails (sqliteError "disk I/O error")] sample_db;
       rand_Reader := []; log_output := []; clock := 1700000000;
       ClickEventsChannel :=
         {| channel.cap := 2; channel.buf := [sample_event 2 "Zx91Qp" 1700000002];
            channel.closed := false |};
       ctx_done := false |}
    [(0%Z, workers.Persisting (sample_event 1 "aaaaaa" 1700000001))].

(** Schedules made of worker moves only: nobody cancels, closes the channel
    or serves a request. *)
Definition worker_moves (schedule : list (nat * workers.select_case))
  : list server.action :=
  map (fun m => server.Worker (fst m) (snd m)) schedule.

(** The pool is at rest: no worker can move. *)
Definition quiescent (s : server.System) : Prop :=
  forall i choice, server.step (server.Worker i choice) s = None.

(** A click store whose CreateClick always succeeds: the driver fails no
    statement. *)
Definition never_fails (script : list gorm.event) : Prop :=
  forall e, ~ In (gorm.Fails e) script.

(** A persisted click without the row id the database gave it. *)
Definition unset_ClickID (c : models.Click) : models.Click :=
  {| models.ClickID := 0; models.LinkID := models.LinkID c;
     models.Link_ := models.Link_ c; models.Timestamp := models.Timestamp c;
     models.UserAgent := models.UserAgent c; models.IPAddress := models.IPAddress c |}.

(** The lines RunServerCmd logs between starting the workers and serving,
    the last one from the goroutine of the HTTP server. *)
Definition startup_lines (BufferSize WorkerCount IntervalMinutes Port : Z) : list string :=
  [("Channel d'événements de clic initialisé avec un buffer de "
      ++ itoa BufferSize ++ ". " ++ itoa WorkerCount
      ++ " worker(s) de clics démarré(s).")%string;
   ("Moniteur d'URLs démarré avec un intervalle de "
      ++ time.Duration_String (time.Minutes IntervalMinutes) ++ ".")%string;
   "Routes API configurées.";
   ("Serveur HTTP démarré sur :" ++ itoa Port)%string].

(** The world RunServerCmd leaves when [make] has not panicked. *)
Definition started_world (BufferSize WorkerCount IntervalMinutes Port : Z) (w : World)
  : World :=
  set_log_output
    (log_output w ++ startup_lines BufferSize WorkerCount IntervalMinutes Port)
    (set_ctx_done false
       (set_ClickEventsChannel
          (channel.make api.ClickEvent (Z.to_nat BufferSize)) w)).

(** The process after RunServerCmd has made the channel, started the
    workers, configured the routes and started the HTTP server, and
    [calls] have been enqueued before any worker has run; [None] when
    RunServerCmd has panicked. *)
Definition pipeline_start (BufferSize WorkerCount IntervalMinutes Port : Z)
  (calls : list (api.ClickEvent * string)) (w : World) : option server.System :=
  match server.RunServerCmd_start BufferSize WorkerCount IntervalMinutes Port w with
  | None => None
  | Some s =>
      Some {| server.world := snd (tryEnqueue_all calls (server.world s));
              server.workers_pool := server.workers_pool s |}
  end.

(** The system of an option, a process without workers standing for a
    panicked start. *)
Definition started (o : option server.System) (w : World) : server.System :=
  match o with
  | Some s => s
  | None => {| server.world := w; server.workers_pool := [] |}
  end.

(** The events the workers hold between receive and CreateClick. *)
Definition inflight (p : workers.pool) : list api.ClickEvent :=
  flat_map (fun m => match snd m with
                     | workers.Persisting ev => [ev]
                     | _ => []
                     end) p.

(** The moves a goroutine has to make before it is back at its select. *)
Definition weight (g : workers.goroutine) : nat :=
  match g with
  | workers.Spawned => 1
  | workers.Selecting => 0
  | workers.Persisting _ => 2
  | workers.Sleeping => 1
  | workers.Stopped => 0
  end.

(** The worker moves left before the pool is at rest: three per queued
    event, and what each goroutine still owes. *)
Definition work_left (s : server.System) : nat :=
  3 * List.length (channel.buf (ClickEventsChannel (server.world s)))
  + list_sum (map (fun m => weight (snd m)) (server.workers_pool s)).

(** What holds of the process while only workers move, from a start with
    the clicks table [clicks0] and the clicks [expected] to persist. *)
Definition draining (clicks0 expected : list models.Click) (s : server.System)
  : Prop :=
  ctx_done (server.world s) = false
  /\ channel.closed (ClickEventsChannel (server.world s)) = false
  /\ never_fails (gorm.env (db (server.world s)))
  /\ Forall (fun m => snd m <> workers.Stopped) (server.workers_pool s)
  /\ server.workers_pool s <> []
  /\ exists added,
       gorm.clicks (db (server.world s)) = clicks0 ++ added
       /\ NoDup (map models.ClickID added)
       /\ Permutation
            (map unset_ClickID added
               ++ map workers.click_of (inflight (server.workers_pool s))
               ++ map workers.click_of
                    (channel.buf (ClickEventsChannel (server.world s))))
            expected.

(** [locked_world] along its run: the first candidate generated, the
    pre-check that finds it taken, the retry logged, the second candidate
    generated, the pre-check that fails. *)
Definition locked_world_first : World :=
  Eval vm_compute in snd (services.GenerateShortCode 6 locked_world).

Definition locked_db_first : gorm.DB :=
  Eval vm_compute in
    snd (repository.GetLinkByShortCode "aaaaaa" (db locked_world_first)).

Definition locked_world_collided : World :=
  set_log_output (log_output locked_world_first ++ [retry_line "aaaaaa" 0])
    (set_db locked_db_first locked_world_first).

Definition locked_world_generated : World :=
  Eval vm_compute in snd (services.GenerateShortCode 6 locked_world_collided).

Definition locked_world_failed : World :=
  Eval vm_compute in
    set_db (snd (repository.GetLinkByShortCode "bcdefg" (db locked_world_generated)))
      locked_world_generated.

(** [race_world] once its candidate is generated, once the pre-check has
    run, and once the INSERT has failed. *)
Definition race_world_generated : World :=
  Eval vm_compute in snd (services.GenerateShortCode 6 race_world).

Definition race_world_checked : World :=
  Eval vm_compute in
    set_db (snd (repository.GetLinkByShortCode "bcdefg" (db race_world_generated)))
      race_world_generated.

Definition race_world_failed : World :=
  Eval vm_compute in
    set_db (snd (repository.CreateLink
                   (new_link "bcdefg" "https://example.org/a" 1700000000)
                   (db race_world_checked)))
      race_world_checked.

(** [calm_world] once CreateLink has returned. *)
Definition calm_world_created : World :=
  Eval vm_compute in snd (services.CreateLink "https://example.org/a" calm_world).

(** Two redirects enqueued before the two workers of a pool have run. *)
Definition sample_calls : list (api.ClickEvent * string) :=
  [(sample_event 1 "aaaaaa" 1700000001, "aaaaaa");
   (sample_event 2 "Zx91Qp" 1700000002, "Zx91Qp")].

Definition sample_pipeline : server.System :=
  Eval vm_compute in
    started (pipeline_start 2 2 5 8080 sample_calls (sample_world sample_db []))
      (sample_world sample_db []).

(** The two workers start, then take one event each, in step. *)
Definition sample_schedule : list (nat * workers.select_case) :=
  [(0, workers.case_Receive); (1, workers.case_Receive);
   (0, workers.case_Receive); (1, workers.case_Receive);
   (1, workers.case_Receive); (0, workers.case_Receive);
   (0, workers.case_Receive); (1, workers.case_Receive)].

Definition sample_pipeline_end : server.System :=
  Eval vm_compute in
    match server.run (worker_moves sample_schedule) sample_pipeline with
    | Some s => s
    | None => sample_pipeline
    end.

(** The first candidate collides and the entropy source dries up in the
    middle of the second one. *)
Definition starved_world : World :=
  sample_world sample_db (zero_draws 6 ++ [1; 2; 3]%N).

Definition starved_world_first : World :=
  Eval vm_compute in snd (services.GenerateShortCode 6 starved_world).

Definition starved_db_first : gorm.DB :=
  Eval vm_compute in
    snd (repository.GetLinkByShortCode "aaaaaa" (db starved_world_first)).

Definition starved_world_collided : World :=
  set_log_output (log_output starved_world_first ++ [retry_line "aaaaaa" 0])
    (set_db starved_db_first starved_world_first).

Definition starved_world_end : World :=
  Eval vm_compute in snd (services.GenerateShortCode 6 starved_world_collided).

Definition not_found_answer : handlers.Response :=
  handlers.JSON handlers.StatusNotFound [("error", handlers.JString "link not found")].


Definition created_answer (code longURL : string) : handlers.Response :=
  handlers.JSON handlers.StatusCreated
    [("short_code", handlers.JString code);
     ("long_url", handlers.JString longURL);
     ("full_short_url", handlers.JString ("http://localhost:8080/" ++ code))].

Definition a_request (code : string) (body : option string) : handlers.Request :=
  {| handlers.Param_shortCode := code; handlers.Header_User_Agent := "curl/8.5.0";
     handlers.ClientIP := "192.0.2.7"; handlers.Body_long_url := body |}.

(** The click rows of a link. *)
Definition clicks_of_link (id : N) (d : gorm.DB) : list models.Click :=
  filter (gorm.has_link_id id) (gorm.clicks d).

Definition stats_answer (link : models.Link) (totalClicks : Z) : handlers.Response :=
  handlers.JSON handlers.StatusOK
    [("short_code", handlers.JString (models.ShortCode link));
     ("long_url", handlers.JString (models.LongURL link));
     ("total_clicks", handlers.JNumber totalClicks)].

(** [d] after the statements [sts] have been journalled and nothing else
    has happened. *)
Definition journalled (sts : list gorm.stmt) (d : gorm.DB) : gorm.DB :=
  {| gorm.links := gorm.links d; gorm.clicks := gorm.clicks d;
     gorm.env := gorm.env d; gorm.journal := gorm.journal d ++ sts |}.


(** The event RedirectHandler builds for a request that resolved to
    [link] when the clock read [now]. *)
Definition event_for (c : handlers.Request) (link : models.Link) (now : Z)
  : api.ClickEvent :=
  {| api.LinkID := models.ID link;
     api.ShortCode := handlers.Param_shortCode c;
     api.Timestamp := now;
     api.UserAgent := handlers.Header_User_Agent c;
     api.IP := handlers.ClientIP c |}.

(** With one worker the clicks go to the table in the order the events
    have in the queue: the rows added so far, the event the worker holds
    and the events still queued make up [expected], in this order. *)
Definition draining_in_order (clicks0 expected : list models.Click)
  (s : server.System) : Prop :=
  exists id g added,
    server.workers_pool s = [(id, g)]
    /\ gorm.clicks (db (server.world s)) = clicks0 ++ added
    /\ map unset_ClickID added
         ++ map workers.click_of (inflight [(id, g)])
         ++ map workers.click_of
              (channel.buf (ClickEventsChannel (server.world s)))
       = expected.

(** One worker takes the two sample events one after the other. *)
Definition single_pipeline : server.System :=
  Eval vm_compute in
    started (pipeline_start 2 1 5 8080 sample_calls (sample_world sample_db []))
      (sample_world sample_db []).

Definition single_schedule : list (nat * workers.select_case) :=
  repeat (0, workers.case_Receive) 7.

Definition single_pipeline_end : server.System :=
  Eval vm_compute in
    match server.run (worker_moves single_schedule) single_pipeline with
    | Some s => s
    | None => single_pipeline
    end.

(** The candidate six draws spell, and the candidates of [n] attempts in a
    row. *)
Definition drawn (v : N) : ascii :=
  services.charset_at (v mod N.of_nat (String.length services.charset)).

Definition candidate (draws : list N) : string :=
  string_of_list_ascii (map drawn (firstn 6 draws)).

Fixpoint candidates (n : nat) (draws : list N) : list string :=
  match n with
  | O => []
  | S n' => candidate draws :: candidates n' (skipn 6 draws)
  end.

(** No row of the table has the short code. *)
Definition free_code (rows : list models.Link) (code : string) : bool :=
  negb (existsb (gorm.has_short_code code) rows).

(** The candidates up to the first free one, that one included. *)
Fixpoint up_to_free (rows : list models.Link) (codes : list string) : list string :=
  match codes with
  | [] => []
  | code :: rest =>
      if free_code rows code then [code] else code :: up_to_free rows rest
  end.

(** Four redirects on a queue of two, before the one worker has run: the
    scenario of the specification, events A, B, C and D. *)
Definition overflow_calls : list (api.ClickEvent * string) :=
  [(sample_event 1 "aaaaaa" 1700000001, "aaaaaa");
   (sample_event 2 "Zx91Qp" 1700000002, "Zx91Qp");
   (sample_event 1 "aaaaaa" 1700000003, "aaaaaa");
   (sample_event 2 "Zx91Qp" 1700000004, "Zx91Qp")].

Definition overflow_pipeline : server.System :=
  Eval vm_compute in
    started (pipeline_start 2 1 5 8080 overflow_calls (sample_world sample_db []))
      (sample_world sample_db []).

Definition overflow_pipeline_end : server.System :=
  Eval vm_compute in
    match server.run (worker_moves single_schedule) overflow_pipeline with
    | Some s => s
    | None => overflow_pipeline
    end.

(** The clicks whose INSERT a journal holds, oldest first. *)
Definition click_inserts (sts : list gorm.stmt) : list models.Click :=
  flat_map (fun st => match st with
                      | gorm.INSERT_clicks c => [c]
                      | _ => []
                      end) sts.

(** What holds while only workers move, on a click store that may fail:
    CreateClick has been called once for each click of [attempted], and
    these, the events the workers hold and the events still queued are
    the events to process; the table has gained rows for attempts only. *)
Definition attempting (journal0 : list gorm.stmt) (clicks0 expected : list models.Click)
  (s : server.System) : Prop :=
  ctx_done (server.world s) = false
  /\ channel.closed (ClickEventsChannel (server.world s)) = false
  /\ Forall (fun m => snd m <> workers.Stopped) (server.workers_pool s)
  /\ server.workers_pool s <> []
  /\ exists attempted added,
       gorm.journal (db (server.world s))
       = journal0 ++ map gorm.INSERT_clicks attempted
       /\ gorm.clicks (db (server.world s)) = clicks0 ++ added
       /\ incl (map unset_ClickID added) attempted
       /\ List.length added <= List.length attempted
       /\ Permutation
            (attempted
               ++ map workers.click_of (inflight (server.workers_pool s))
               ++ map workers.click_of
                    (channel.buf (ClickEventsChannel (server.world s))))
            expected.

(** Every CreateClick of the two sample events fails. *)
Definition unreliable_world : World :=
  sample_world
    (with_env [gorm.Fails (sqliteError "disk I/O error");
               gorm.Fails (sqliteError "disk I/O error")] sample_db) [].

Definition unreliable_pipeline : server.System :=
  Eval vm_compute in
    started (pipeline_start 2 2 5 8080 sample_calls unreliable_world) unreliable_world.

Definition unreliable_pipeline_end : server.System :=
  Eval vm_compute in
    match server.run (worker_moves sample_schedule) unreliable_pipeline with
    | Some s => s
    | None => unreliable_pipeline
    end.

(** The driver answers a statement with an error that [errors.Is] takes for
    gorm.ErrRecordNotFound, though no lookup has run. *)
Definition spurious_not_found (script : list gorm.event) : Prop :=
  exists e, In (gorm.Fails e) script /\ errors.Is e ErrRecordNotFound = true.

(** Another connection inserts a link while the call is under way. *)
Definition concurrent_insert (script : list gorm.event) : Prop :=
  exists code url, In (gorm.Races code url) script.

(** A row of the table has the short code, or another connection's insert
    of it is to come. *)
Definition taken_or_raced (w : World) (code : string) : Prop :=
  existsb (gorm.has_short_code code) (gorm.links (db w)) = true
  \/ exists url, In (gorm.Races code url) (gorm.env (db w)).

(** Whether the dynamic type of an error is one of package customerrors. *)
Definition is_customerror (e : error) : bool :=
  match e with
  | ErrCodeCollision _ _ | ErrLinkNotFound _ | ErrInvalidURL _ _
  | ErrMaxRetriesExceeded _ _ | ErrDatabaseOperation _ _ _ => true
  | _ => false
  end.

(** The errors CreateLink can return from world [w], each with what in the
    world causes it. *)
Inductive CreateLink_failure (w : World) : error -> Prop :=
| failure_exhausted :
    30 <= List.length (rand_Reader w) ->
    Forall (taken_or_raced w) (candidates 5 (rand_Reader w)) ->
    CreateLink_failure w (errors.New exhausted_message)
| failure_entropy :
    List.length (rand_Reader w) < 30 ->
    CreateLink_failure w
      (fmt.Errorf "erreur lors de la génération du code court: "
         (fmt.Errorf "erreur lors de la génération du code aléatoire: "
            (errorString "unexpected EOF")))
| failure_precheck (code : string) (e : error) :
    In (gorm.Fails e) (gorm.env (db w)) ->
    errors.Is e ErrRecordNotFound = false ->
    CreateLink_failure w
      (fmt.Errorf "database error checking short code uniqueness: "
         (fmt.Errorf
            ("erreur lors de la récupération du lien par shortCode '" ++ code ++ "' : ")
            e))
| failure_persist_driver (e : error) :
    In (gorm.Fails e) (gorm.env (db w)) ->
    CreateLink_failure w
      (fmt.Errorf "erreur lors de la création du lien: "
         (fmt.Errorf "erreur lors de la création du lien : " e))
| failure_persist_collision :
    concurrent_insert (gorm.env (db w)) \/ spurious_not_found (gorm.env (db w)) ->
    CreateLink_failure w
      (fmt.Errorf "erreur lors de la création du lien: "
         (fmt.Errorf "erreur lors de la création du lien : " gorm.unique_violation)).

(** * Properties *)

(** ** The click queue *)

Lemma tryEnqueue_room (ev : api.ClickEvent) (code : string) (w : World) :
  channel.closed (ClickEventsChannel w) = false ->
  List.length (channel.buf (ClickEventsChannel w)) < channel.cap (ClickEventsChannel w) ->
  handlers.tryEnqueue ev code w =
    (channel.Sent,
     set_ClickEventsChannel
       {| channel.cap := channel.cap (ClickEventsChannel w);
          channel.buf := channel.buf (ClickEventsChannel w) ++ [ev];
          channel.closed := false |} w).
Proof.
  intros Hopen Hroom. unfold handlers.tryEnqueue, channel.select_send.
  rewrite Hopen. apply Nat.ltb_lt in Hroom. rewrite Hroom. reflexivity.
Qed.

Lemma tryEnqueue_full (ev : api.ClickEvent) (code : string) (w : World) :
  channel.closed (ClickEventsChannel w) = false ->
  channel.cap (ClickEventsChannel w) <= List.length (channel.buf (ClickEventsChannel w)) ->
  handlers.tryEnqueue ev code w =
    (channel.Default, set_log_output (log_output w ++ [dropped_warning code]) w).
Proof.
  intros Hopen Hfull. unfold handlers.tryEnqueue, channel.select_send.
  rewrite Hopen. apply Nat.ltb_ge in Hfull. rewrite Hfull. reflexivity.
Qed.

(** From any open channel: the calls fill the room that is left, in order,
    and every later call is dropped with its warning; nothing else in the
    world moves. *)
Lemma tryEnqueue_all_from (calls : list (api.ClickEvent * string)) :
  forall (w : World),
    channel.closed (ClickEventsChannel w) = false ->
    let room := channel.cap (ClickEventsChannel w)
                - List.length (channel.buf (ClickEventsChannel w)) in
    let n := List.length calls in
    tryEnqueue_all calls w =
      (repeat channel.Sent (Nat.min room n) ++ repeat channel.Default (n - room),
       set_log_output
         (log_output w ++ map dropped_warning (skipn room (map snd calls)))
         (set_ClickEventsChannel
            {| channel.cap := channel.cap (ClickEventsChannel w);
               channel.buf := channel.buf (ClickEventsChannel w)
                                ++ firstn room (map fst calls);
               channel.closed := false |} w)).
Proof.
  induction calls as [|[ev code] rest IH]; intros w Hopen; cbn zeta.
  - cbn. rewrite Nat.min_0_r, skipn_nil, firstn_nil, !app_nil_r. cbn.
    destruct w as [d r l c [cp b cl] dn]; cbn in *. subst cl. reflexivity.
  - cbn [tryEnqueue_all]. unfold bind at 1.
    destruct (Nat.ltb_spec (List.length (channel.buf (ClickEventsChannel w)))
                (channel.cap (ClickEventsChannel w))) as [Hroom|Hfull].
    + rewrite (tryEnqueue_room _ _ _ Hopen Hroom). unfold bind at 1.
      rewrite IH by reflexivity. cbn [ret].
      cbn [ClickEventsChannel set_ClickEventsChannel channel.cap channel.buf
             log_output set_log_output].
      rewrite length_app. cbn [List.length map fst snd].
      remember (channel.cap (ClickEventsChannel w)) as C.
      remember (List.length (channel.buf (ClickEventsChannel w))) as B.
      replace (C - B) with (S (C - (B + 1))) by lia.
      cbn [Nat.min firstn skipn repeat Nat.sub app].
      rewrite <- app_assoc. subst C B. reflexivity.
    + rewrite (tryEnqueue_full _ _ _ Hopen Hfull). unfold bind at 1.
      rewrite IH by exact Hopen. cbn [ret].
      cbn [ClickEventsChannel set_ClickEventsChannel channel.cap channel.buf
             log_output set_log_output].
      remember (channel.cap (ClickEventsChannel w)) as C.
      remember (List.length (channel.buf (ClickEventsChannel w))) as B.
      replace (C - B) with 0 by lia.
      cbn [Nat.min firstn skipn repeat Nat.sub app List.length map fst snd].
      rewrite !app_nil_r, <- app_assoc, Nat.sub_0_r. subst C B. reflexivity.
Qed.

(** C4. A producer calls tryEnqueue any number of times on a queue of
    capacity [C] that no worker reads.  Every call returns, with [Sent] or
    [Default]: the first [C] events are accepted and kept in arrival order,
    every later one is dropped with the warning in the log, and what the
    queue holds in the end are the first [C] events. *)
Theorem tryEnqueue_keeps_first_capacity_events :
  forall (C : nat) (calls : list (api.ClickEvent * string)) (w : World),
    let start := set_ClickEventsChannel (channel.make api.ClickEvent C) w in
    let outcomes := fst (tryEnqueue_all calls start) in
    let after := snd (tryEnqueue_all calls start) in
    let n := List.length calls in
    outcomes = repeat channel.Sent (Nat.min C n) ++ repeat channel.Default (n - C)
    /\ List.length outcomes = n
    /\ channel.buf (ClickEventsChannel after) = firstn C (map fst calls)
    /\ List.length (channel.buf (ClickEventsChannel after)) = Nat.min C n
    /\ log_output after
       = log_output w ++ map dropped_warning (skipn C (map snd calls))
    /\ db after = db w.
Proof.
  intros C calls w start outcomes after n.
  assert (Hopen : channel.closed (ClickEventsChannel start) = false) by reflexivity.
  pose proof (tryEnqueue_all_from calls start Hopen) as H. cbn zeta in H.
  replace (channel.cap (ClickEventsChannel start)
           - List.length (channel.buf (ClickEventsChannel start))) with C in H
    by (cbn; lia).
  subst outcomes after. rewrite H. cbn [fst snd]. fold n.
  repeat split.
  - rewrite length_app, !repeat_length. lia.
  - cbn. rewrite length_firstn, length_map. reflexivity.
Qed.

(** ** The repositories *)

Definition lookup_error_prefix (shortCode : string) : string :=
  "erreur lors de la récupération du lien par shortCode '" ++ shortCode ++ "' : ".

Lemma GetLinkByShortCode_unfold (code : string) (d : gorm.DB) :
  repository.GetLinkByShortCode code d =
    let d' := snd (gorm.arrive (gorm.SELECT_links code) d) in
    (match hd gorm.Quiet (gorm.env d) with
     | gorm.Fails e => Err (fmt.Errorf (lookup_error_prefix code) e)
     | _ =>
         match find (gorm.has_short_code code) (gorm.links d') with
         | Some l => Ok l
         | None => Err (fmt.Errorf (lookup_error_prefix code) ErrRecordNotFound)
         end
     end, d').
Proof.
  unfold repository.GetLinkByShortCode, gorm.Where_short_code_First, bind, gets, ret.
  unfold gorm.arrive. cbn zeta.
  destruct (hd gorm.Quiet (gorm.env d)) as [|e|c u]; cbn;
    try reflexivity;
    match goal with |- context [find ?f ?l] => destruct (find f l) end; reflexivity.
Qed.

Lemma GetLinkByShortCode_found (code : string) (d d' : gorm.DB) (l : models.Link) :
  repository.GetLinkByShortCode code d = (Ok l, d') ->
  In l (gorm.links d') /\ models.ShortCode l = code.
Proof.
  rewrite GetLinkByShortCode_unfold. cbn zeta. intros H.
  assert (Hd : d' = snd (gorm.arrive (gorm.SELECT_links code) d))
    by (inversion H; reflexivity).
  rewrite <- Hd in H.
  assert (Hf : find (gorm.has_short_code code) (gorm.links d') = Some l).
  { destruct (hd gorm.Quiet (gorm.env d)); try discriminate;
      destruct (find (gorm.has_short_code code) (gorm.links d'));
      inversion H; reflexivity. }
  apply find_some in Hf. destruct Hf as [Hin Hc]. split; [exact Hin|].
  apply String.eqb_eq. exact Hc.
Qed.

(** C8. A link with no recorded click counts 0 and the error is nil.  The
    only error CountClicksByLinkID can return is the one the driver reports
    for the statement, wrapped; the absence of rows is not one. *)
Theorem CountClicksByLinkID_zero_clicks :
  forall (d : gorm.DB) (linkID : N),
    (forall c, In c (gorm.clicks d) -> models.LinkID c <> linkID) ->
    fst (repository.CountClicksByLinkID linkID d) =
      match hd gorm.Quiet (gorm.env d) with
      | gorm.Fails e => (0%Z, Some (fmt.Errorf (count_error_prefix linkID) e))
      | _ => (0%Z, None)
      end.
Proof.
  intros d linkID Hnone.
  assert (Hfilter : filter (gorm.has_link_id linkID) (gorm.clicks d) = []).
  { induction (gorm.clicks d) as [|c rows IH]; [reflexivity|]. cbn.
    unfold gorm.has_link_id at 1.
    destruct (N.eqb_spec (models.LinkID c) linkID) as [Heq|Hne].
    - exfalso. apply (Hnone c); [left; reflexivity | exact Heq].
    - apply IH. intros c' Hin. apply Hnone. right. exact Hin. }
  unfold repository.CountClicksByLinkID, gorm.Where_link_id_Count, bind, gets, ret.
  unfold gorm.arrive. cbn zeta.
  destruct (hd gorm.Quiet (gorm.env d)) as [|e|c u]; cbn;
    try rewrite Hfilter; reflexivity.
Qed.

Lemma CountClicksByLinkID_zero_clicks_witness :
  (forall c, In c (gorm.clicks sample_db) -> models.LinkID c <> 2%N)
  /\ fst (repository.CountClicksByLinkID 2 sample_db) = (0%Z, None).
Proof.
  assert (H : forall c, In c (gorm.clicks sample_db) -> models.LinkID c <> 2%N).
  { intros c Hin. cbn in Hin.
    destruct Hin as [<-|[<-|[<-|[]]]]; cbn; discriminate. }
  split; [exact H|].
  exact (CountClicksByLinkID_zero_clicks sample_db 2%N H).
Defined.

(** ** The redirect handler *)

(** C9. RedirectHandler sends a click event only after the lookup of the
    short code has succeeded.  When the lookup fails, with not-found or
    with any other error, the channel is left as it was and the answer is
    the 404 or the 500, never a redirect.  When it succeeds, the link it
    returned is a row of the links table as the lookup left it, and the
    channel either is unchanged (event dropped, or send on a closed
    channel) or has gained one event carrying that link's ID. *)
Theorem RedirectHandler_enqueues_only_after_lookup :
  forall (c : handlers.Request) (w : World),
    let looked := services.GetLinkByShortCode (handlers.Param_shortCode c) w in
    let served := handlers.RedirectHandler c w in
    let before := ClickEventsChannel w in
    let after := ClickEventsChannel (snd served) in
    match fst looked with
    | Err err =>
        after = before
        /\ (fst served
              = handlers.JSON handlers.StatusNotFound
                  [("error", handlers.JString "link not found")]
            \/ fst served
                 = handlers.JSON handlers.StatusInternalServerError
                     [("error", handlers.JString "internal server error")])
    | Ok link =>
        In link (gorm.links (db (snd looked)))
        /\ (after = before
            \/ exists ev,
                channel.buf after = channel.buf before ++ [ev]
                /\ api.LinkID ev = models.ID link
                /\ api.ShortCode ev = handlers.Param_shortCode c
                /\ fst served
                   = handlers.Redirect handlers.StatusFound (models.LongURL link))
    end.
Proof.
  intros c w. cbn zeta.
  unfold handlers.RedirectHandler, bind, time.Now, gets.
  destruct (services.GetLinkByShortCode (handlers.Param_shortCode c) w)
    as [[link|err] w1] eqn:Hlook; cbn [fst snd].
  - (* the lookup succeeded *)
    assert (Hw1 : In link (gorm.links (db w1)) /\ ClickEventsChannel w1 = ClickEventsChannel w
                  /\ log_output w1 = log_output w).
    { unfold services.GetLinkByShortCode, bind, on_db, zoom in Hlook.
      destruct (repository.GetLinkByShortCode (handlers.Param_shortCode c) (db w))
        as [[l|e] d'] eqn:Hrepo; cbn in Hlook; inversion Hlook; subst.
      apply GetLinkByShortCode_found in Hrepo. cbn. tauto. }
    destruct Hw1 as [Hin [Hch Hlog]]. split; [exact Hin|].
    unfold handlers.tryEnqueue, channel.select_send. rewrite Hch.
    destruct (channel.closed (ClickEventsChannel w)); [left; cbn; exact Hch|].
    destruct (Nat.ltb _ _); cbn.
    + right. eexists. repeat split.
    + left. exact Hch.
  - (* the lookup failed *)
    assert (Hch : ClickEventsChannel w1 = ClickEventsChannel w).
    { unfold services.GetLinkByShortCode, bind, on_db, zoom in Hlook.
      destruct (repository.GetLinkByShortCode (handlers.Param_shortCode c) (db w))
        as [[l|e] d'] eqn:Hrepo; cbn in Hlook; inversion Hlook; subst.
      reflexivity. }
    destruct (errors.Is err ErrRecordNotFound); cbn.
    + split; [exact Hch | left; reflexivity].
    + split; [exact Hch | right; reflexivity].
Qed.

(** ** Short-code generation *)

Lemma set_rand_Reader_same (w : World) : set_rand_Reader (rand_Reader w) w = w.
Proof. destruct w; reflexivity. Qed.

Lemma store_length (i : nat) (c : ascii) (bytes : list ascii) :
  List.length (services.store i c bytes) = List.length bytes.
Proof.
  revert i. induction bytes as [|b rest IH]; intros [|i]; cbn; auto.
Qed.

Lemma store_firstn (i : nat) (c : ascii) (bytes : list ascii) :
  i < List.length bytes ->
  firstn (S i) (services.store i c bytes) = firstn i bytes ++ [c].
Proof.
  revert i. induction bytes as [|b rest IH]; intros [|i] Hlt; cbn in *; try lia.
  - reflexivity.
  - f_equal. apply IH. lia.
Qed.

Lemma get_in (s : string) (n : nat) (c : ascii) :
  String.get n s = Some c -> In c (list_ascii_of_string s).
Proof.
  revert n. induction s as [|a s IH]; intros [|n] H; cbn in *; try discriminate.
  - left. congruence.
  - right. eapply IH. exact H.
Qed.

Lemma get_in_range (s : string) (n : nat) :
  n < String.length s -> String.get n s <> None.
Proof.
  revert n. induction s as [|a s IH]; intros [|n] H; cbn in *; try lia.
  - discriminate.
  - apply IH. lia.
Qed.

Lemma charset_at_in_charset (v : N) :
  in_charset (services.charset_at (v mod N.of_nat (String.length services.charset))).
Proof.
  unfold in_charset, services.charset_at.
  set (n := N.to_nat (v mod N.of_nat (String.length services.charset))).
  assert (Hn : n < String.length services.charset).
  { subst n. pose proof (N.mod_upper_bound v (N.of_nat (String.length services.charset))) as H.
    cbn in *. lia. }
  destruct (String.get n services.charset) as [c|] eqn:Hget.
  - eapply get_in. exact Hget.
  - exfalso. eapply get_in_range; eassumption.
Qed.

(** A run of the generation loop that succeeds has consumed [n] draws and
    nothing else, and has written [n] characters of the alphabet from
    position [i] on. *)
Lemma GenerateShortCode_loop_ok (n : nat) :
  forall (i : nat) (bytes out : list ascii) (w w1 : World),
    services.GenerateShortCode_loop n i bytes w = (Ok out, w1) ->
    i + n <= List.length bytes ->
    Forall in_charset (firstn i bytes) ->
    List.length out = List.length bytes
    /\ Forall in_charset (firstn (i + n) out)
    /\ n <= List.length (rand_Reader w)
    /\ w1 = set_rand_Reader (skipn n (rand_Reader w)) w.
Proof.
  induction n as [|n IH]; intros i bytes out w w1 Hrun Hlen Hpre.
  - cbn in Hrun. inversion Hrun; subst. rewrite Nat.add_0_r. cbn [skipn].
    rewrite set_rand_Reader_same. repeat split; auto. lia.
  - cbn [services.GenerateShortCode_loop] in Hrun. unfold bind, rand.Int in Hrun.
    destruct (rand_Reader w) as [|v rest] eqn:Hr; [discriminate|].
    apply IH in Hrun.
    + destruct Hrun as [Hl [Hall [Hn Hw]]].
      rewrite store_length in Hl. cbn [rand_Reader set_rand_Reader] in Hn, Hw.
      replace (i + S n) with (S i + n) by lia.
      split; [exact Hl|]. split; [exact Hall|]. split; [cbn; lia|].
      rewrite Hw. cbn [skipn]. destruct w; reflexivity.
    + rewrite store_length. lia.
    + rewrite store_firstn by lia. apply Forall_app. split; [exact Hpre|].
      constructor; [|constructor]. apply charset_at_in_charset.
Qed.

Lemma length_string_of_list_ascii (l : list ascii) :
  String.length (string_of_list_ascii l) = List.length l.
Proof. induction l; cbn; auto. Qed.

Lemma GenerateShortCode_ok (n : nat) (w w1 : World) (code : string) :
  services.GenerateShortCode n w = (Ok code, w1) ->
  String.length code = n
  /\ Forall in_charset (list_ascii_of_string code)
  /\ n <= List.length (rand_Reader w)
  /\ w1 = set_rand_Reader (skipn n (rand_Reader w)) w.
Proof.
  unfold services.GenerateShortCode, bind. intros H.
  destruct (services.GenerateShortCode_loop n 0 (repeat zero n) w)
    as [[out|e] w'] eqn:Hloop; cbn in H; inversion H; subst; clear H.
  apply GenerateShortCode_loop_ok in Hloop.
  - destruct Hloop as [Hl [Hall [Hn Hw]]]. rewrite repeat_length in Hl.
    rewrite length_string_of_list_ascii, list_ascii_of_string_of_list_ascii.
    repeat split; auto.
    cbn [Nat.add] in Hall. rewrite <- Hl, firstn_all in Hall. exact Hall.
  - rewrite repeat_length. lia.
  - constructor.
Qed.

(** ** The retry loop of CreateLink *)

Lemma CreateLink_loop_step (n : nat) (i : Z) (w : World) :
  services.CreateLink_loop (S n) i w =
    match services.GenerateShortCode 6 w with
    | (Err e, w1) =>
        (Err (fmt.Errorf "erreur lors de la génération du code court: " e), w1)
    | (Ok code, w1) =>
        match repository.GetLinkByShortCode code (db w1) with
        | (Err e, d2) =>
            if errors.Is e ErrRecordNotFound
            then (Ok code, set_db d2 w1)
            else (Err (fmt.Errorf
                         "database error checking short code uniqueness: " e),
                  set_db d2 w1)
        | (Ok _, d2) =>
            services.CreateLink_loop n (i + 1)
              (set_log_output (log_output w1 ++ [retry_line code i]) (set_db d2 w1))
        end
    end.
Proof.
  cbn [services.CreateLink_loop]. unfold bind at 1.
  destruct (services.GenerateShortCode 6 w) as [[code|e] w1]; [|reflexivity].
  unfold bind at 1. unfold on_db, zoom.
  destruct (repository.GetLinkByShortCode code (db w1)) as [[l|e] d2].
  - reflexivity.
  - destruct (errors.Is e ErrRecordNotFound); reflexivity.
Qed.

Lemma CreateLink_loop_after_collisions (k : nat) :
  forall (n : nat) (i : Z) (w w' : World) (codes : list string),
    collisions k i w codes w' ->
    services.CreateLink_loop (k + n) i w
    = services.CreateLink_loop n (i + Z.of_nat k) w'.
Proof.
  induction k as [|k IH]; intros n i w w' codes Hc; inversion Hc; subst.
  - cbn [Nat.add]. rewrite Z.add_0_r. reflexivity.
  - cbn [Nat.add]. rewrite CreateLink_loop_step.
    match goal with H : services.GenerateShortCode 6 w = _ |- _ => rewrite H end.
    match goal with H : repository.GetLinkByShortCode _ _ = _ |- _ => rewrite H end.
    erewrite IH by eassumption. f_equal. lia.
Qed.

(** Colliding attempts issue one SELECT each and nothing else, and consume
    six draws each. *)
Lemma collisions_effects (k : nat) :
  forall (i : Z) (w w' : World) (codes : list string),
    collisions k i w codes w' ->
    List.length codes = k
    /\ gorm.journal (db w') = gorm.journal (db w) ++ map gorm.SELECT_links codes
    /\ rand_Reader w' = skipn (6 * k) (rand_Reader w)
    /\ 6 * k <= List.length (rand_Reader w)
    /\ ClickEventsChannel w' = ClickEventsChannel w
    /\ gorm.clicks (db w') = gorm.clicks (db w).
Proof.
  induction k as [|k IH]; intros i w w' codes Hc; inversion Hc; subst.
  - cbn. rewrite app_nil_r. repeat split; auto. lia.
  - match goal with H : collisions k _ _ _ _ |- _ => apply IH in H;
      destruct H as [Hlen [Hj [Hr [Hle [Hch Hcl]]]]] end.
    match goal with H : services.GenerateShortCode 6 w = _ |- _ =>
      apply GenerateShortCode_ok in H; destruct H as [_ [_ [Hn Hw1]]] end.
    match goal with H : repository.GetLinkByShortCode _ _ = _ |- _ =>
      rewrite GetLinkByShortCode_unfold in H; cbn zeta in H;
      assert (Hd2 : d2 = snd (gorm.arrive (gorm.SELECT_links code) (db w1)))
        by (inversion H; reflexivity) end.
    subst w1 d2. cbn -[skipn Nat.mul] in Hj, Hr, Hle, Hch, Hcl |- *.
    rewrite length_skipn in Hle.
    repeat split.
    + congruence.
    + rewrite Hj, <- app_assoc. reflexivity.
    + rewrite Hr, skipn_skipn. f_equal. lia.
    + lia.
    + exact Hch.
    + exact Hcl.
Qed.

Lemma CreateLink_loop_ok (n : nat) :
  forall (i : Z) (w w1 : World) (code : string),
    services.CreateLink_loop n i w = (Ok code, w1) ->
    code = ""
    \/ (String.length code = 6 /\ Forall in_charset (list_ascii_of_string code)).
Proof.
  induction n as [|n IH]; intros i w w1 code H.
  - cbn in H. inversion H. left. reflexivity.
  - rewrite CreateLink_loop_step in H.
    destruct (services.GenerateShortCode 6 w) as [[c|e] wg] eqn:Hgen;
      [|discriminate].
    destruct (repository.GetLinkByShortCode c (db wg)) as [[l|e] d2].
    + eapply IH. exact H.
    + destruct (errors.Is e ErrRecordNotFound); [|discriminate].
      inversion H; subst. right.
      apply GenerateShortCode_ok in Hgen. tauto.
Qed.

Lemma length_6_not_empty (code : string) :
  String.length code = 6 -> String.eqb code "" = false.
Proof. destruct code; [discriminate | reflexivity]. Qed.

(** CreateLink once attempt [k] (counted from 0) has a candidate: what the
    function returns is decided by the pre-check and, when the pre-check
    says not found, by the single INSERT that follows. *)
Lemma CreateLink_at_attempt (longURL : string) (k : nat) (w wk w1 : World)
  (codes : list string) (code : string) :
  k < Z.to_nat services.maxRetries ->
  collisions k 0 w codes wk ->
  services.GenerateShortCode 6 wk = (Ok code, w1) ->
  services.CreateLink longURL w =
    match repository.GetLinkByShortCode code (db w1) with
    | (Err e, d2) =>
        if errors.Is e ErrRecordNotFound
        then
          match repository.CreateLink (new_link code longURL (clock w1)) d2 with
          | ((_, Some e'), d3) =>
              (Err (fmt.Errorf "erreur lors de la création du lien: " e'),
               set_db d3 w1)
          | ((link', None), d3) => (Ok link', set_db d3 w1)
          end
        else (Err (fmt.Errorf
                     "database error checking short code uniqueness: " e),
              set_db d2 w1)
    | (Ok _, d2) =>
        services.CreateLink_from (Z.to_nat services.maxRetries - S k)
          (Z.of_nat (S k)) longURL
          (set_log_output (log_output w1 ++ [retry_line code (Z.of_nat k)])
             (set_db d2 w1))
    end.
Proof.
  intros Hk Hcol Hgen.
  unfold services.CreateLink, services.CreateLink_from.
  replace (Z.to_nat services.maxRetries)
    with (k + S (Z.to_nat services.maxRetries - S k)) at 1 by lia.
  unfold bind at 1.
  rewrite (CreateLink_loop_after_collisions _ _ _ _ _ _ Hcol).
  rewrite CreateLink_loop_step, Hgen. cbn [Z.add].
  destruct (repository.GetLinkByShortCode code (db w1)) as [[l|e] d2].
  - unfold bind. replace (Z.of_nat (S k)) with (Z.of_nat k + 1)%Z by lia.
    reflexivity.
  - destruct (errors.Is e ErrRecordNotFound); [|reflexivity].
    unfold services.CreateLink_persist.
    apply GenerateShortCode_ok in Hgen. destruct Hgen as [Hlen _].
    rewrite (length_6_not_empty _ Hlen).
    unfold bind, time.Now, gets, on_db, zoom. cbn [db set_db clock].
    fold (new_link code longURL (clock w1)).
    destruct (repository.CreateLink (new_link code longURL (clock w1)) d2)
      as [[link' [e'|]] d3]; reflexivity.
Qed.

(** C10. At whichever attempt the uniqueness pre-check fails with an error
    that is not a not-found, CreateLink returns at once with that error
    wrapped.  The world it leaves is the one the failed lookup left: the
    journal holds the pre-checks and no INSERT, and no draw beyond the
    candidates already generated has been consumed. *)
Theorem CreateLink_stops_on_precheck_failure :
  forall (longURL : string) (k : nat) (w wk w1 : World)
         (codes : list string) (code : string) (e : error) (d2 : gorm.DB),
    k < Z.to_nat services.maxRetries ->
    collisions k 0 w codes wk ->
    services.GenerateShortCode 6 wk = (Ok code, w1) ->
    repository.GetLinkByShortCode code (db w1) = (Err e, d2) ->
    errors.Is e ErrRecordNotFound = false ->
    services.CreateLink longURL w
    = (Err (fmt.Errorf "database error checking short code uniqueness: " e),
       set_db d2 w1)
    /\ errors.Unwrap (fmt.Errorf "database error checking short code uniqueness: " e)
       = Some e
    /\ gorm.journal d2
       = gorm.journal (db w) ++ map gorm.SELECT_links (codes ++ [code])
    /\ rand_Reader w1 = skipn (6 * (k + 1)) (rand_Reader w)
    /\ log_output w1 = log_output wk.
Proof.
  intros longURL k w wk w1 codes code e d2 Hk Hcol Hgen Hget His.
  split.
  { rewrite (CreateLink_at_attempt longURL k w wk w1 codes code Hk Hcol Hgen).
    rewrite Hget, His. reflexivity. }
  split; [reflexivity|].
  apply collisions_effects in Hcol. destruct Hcol as [_ [Hj [Hr [Hle _]]]].
  apply GenerateShortCode_ok in Hgen. destruct Hgen as [_ [_ [_ Hw1]]].
  rewrite GetLinkByShortCode_unfold in Hget. cbn zeta in Hget.
  assert (Hd2 : d2 = snd (gorm.arrive (gorm.SELECT_links code) (db w1)))
    by (inversion Hget; reflexivity).
  subst w1 d2. cbn -[skipn Nat.mul].
  split; [|split].
  - rewrite Hj, map_app, app_assoc. reflexivity.
  - rewrite Hr, skipn_skipn. f_equal. lia.
  - reflexivity.
Qed.

Lemma CreateLink_stops_on_precheck_failure_witness :
  services.CreateLink "https://example.org/a" locked_world
  = (Err (fmt.Errorf "database error checking short code uniqueness: "
            (fmt.Errorf (lookup_error_prefix "bcdefg")
               (sqliteError "database is locked"))),
     locked_world_failed)
  /\ gorm.journal (db locked_world_failed)
     = [gorm.SELECT_links "aaaaaa"; gorm.SELECT_links "bcdefg"]
  /\ rand_Reader locked_world_generated = repeat 7%N 24.
Proof.
  assert (Hk : 1 < Z.to_nat services.maxRetries) by (vm_compute; lia).
  assert (Hcol : collisions 1 0 locked_world ["aaaaaa"] locked_world_collided).
  { apply (collisions_S 0 0 locked_world "aaaaaa" locked_world_first
             (sample_link 1 "aaaaaa" "https://go.dev/doc")
             locked_db_first [] locked_world_collided);
      [vm_compute; reflexivity | vm_compute; reflexivity | apply collisions_O]. }
  assert (Hgen : services.GenerateShortCode 6 locked_world_collided
                 = (Ok "bcdefg", locked_world_generated))
    by (vm_compute; reflexivity).
  assert (Hget : repository.GetLinkByShortCode "bcdefg" (db locked_world_generated)
                 = (Err (fmt.Errorf (lookup_error_prefix "bcdefg")
                           (sqliteError "database is locked")),
                    db locked_world_failed))
    by (vm_compute; reflexivity).
  assert (His : errors.Is (fmt.Errorf (lookup_error_prefix "bcdefg")
                             (sqliteError "database is locked"))
                  ErrRecordNotFound = false)
    by (vm_compute; reflexivity).
  destruct (CreateLink_stops_on_precheck_failure "https://example.org/a" 1
              locked_world locked_world_collided locked_world_generated
              ["aaaaaa"] "bcdefg" _ _ Hk Hcol Hgen Hget His)
    as [Hres [_ [Hj [Hr _]]]].
  split; [exact Hres|]. split; [exact Hj | exact Hr].
Defined.

(** C1, as the code has it.  When the pre-check of an attempt says not
    found and the INSERT that follows fails (with a uniqueness violation or
    with anything else), CreateLink returns that failure wrapped.  The
    INSERT is the last statement it issues and no further candidate is
    generated: only a collision seen by the pre-check starts another
    attempt. *)
Theorem CreateLink_returns_persist_failure :
  forall (longURL : string) (k : nat) (w wk w1 : World)
         (codes : list string) (code : string) (e e' : error)
         (d2 d3 : gorm.DB) (link' : models.Link),
    k < Z.to_nat services.maxRetries ->
    collisions k 0 w codes wk ->
    services.GenerateShortCode 6 wk = (Ok code, w1) ->
    repository.GetLinkByShortCode code (db w1) = (Err e, d2) ->
    errors.Is e ErrRecordNotFound = true ->
    repository.CreateLink (new_link code longURL (clock w1)) d2
    = ((link', Some e'), d3) ->
    services.CreateLink longURL w
    = (Err (fmt.Errorf "erreur lors de la création du lien: " e'), set_db d3 w1)
    /\ gorm.journal d3
       = gorm.journal (db w) ++ map gorm.SELECT_links (codes ++ [code])
           ++ [gorm.INSERT_links (new_link code longURL (clock w1))]
    /\ rand_Reader w1 = skipn (6 * (k + 1)) (rand_Reader w).
Proof.
  intros longURL k w wk w1 codes code e e' d2 d3 link'
    Hk Hcol Hgen Hget His Hcreate.
  split.
  { rewrite (CreateLink_at_attempt longURL k w wk w1 codes code Hk Hcol Hgen).
    rewrite Hget, His, Hcreate. reflexivity. }
  apply collisions_effects in Hcol. destruct Hcol as [_ [Hj [Hr [Hle _]]]].
  apply GenerateShortCode_ok in Hgen. destruct Hgen as [_ [_ [_ Hw1]]].
  rewrite GetLinkByShortCode_unfold in Hget. cbn zeta in Hget.
  assert (Hd2 : d2 = snd (gorm.arrive (gorm.SELECT_links code) (db w1)))
    by (inversion Hget; reflexivity).
  assert (Hd3 : gorm.journal d3
                = gorm.journal d2
                    ++ [gorm.INSERT_links (new_link code longURL (clock w1))]).
  { clear - Hcreate.
    unfold repository.CreateLink, gorm.Create_Link, bind, ret in Hcreate.
    unfold gorm.arrive in Hcreate. cbn zeta in Hcreate.
    destruct (hd gorm.Quiet (gorm.env d2)) as [|ef|c u]; cbn in Hcreate;
      try (inversion Hcreate; reflexivity);
      match type of Hcreate with
      | context [gorm.insert_link ?l ?rows] =>
          unfold gorm.insert_link in Hcreate;
          match type of Hcreate with
          | context [existsb ?f ?r] => destruct (existsb f r)
          end
      end; cbn in Hcreate; inversion Hcreate; reflexivity. }
  split.
  - rewrite Hd3, Hd2. subst w1. cbn -[skipn Nat.mul].
    rewrite Hj, map_app, <- !app_assoc. reflexivity.
  - subst w1. cbn -[skipn Nat.mul]. rewrite Hr, skipn_skipn. f_equal. lia.
Qed.

Lemma CreateLink_returns_persist_failure_witness :
  services.CreateLink "https://example.org/a" race_world
  = (Err (fmt.Errorf "erreur lors de la création du lien: "
            (fmt.Errorf "erreur lors de la création du lien : "
               gorm.unique_violation)),
     race_world_failed)
  /\ rand_Reader race_world_generated = repeat 7%N 24.
Proof.
  assert (Hk : 0 < Z.to_nat services.maxRetries) by (vm_compute; lia).
  assert (Hgen : services.GenerateShortCode 6 race_world
                 = (Ok "bcdefg", race_world_generated))
    by (vm_compute; reflexivity).
  assert (Hget : repository.GetLinkByShortCode "bcdefg" (db race_world_generated)
                 = (Err (fmt.Errorf (lookup_error_prefix "bcdefg") ErrRecordNotFound),
                    db race_world_checked))
    by (vm_compute; reflexivity).
  assert (His : errors.Is (fmt.Errorf (lookup_error_prefix "bcdefg") ErrRecordNotFound)
                  ErrRecordNotFound = true)
    by (vm_compute; reflexivity).
  assert (Hcreate : repository.CreateLink
                      (new_link "bcdefg" "https://example.org/a"
                         (clock race_world_generated))
                      (db race_world_checked)
                    = ((new_link "bcdefg" "https://example.org/a" 1700000000,
                        Some (fmt.Errorf "erreur lors de la création du lien : "
                                gorm.unique_violation)),
                       db race_world_failed))
    by (vm_compute; reflexivity).
  destruct (CreateLink_returns_persist_failure "https://example.org/a" 0
              race_world race_world race_world_generated [] "bcdefg" _ _
              (db race_world_checked) (db race_world_failed) _
              Hk (collisions_O 0 race_world) Hgen Hget His Hcreate)
    as [Hres [_ Hr]].
  split; [|exact Hr].
  rewrite Hres. vm_compute. reflexivity.
Defined.

(** C1, as the specification words it, fails on [race_world]: another
    request inserts the candidate "bcdefg" between the pre-check and the
    INSERT.  The uniqueness violation is returned as the error of
    CreateLink after one attempt: the journal holds one SELECT and one
    INSERT, and the draws of the four attempts left are untouched. *)
Lemma CreateLink_persist_collision_is_fatal :
  fst (services.CreateLink "https://example.org/a" race_world)
  = Err (fmt.Errorf "erreur lors de la création du lien: "
           (fmt.Errorf "erreur lors de la création du lien : "
              gorm.unique_violation))
  /\ gorm.journal (db (snd (services.CreateLink "https://example.org/a" race_world)))
     = [gorm.SELECT_links "bcdefg";
        gorm.INSERT_links (new_link "bcdefg" "https://example.org/a" 1700000000)]
  /\ List.length (rand_Reader (snd (services.CreateLink "https://example.org/a" race_world)))
     = 6 * 4
  /\ map models.LongURL
       (gorm.links (db (snd (services.CreateLink "https://example.org/a" race_world))))
     = ["https://go.dev/doc"; "https://rocq-prover.org"; "https://elsewhere.example/"].
Proof. repeat split; vm_compute; reflexivity. Qed.

(** Five collisions in a row use up the loop: CreateLink returns the error
    it builds with errors.New. *)
Lemma CreateLink_after_max_collisions (longURL : string) (w w' : World)
  (codes : list string) :
  collisions (Z.to_nat services.maxRetries) 0 w codes w' ->
  services.CreateLink longURL w = (Err (errors.New exhausted_message), w').
Proof.
  intros Hcol. unfold services.CreateLink, services.CreateLink_from, bind.
  replace (Z.to_nat services.maxRetries) with (Z.to_nat services.maxRetries + 0)
    at 1 by lia.
  rewrite (CreateLink_loop_after_collisions _ _ _ _ _ _ Hcol). reflexivity.
Qed.

(** C2 on the code.  In [crowded_world] the five candidates are all taken.
    CreateLink returns the error made by errors.New: it is not an
    ErrMaxRetriesExceeded, it wraps nothing and carries no count.  Five
    pre-checks were made, all thirty draws consumed, nothing inserted. *)
Theorem CreateLink_exhaustion_error_is_untyped :
  fst (services.CreateLink "https://example.org/a" crowded_world)
  = Err (errorString exhausted_message)
  /\ (forall n op,
        fst (services.CreateLink "https://example.org/a" crowded_world)
        <> Err (ErrMaxRetriesExceeded n op))
  /\ gorm.journal (db (snd (services.CreateLink "https://example.org/a" crowded_world)))
     = repeat (gorm.SELECT_links "aaaaaa") 5
  /\ rand_Reader (snd (services.CreateLink "https://example.org/a" crowded_world)) = []
  /\ fst (handlers.CreateShortLinkHandler
            {| handlers.Param_shortCode := ""; handlers.Header_User_Agent := "curl/8.5.0";
               handlers.ClientIP := "192.0.2.7";
               handlers.Body_long_url := Some "https://example.org/a" |}
            crowded_world)
     = handlers.JSON handlers.StatusInternalServerError
         [("error", handlers.JString "could not create short link")].
Proof.
  assert (H : fst (services.CreateLink "https://example.org/a" crowded_world)
              = Err (errorString exhausted_message)) by (vm_compute; reflexivity).
  split; [exact H|]. split.
  { intros n op. rewrite H. discriminate. }
  repeat split; vm_compute; reflexivity.
Qed.

(** ** Persisting a link and finding it again *)

Lemma find_after_misses {A : Type} (f : A -> bool) (rows tail : list A) (x : A) :
  existsb f rows = false -> f x = true ->
  find f (rows ++ x :: tail) = Some x.
Proof.
  intros Hmiss Hx. induction rows as [|r rows IH]; cbn in *.
  - rewrite Hx. reflexivity.
  - apply orb_false_iff in Hmiss. destruct Hmiss as [Hr Hrows].
    rewrite Hr. apply IH. exact Hrows.
Qed.

Lemma insert_link_grows (l : models.Link) (rows : list models.Link) :
  exists tail, snd (gorm.insert_link l rows) = rows ++ tail.
Proof.
  unfold gorm.insert_link.
  destruct (existsb (gorm.has_short_code (models.ShortCode l)) rows); cbn.
  - exists []. rewrite app_nil_r. reflexivity.
  - eexists. reflexivity.
Qed.

(** A successful CreateLink of the repository appends the row it returns,
    and no older row has its short code. *)
Lemma repository_CreateLink_ok (l l' : models.Link) (d d' : gorm.DB) :
  repository.CreateLink l d = ((l', None), d') ->
  exists rows,
    gorm.links d' = rows ++ [l']
    /\ existsb (gorm.has_short_code (models.ShortCode l)) rows = false
    /\ models.ShortCode l' = models.ShortCode l
    /\ models.LongURL l' = models.LongURL l.
Proof.
  unfold repository.CreateLink, gorm.Create_Link, bind, ret. intros H.
  destruct (gorm.arrive (gorm.INSERT_links l) d) as [[ef|] d1]; [discriminate|].
  destruct (gorm.insert_link l (gorm.links d1)) as [[lk|e] rows'] eqn:Hins;
    [|discriminate].
  exists (gorm.links d1). unfold gorm.insert_link in Hins.
  destruct (existsb (gorm.has_short_code (models.ShortCode l)) (gorm.links d1));
    [discriminate|].
  inversion Hins; subst. inversion H; subst. cbn. auto.
Qed.

(** The next lookup of a row that has just been appended finds it, unless
    the driver fails the statement. *)
Lemma GetLinkByShortCode_after_insert (l' : models.Link) (rows : list models.Link)
  (d' : gorm.DB) :
  gorm.links d' = rows ++ [l'] ->
  existsb (gorm.has_short_code (models.ShortCode l')) rows = false ->
  (forall e, hd gorm.Quiet (gorm.env d') <> gorm.Fails e) ->
  fst (repository.GetLinkByShortCode (models.ShortCode l') d') = Ok l'.
Proof.
  intros Hrows Hmiss Hcalm. rewrite GetLinkByShortCode_unfold. cbn zeta. cbn [fst].
  assert (Hself : gorm.has_short_code (models.ShortCode l') l' = true)
    by apply String.eqb_refl.
  assert (Hfind : exists tail,
             gorm.links (snd (gorm.arrive
                                (gorm.SELECT_links (models.ShortCode l')) d'))
             = rows ++ l' :: tail).
  { unfold gorm.arrive. cbn [snd gorm.links].
    destruct (hd gorm.Quiet (gorm.env d')) as [|e|c u].
    - exists []. exact Hrows.
    - exists []. exact Hrows.
    - destruct (insert_link_grows
                  {| models.ID := 0; models.ShortCode := c; models.LongURL := u;
                     models.CreatedAt := 0 |} (gorm.links d')) as [tail Ht].
      exists tail. rewrite Ht, Hrows, <- app_assoc. reflexivity. }
  destruct Hfind as [tail Hfind]. rewrite Hfind.
  rewrite (find_after_misses _ _ _ _ Hmiss Hself).
  destruct (hd gorm.Quiet (gorm.env d')) as [|e|c u]; try reflexivity.
  exfalso. apply (Hcalm e). reflexivity.
Qed.

(** C3. When CreateLink succeeds, the short code of the link it returns has
    six characters, all of the alphabet, the link carries the long URL that
    was asked for, and the next lookup of that code (through the repository
    or through the service) returns that very link, provided the driver
    does not fail the lookup itself. *)
Theorem CreateLink_code_shape_and_lookup :
  forall (longURL : string) (w w' : World) (link : models.Link),
    services.CreateLink longURL w = (Ok link, w') ->
    (forall e, hd gorm.Quiet (gorm.env (db w')) <> gorm.Fails e) ->
    String.length (models.ShortCode link) = 6
    /\ Forall in_charset (list_ascii_of_string (models.ShortCode link))
    /\ models.LongURL link = longURL
    /\ fst (repository.GetLinkByShortCode (models.ShortCode link) (db w')) = Ok link
    /\ fst (services.GetLinkByShortCode (models.ShortCode link) w') = Ok link.
Proof.
  intros longURL w w' link Hrun Hcalm.
  unfold services.CreateLink, services.CreateLink_from, bind in Hrun.
  destruct (services.CreateLink_loop (Z.to_nat services.maxRetries) 0 w)
    as [[code|e] w1] eqn:Hloop; [|discriminate].
  apply CreateLink_loop_ok in Hloop.
  destruct Hloop as [Hempty|[Hlen Hchars]]; [subst code; discriminate|].
  unfold services.CreateLink_persist in Hrun.
  rewrite (length_6_not_empty _ Hlen) in Hrun.
  unfold bind, time.Now, gets, on_db, zoom in Hrun.
  fold (new_link code longURL (clock w1)) in Hrun.
  destruct (repository.CreateLink (new_link code longURL (clock w1)) (db w1))
    as [[link' [e'|]] d3] eqn:Hcreate; [discriminate|].
  inversion Hrun; subst link' w'; clear Hrun.
  apply repository_CreateLink_ok in Hcreate.
  destruct Hcreate as [rows [Hrows [Hmiss [Hcode Hurl]]]].
  cbn [new_link models.ShortCode models.LongURL] in Hmiss, Hcode, Hurl.
  cbn [db set_db] in Hcalm |- *.
  assert (Hfound : fst (repository.GetLinkByShortCode (models.ShortCode link) d3)
                   = Ok link).
  { apply (GetLinkByShortCode_after_insert link rows d3 Hrows); [|exact Hcalm].
    rewrite Hcode. exact Hmiss. }
  rewrite Hcode at 1 2. repeat split; auto.
  unfold services.GetLinkByShortCode, bind, on_db, zoom. cbn [db set_db].
  destruct (repository.GetLinkByShortCode (models.ShortCode link) d3)
    as [[l|e] d4]; cbn in Hfound |- *; congruence.
Qed.

Lemma CreateLink_code_shape_and_lookup_witness :
  String.length "bcdefg" = 6
  /\ Forall in_charset (list_ascii_of_string "bcdefg")
  /\ fst (services.GetLinkByShortCode "bcdefg" calm_world_created)
     = Ok (sample_link_at 3 "bcdefg" "https://example.org/a" 1700000000).
Proof.
  assert (Hrun : services.CreateLink "https://example.org/a" calm_world
                 = (Ok (sample_link_at 3 "bcdefg" "https://example.org/a" 1700000000),
                    calm_world_created))
    by (vm_compute; reflexivity).
  assert (Hcalm : forall e,
             hd gorm.Quiet (gorm.env (db calm_world_created)) <> gorm.Fails e)
    by (intros e; vm_compute; discriminate).
  destruct (CreateLink_code_shape_and_lookup "https://example.org/a" calm_world
              calm_world_created
              (sample_link_at 3 "bcdefg" "https://example.org/a" 1700000000)
              Hrun Hcalm) as [Hlen [Hchars [_ [_ Hfound]]]].
  split; [exact Hlen|]. split; [exact Hchars | exact Hfound].
Defined.

(** ** The worker pool *)

Lemma replace_length {A : Type} (i : nat) (x : A) (l : list A) :
  List.length (server.replace i x l) = List.length l.
Proof. revert i. induction l as [|a l IH]; intros [|i]; cbn; auto. Qed.

Lemma nth_error_replace_same {A : Type} (i : nat) (x y : A) (l : list A) :
  nth_error l i = Some y -> nth_error (server.replace i x l) i = Some x.
Proof.
  revert i. induction l as [|a l IH]; intros [|i] H; cbn in *;
    try discriminate; auto.
Qed.

Lemma nth_error_replace_other {A : Type} (i j : nat) (x : A) (l : list A) :
  i <> j -> nth_error (server.replace i x l) j = nth_error l j.
Proof.
  revert i j. induction l as [|a l IH]; intros [|i] [|j] H; cbn; auto.
  - congruence.
Qed.

(** What a move of the goroutine at position [i] is, spelled out. *)
Lemma step_Worker_inv (i : nat) (choice : workers.select_case)
  (s s' : server.System) :
  server.step (server.Worker i choice) s = Some s' ->
  exists id g g',
    nth_error (server.workers_pool s) i = Some (id, g)
    /\ workers.clickWorker_step id choice g (server.world s)
       = Some (g', server.world s')
    /\ server.workers_pool s' = server.replace i (id, g') (server.workers_pool s).
Proof.
  cbn. destruct (nth_error (server.workers_pool s) i) as [[id g]|]; [|discriminate].
  destruct (workers.clickWorker_step id choice g (server.world s)) as [[g' w']|]
    eqn:Hmove; [|discriminate].
  intros H. inversion H; subst. exists id, g, g'. cbn. auto.
Qed.

Lemma step_Worker_at (i : nat) (choice : workers.select_case) (s : server.System)
  (id : Z) (g : workers.goroutine) :
  nth_error (server.workers_pool s) i = Some (id, g) ->
  server.step (server.Worker i choice) s =
    match workers.clickWorker_step id choice g (server.world s) with
    | Some (g', w') =>
        Some {| server.world := w';
                server.workers_pool :=
                  server.replace i (id, g') (server.workers_pool s) |}
    | None => None
    end.
Proof. intros Hat. cbn [server.step]. rewrite Hat. reflexivity. Qed.

(** Actions other than a move of worker [i] leave worker [i] where it is. *)
Lemma step_keeps_others (a : server.action) (s s' : server.System) (i : nat) :
  server.step a s = Some s' ->
  (forall choice, a <> server.Worker i choice) ->
  nth_error (server.workers_pool s') i = nth_error (server.workers_pool s) i.
Proof.
  intros Hstep Hother. destruct a as [| |r c|j choice].
  - inversion Hstep; reflexivity.
  - cbn in Hstep. destruct (channel.close _); inversion Hstep; reflexivity.
  - inversion Hstep; reflexivity.
  - apply step_Worker_inv in Hstep. destruct Hstep as [id [g [g' [_ [_ Hp]]]]].
    rewrite Hp. apply nth_error_replace_other. intros ->. apply (Hother choice).
    reflexivity.
Qed.

Lemma Stopped_cannot_move (i : nat) (choice : workers.select_case)
  (s : server.System) :
  state_of s i = Some workers.Stopped ->
  server.step (server.Worker i choice) s = None.
Proof.
  unfold state_of. cbn.
  destruct (nth_error (server.workers_pool s) i) as [[id g]|]; [|discriminate].
  cbn. intros H. inversion H; subst. reflexivity.
Qed.

(** Once a worker is Stopped, no schedule that runs contains a move of it,
    and it is Stopped at the end. *)
Lemma Stopped_is_terminal (schedule : list server.action) :
  forall (s s' : server.System) (i : nat),
    server.run schedule s = Some s' ->
    state_of s i = Some workers.Stopped ->
    state_of s' i = Some workers.Stopped
    /\ forall choice, ~ In (server.Worker i choice) schedule.
Proof.
  induction schedule as [|a rest IH]; intros s s' i Hrun Hstopped.
  - inversion Hrun; subst. split; [exact Hstopped | intros choice []].
  - cbn in Hrun. destruct (server.step a s) as [s1|] eqn:Hstep; [|discriminate].
    assert (Hother : forall choice, a <> server.Worker i choice).
    { intros choice ->. rewrite (Stopped_cannot_move _ _ _ Hstopped) in Hstep.
      discriminate. }
    assert (Hs1 : state_of s1 i = Some workers.Stopped).
    { unfold state_of. rewrite (step_keeps_others _ _ _ _ Hstep Hother).
      exact Hstopped. }
    destruct (IH _ _ _ Hrun Hs1) as [Hend Hnot]. split; [exact Hend|].
    intros choice [Heq|Hin].
    + apply (Hother choice). exact Heq.
    + apply (Hnot choice). exact Hin.
Qed.

(** The move after a receive ends in the pause, whatever CreateClick
    answers. *)
Lemma clickWorker_step_Persisting_next (id : Z) (choice : workers.select_case)
  (ev : api.ClickEvent) (w w' : World) (g' : workers.goroutine) :
  workers.clickWorker_step id choice (workers.Persisting ev) w = Some (g', w') ->
  g' = workers.Sleeping.
Proof.
  cbn [workers.clickWorker_step]. unfold bind.
  destruct (on_db (repository.CreateClick (workers.click_of ev)) w)
    as [[c [e|]] w1]; cbn; intros H; inversion H; reflexivity.
Qed.

(** C5. A worker leaves Running for Stopped in exactly two ways: its select
    takes the cancellation case, which needs the context cancelled, or its
    receive finds the channel closed and empty; either is taken as soon as
    the worker, at its select, observes it.  Stopped is terminal: whatever
    the process does next, the worker stays Stopped and makes no move, so it
    calls CreateClick no more. *)
Theorem clickWorker_Running_then_Stopped :
  forall (s : server.System) (i : nat) (id : Z) (g : workers.goroutine),
    nth_error (server.workers_pool s) i = Some (id, g) ->
    (forall a s',
        server.step a s = Some s' ->
        g <> workers.Stopped ->
        state_of s' i = Some workers.Stopped ->
        g = workers.Selecting
        /\ ((a = server.Worker i workers.case_Done
             /\ ctx_done (server.world s) = true)
            \/ (a = server.Worker i workers.case_Receive
                /\ channel.closed (ClickEventsChannel (server.world s)) = true
                /\ channel.buf (ClickEventsChannel (server.world s)) = [])))
    /\ (g = workers.Selecting ->
        ctx_done (server.world s) = true ->
        exists s', server.step (server.Worker i workers.case_Done) s = Some s'
                   /\ state_of s' i = Some workers.Stopped)
    /\ (g = workers.Selecting ->
        channel.closed (ClickEventsChannel (server.world s)) = true ->
        channel.buf (ClickEventsChannel (server.world s)) = [] ->
        exists s', server.step (server.Worker i workers.case_Receive) s = Some s'
                   /\ state_of s' i = Some workers.Stopped)
    /\ (g = workers.Stopped ->
        forall schedule s',
          server.run schedule s = Some s' ->
          state_of s' i = Some workers.Stopped
          /\ (forall choice, ~ In (server.Worker i choice) schedule)
          /\ forall choice, workers.clickWorker_step id choice g (server.world s') = None).
Proof.
  intros s i id g Hat.
  assert (Hstate : state_of s i = Some g) by (unfold state_of; rewrite Hat; reflexivity).
  split; [|split; [|split]].
  - intros a s' Hstep Hrunning Hstopped.
    destruct a as [| |r c|j choice];
      try (exfalso; apply Hrunning;
           unfold state_of in Hstopped;
           rewrite (step_keeps_others _ _ _ i Hstep) in Hstopped
             by (intros; discriminate);
           rewrite Hat in Hstopped; inversion Hstopped; reflexivity).
    destruct (Nat.eq_dec j i) as [->|Hji].
    + apply step_Worker_inv in Hstep.
      destruct Hstep as [id' [g0 [g' [Hat' [Hmove Hpool]]]]].
      rewrite Hat in Hat'. inversion Hat'; subst id' g0; clear Hat'.
      unfold state_of in Hstopped.
      rewrite Hpool, (nth_error_replace_same _ _ _ _ Hat) in Hstopped.
      cbn in Hstopped. inversion Hstopped; subst g'; clear Hstopped.
      destruct g as [| |ev| |];
        [ cbn in Hmove; discriminate
        |
        | apply clickWorker_step_Persisting_next in Hmove; discriminate
        | cbn in Hmove; discriminate
        | exfalso; apply Hrunning; reflexivity ].
      cbn in Hmove. split; [reflexivity|]. destruct choice.
      * left. split; [reflexivity|].
        destruct (ctx_done (server.world s)); [reflexivity | discriminate].
      * right. split; [reflexivity|]. unfold channel.receive in Hmove.
        destruct (channel.buf (ClickEventsChannel (server.world s))) as [|v q];
          [|discriminate].
        destruct (channel.closed (ClickEventsChannel (server.world s)));
          [split; reflexivity | discriminate].
    + exfalso. apply Hrunning. unfold state_of in Hstopped.
      rewrite (step_keeps_others _ _ _ i Hstep) in Hstopped
        by (intros c' Heq; inversion Heq; congruence).
      rewrite Hat in Hstopped. inversion Hstopped. reflexivity.
  - intros -> Hdone. cbn. rewrite Hat. cbn. rewrite Hdone. cbn.
    eexists. split; [reflexivity|]. unfold state_of. cbn.
    rewrite (nth_error_replace_same _ _ _ _ Hat). reflexivity.
  - intros -> Hclosed Hempty. cbn. rewrite Hat. cbn. unfold channel.receive.
    rewrite Hempty, Hclosed. cbn.
    eexists. split; [reflexivity|]. unfold state_of. cbn.
    rewrite (nth_error_replace_same _ _ _ _ Hat). reflexivity.
  - intros -> schedule s' Hrun.
    destruct (Stopped_is_terminal schedule s s' i Hrun Hstate) as [Hend Hnot].
    split; [exact Hend|]. split; [exact Hnot|]. reflexivity.
Qed.

Lemma clickWorker_Running_then_Stopped_witness :
  (exists s', server.step (server.Worker 0 workers.case_Done) cancelled_system = Some s'
              /\ state_of s' 0 = Some workers.Stopped)
  /\ (forall schedule s',
        server.run schedule cancelled_system = Some s' ->
        state_of s' 1 = Some workers.Stopped
        /\ (forall choice, ~ In (server.Worker 1 choice) schedule)
        /\ forall choice,
             workers.clickWorker_step 1 choice workers.Stopped (server.world s') = None).
Proof.
  split.
  - destruct (clickWorker_Running_then_Stopped cancelled_system 0 0%Z
                workers.Selecting eq_refl) as [_ [Hdone _]].
    exact (Hdone eq_refl eq_refl).
  - destruct (clickWorker_Running_then_Stopped cancelled_system 1 1%Z
                workers.Stopped eq_refl) as [_ [_ [_ Hterminal]]].
    exact (Hterminal eq_refl).
Defined.

(** C6. A worker holds an event and the driver fails its INSERT.  The
    worker's move logs the failure and goes on to its pause: nothing is
    added to the clicks table, the event is not put back in the channel,
    CreateClick was called once, no other worker is touched.  The worker is
    then back at its select, and receives the next queued event as
    usual. *)
Theorem clickWorker_logs_failure_and_continues :
  forall (s : server.System) (i : nat) (id : Z) (ev : api.ClickEvent)
         (e : error) (rest : list gorm.event),
    nth_error (server.workers_pool s) i = Some (id, workers.Persisting ev) ->
    gorm.env (db (server.world s)) = gorm.Fails e :: rest ->
    forall choice,
    exists s1 s2,
      server.step (server.Worker i choice) s = Some s1
      /\ state_of s1 i = Some workers.Sleeping
      /\ log_output (server.world s1)
         = log_output (server.world s)
             ++ [failed_line id ev
                   (fmt.Errorf "erreur lors de la création du clic : " e)]
      /\ gorm.clicks (db (server.world s1)) = gorm.clicks (db (server.world s))
      /\ ClickEventsChannel (server.world s1) = ClickEventsChannel (server.world s)
      /\ gorm.journal (db (server.world s1))
         = gorm.journal (db (server.world s))
             ++ [gorm.INSERT_clicks (workers.click_of ev)]
      /\ (forall j, j <> i ->
            nth_error (server.workers_pool s1) j
            = nth_error (server.workers_pool s) j)
      /\ server.step (server.Worker i choice) s1 = Some s2
      /\ state_of s2 i = Some workers.Selecting
      /\ server.world s2 = server.world s1
      /\ forall next queued,
           channel.buf (ClickEventsChannel (server.world s)) = next :: queued ->
           exists s3,
             server.step (server.Worker i workers.case_Receive) s2 = Some s3
             /\ state_of s3 i = Some (workers.Persisting next)
             /\ channel.buf (ClickEventsChannel (server.world s3)) = queued.
Proof.
  intros s i id ev e rest Hat Henv choice.
  assert (Hmove : workers.clickWorker_step id choice (workers.Persisting ev)
                    (server.world s)
                  = Some (workers.Sleeping,
                          set_log_output
                            (log_output (server.world s)
                               ++ [failed_line id ev
                                     (fmt.Errorf "erreur lors de la création du clic : " e)])
                            (set_db
                               {| gorm.links := gorm.links (db (server.world s));
                                  gorm.clicks := gorm.clicks (db (server.world s));
                                  gorm.env := rest;
                                  gorm.journal :=
                                    gorm.journal (db (server.world s))
                                      ++ [gorm.INSERT_clicks (workers.click_of ev)] |}
                               (server.world s)))).
  { cbn [workers.clickWorker_step]. unfold bind at 1. unfold on_db, zoom.
    unfold repository.CreateClick, gorm.Create_Click, bind at 1 2.
    unfold gorm.arrive. rewrite Henv. reflexivity. }
  eexists. eexists.
  split. { cbn. rewrite Hat, Hmove. reflexivity. }
  cbn [server.world server.workers_pool].
  unfold state_of. cbn [server.workers_pool].
  rewrite (nth_error_replace_same _ _ _ _ Hat).
  split; [reflexivity|]. split; [reflexivity|]. split; [reflexivity|].
  split; [reflexivity|]. split; [reflexivity|].
  split. { intros j Hj. apply nth_error_replace_other. congruence. }
  split.
  { cbn [server.step server.workers_pool server.world].
    rewrite (nth_error_replace_same _ _ _ _ Hat). cbn. reflexivity. }
  cbn [server.workers_pool server.world].
  assert (Hat1 : nth_error (server.replace i (id, workers.Sleeping)
                              (server.workers_pool s)) i
                 = Some (id, workers.Sleeping))
    by apply (nth_error_replace_same _ _ _ _ Hat).
  rewrite (nth_error_replace_same _ _ _ _ Hat1).
  split; [reflexivity|]. split; [reflexivity|].
  intros next queued Hbuf.
  eexists. split.
  { cbn [server.step server.workers_pool server.world].
    rewrite (nth_error_replace_same _ _ _ _ Hat1).
    cbn [workers.clickWorker_step]. unfold channel.receive.
    cbn [ClickEventsChannel set_log_output set_db]. rewrite Hbuf. reflexivity. }
  cbn [server.workers_pool server.world].
  assert (Hat2 : nth_error (server.replace i (id, workers.Selecting)
                   (server.replace i (id, workers.Sleeping)
                              (server.workers_pool s))) i
                 = Some (id, workers.Selecting))
    by apply (nth_error_replace_same _ _ _ _ Hat1).
  rewrite (nth_error_replace_same _ _ _ _ Hat2).
  split; reflexivity.
Qed.

Lemma clickWorker_logs_failure_and_continues_witness :
  exists s1 s2,
    server.step (server.Worker 0 workers.case_Receive) failing_system = Some s1
    /\ state_of s1 0 = Some workers.Sleeping
    /\ log_output (server.world s1)
       = ["clickWorker 0: failed to persist click for link 1: erreur lors de la création du clic : disk I/O error"]
    /\ gorm.clicks (db (server.world s1)) = gorm.clicks sample_db
    /\ server.step (server.Worker 0 workers.case_Receive) s1 = Some s2
    /\ exists s3,
         server.step (server.Worker 0 workers.case_Receive) s2 = Some s3
         /\ state_of s3 0
            = Some (workers.Persisting (sample_event 2 "Zx91Qp" 1700000002)).
Proof.
  destruct (clickWorker_logs_failure_and_continues failing_system 0 0%Z
              (sample_event 1 "aaaaaa" 1700000001)
              (sqliteError "disk I/O error") [] eq_refl eq_refl
              workers.case_Receive)
    as [s1 [s2 [H1 [H2 [H3 [H4 [_ [_ [_ [H8 [_ [_ Hnext]]]]]]]]]]]].
  exists s1, s2. split; [exact H1|]. split; [exact H2|].
  split; [exact H3|]. split; [exact H4|]. split; [exact H8|].
  destruct (Hnext (sample_event 2 "Zx91Qp" 1700000002) [] eq_refl)
    as [s3 [Hs3 [Hp _]]].
  exists s3. split; [exact Hs3 | exact Hp].
Defined.

(** ** Draining the queue *)

Lemma nth_error_replace_split {A : Type} (i : nat) (x y : A) (l : list A) :
  nth_error l i = Some x ->
  exists l1 l2, l = l1 ++ x :: l2 /\ server.replace i y l = l1 ++ y :: l2.
Proof.
  revert i. induction l as [|a l IH]; intros [|i] H; cbn in *; try discriminate.
  - inversion H; subst. exists [], l. auto.
  - destruct (IH _ H) as [l1 [l2 [Hl Hr]]]. exists (a :: l1), l2.
    cbn. rewrite <- Hl, Hr. auto.
Qed.

Lemma next_rowid_above (ids : list N) (x : N) :
  In x ids -> (x < gorm.next_rowid ids)%N.
Proof.
  unfold gorm.next_rowid. induction ids as [|a ids IH]; intros Hin; [destruct Hin|].
  cbn [fold_right]. destruct Hin as [->|Hin]; [lia|].
  apply IH in Hin. lia.
Qed.

(** CreateClick on a store that does not fail appends the click under a
    fresh row id. *)
Lemma clickWorker_step_Persisting (id : Z) (choice : workers.select_case)
  (ev : api.ClickEvent) (w : World) :
  never_fails (gorm.env (db w)) ->
  exists c w',
    workers.clickWorker_step id choice (workers.Persisting ev) w
    = Some (workers.Sleeping, w')
    /\ gorm.clicks (db w') = gorm.clicks (db w) ++ [c]
    /\ unset_ClickID c = workers.click_of ev
    /\ models.ClickID c = gorm.next_rowid (map models.ClickID (gorm.clicks (db w)))
    /\ gorm.env (db w') = tl (gorm.env (db w))
    /\ ClickEventsChannel w' = ClickEventsChannel w
    /\ ctx_done w' = ctx_done w.
Proof.
  intros Hcalm.
  cbn [workers.clickWorker_step]. unfold bind at 1. unfold on_db, zoom.
  unfold repository.CreateClick, gorm.Create_Click, bind at 1 2.
  unfold gorm.arrive.
  destruct (hd gorm.Quiet (gorm.env (db w))) as [|e|c u] eqn:Hhd.
  - eexists. eexists. split; [reflexivity|]. cbn. repeat split.
  - exfalso. apply (Hcalm e). destruct (gorm.env (db w)); cbn in Hhd.
    + discriminate.
    + left. exact Hhd.
  - eexists. eexists. split; [reflexivity|]. cbn. repeat split.
Qed.

Lemma never_fails_tl (script : list gorm.event) :
  never_fails script -> never_fails (tl script).
Proof.
  intros H e Hin. apply (H e). destruct script; [exact Hin | right; exact Hin].
Qed.

Lemma inflight_app (p q : workers.pool) : inflight (p ++ q) = inflight p ++ inflight q.
Proof. unfold inflight. apply flat_map_app. Qed.

Lemma weights_app (p q : workers.pool) :
  list_sum (map (fun m => weight (snd m)) (p ++ q))
  = list_sum (map (fun m => weight (snd m)) p)
    + list_sum (map (fun m => weight (snd m)) q).
Proof. rewrite map_app, list_sum_app. reflexivity. Qed.

(** A worker move keeps the process draining and is one move less to go. *)
Lemma draining_step (clicks0 expected : list models.Click)
  (i : nat) (choice : workers.select_case) (s s' : server.System) :
  draining clicks0 expected s ->
  server.step (server.Worker i choice) s = Some s' ->
  draining clicks0 expected s' /\ work_left s = S (work_left s').
Proof.
  intros [Hctx [Hopen [Hcalm [Hrun [Hne [added [Hclicks [Hids Hperm]]]]]]]] Hstep.
  apply step_Worker_inv in Hstep.
  destruct Hstep as [id [g [g' [Hat [Hmove Hpool]]]]].
  destruct s' as [w' pool']. cbn [server.world server.workers_pool] in *.
  destruct (nth_error_replace_split i (id, g) (id, g') _ Hat) as [p1 [p2 [Hp Hp']]].
  rewrite Hp' in Hpool.
  assert (Hne' : forall g0, p1 ++ (id, g0) :: p2 <> []).
  { intros g0. destruct p1; discriminate. }
  assert (Hrun12 : Forall (fun m => snd m <> workers.Stopped) p1
                   /\ Forall (fun m => snd m <> workers.Stopped) p2).
  { rewrite Hp in Hrun. apply Forall_app in Hrun. destruct Hrun as [H1 H2].
    inversion H2; subst. auto. }
  destruct Hrun12 as [Hrun1 Hrun2].
  unfold draining, work_left. cbn [server.world server.workers_pool].
  rewrite Hpool. rewrite Hp in Hperm. rewrite Hp.
  rewrite !inflight_app in *. rewrite !weights_app.
  change (inflight ((id, g') :: p2)) with
    (match g' with workers.Persisting ev => [ev] | _ => [] end ++ inflight p2).
  change (inflight ((id, g) :: p2)) with
    (match g with workers.Persisting ev => [ev] | _ => [] end ++ inflight p2) in Hperm.
  cbn [map list_sum snd].
  assert (Hrun' : forall g0, g0 <> workers.Stopped ->
            Forall (fun m => snd m <> workers.Stopped) (p1 ++ (id, g0) :: p2)).
  { intros g0 Hg0. apply Forall_app. split; [exact Hrun1|].
    constructor; [exact Hg0 | exact Hrun2]. }
  destruct g as [| |ev| |].
  - (* Spawned *)
    cbn in Hmove. inversion Hmove; subst g' w'. cbn.
    split; [|lia].
    split; [exact Hctx|]. split; [exact Hopen|]. split; [exact Hcalm|].
    split; [apply Hrun'; discriminate|]. split; [apply Hne'|].
    exists added. split; [exact Hclicks|]. split; [exact Hids | exact Hperm].
  - (* Selecting *)
    cbn in Hmove. destruct choice.
    + rewrite Hctx in Hmove. discriminate.
    + unfold channel.receive in Hmove.
      destruct (channel.buf (ClickEventsChannel (server.world s))) as [|ev q] eqn:Hbuf.
      * rewrite Hopen in Hmove. discriminate.
      * inversion Hmove; subst g' w'. cbn.
        split; [|lia].
        split; [exact Hctx|]. split; [exact Hopen|]. split; [exact Hcalm|].
        split; [apply Hrun'; discriminate|]. split; [apply Hne'|].
        exists added. split; [exact Hclicks|]. split; [exact Hids|].
        etransitivity; [|exact Hperm]. apply Permutation_app_head.
        cbn [app]. rewrite !map_app. cbn [map]. rewrite <- !app_assoc.
        apply Permutation_app_head. cbn [app]. apply Permutation_middle.
  - (* Persisting *)
    destruct (clickWorker_step_Persisting id choice ev (server.world s) Hcalm)
      as [c [w'0 [Hmove' [Hc [Hunset [Hid [Henv [Hch Hdone]]]]]]]].
    rewrite Hmove' in Hmove. inversion Hmove; subst g' w'0.
    rewrite Hch. cbn [weight].
    split; [|cbn; lia].
    split; [congruence|]. split; [exact Hopen|].
    split; [rewrite Henv; apply never_fails_tl; exact Hcalm|].
    split; [apply Hrun'; discriminate|]. split; [apply Hne'|].
    exists (added ++ [c]). split; [rewrite Hc, Hclicks, app_assoc; reflexivity|].
    split.
    + rewrite map_app. cbn [map].
      apply Permutation_NoDup with (l := models.ClickID c :: map models.ClickID added).
      * apply Permutation_cons_append.
      * constructor; [|exact Hids]. intros Hin.
        assert (Hlt : (models.ClickID c
                       < gorm.next_rowid (map models.ClickID
                                            (gorm.clicks (db (server.world s)))))%N).
        { apply next_rowid_above. rewrite Hclicks, map_app. apply in_or_app.
          right. exact Hin. }
        lia.
    + etransitivity; [|exact Hperm]. rewrite map_app. cbn [map app].
      rewrite Hunset, <- !app_assoc. apply Permutation_app_head.
      rewrite !map_app. cbn [map app]. rewrite <- !app_assoc.
      apply Permutation_middle.
  - (* Sleeping *)
    cbn in Hmove. inversion Hmove; subst g' w'. cbn.
    split; [|lia].
    split; [exact Hctx|]. split; [exact Hopen|]. split; [exact Hcalm|].
    split; [apply Hrun'; discriminate|]. split; [apply Hne'|].
    exists added. split; [exact Hclicks|]. split; [exact Hids | exact Hperm].
  - (* Stopped *)
    cbn in Hmove. discriminate.
Qed.

Lemma draining_run (clicks0 expected : list models.Click)
  (schedule : list (nat * workers.select_case)) :
  forall (s s' : server.System),
    draining clicks0 expected s ->
    server.run (worker_moves schedule) s = Some s' ->
    draining clicks0 expected s'
    /\ work_left s = List.length schedule + work_left s'.
Proof.
  induction schedule as [|[i choice] rest IH]; intros s s' Hinv Hrun.
  - inversion Hrun; subst. auto.
  - cbn [worker_moves map server.run fst snd] in Hrun.
    destruct (server.step (server.Worker i choice) s) as [s1|] eqn:Hstep;
      [|discriminate].
    destruct (draining_step _ _ _ _ _ _ Hinv Hstep) as [Hinv1 Hless].
    destruct (IH _ _ Hinv1 Hrun) as [Hinv' Hsum].
    split; [exact Hinv'|]. cbn [List.length]. lia.
Qed.

Lemma list_sum_cons (a : nat) (l : list nat) : list_sum (a :: l) = a + list_sum l.
Proof. reflexivity. Qed.

Lemma weights_zero (p : workers.pool) :
  Forall (fun m => snd m <> workers.Stopped) p ->
  list_sum (map (fun m => weight (snd m)) p) = 0 ->
  Forall (fun m => snd m = workers.Selecting) p.
Proof.
  induction p as [|[id g] p IH]; intros Hrun Hsum; [constructor|].
  inversion Hrun as [|m p' Hg Hrest]; subst. cbn [map snd] in Hsum.
  rewrite list_sum_cons in Hsum. constructor.
  - cbn [snd] in *. destruct g; cbn [weight] in Hsum; try lia; congruence.
  - apply IH; [exact Hrest | lia].
Qed.

(** A pool at work has a goroutine that owes a move, or all are at their
    select. *)
Lemma owing_or_selecting (p : workers.pool) :
  Forall (fun m => snd m <> workers.Stopped) p ->
  (exists i id g, nth_error p i = Some (id, g) /\ 0 < weight g)
  \/ Forall (fun m => snd m = workers.Selecting) p.
Proof.
  induction p as [|[id g] p IH]; intros Hrun; [right; constructor|].
  inversion Hrun as [|m p' Hg Hrest]; subst.
  destruct (Nat.eq_dec (weight g) 0) as [Hz|Hnz].
  - destruct (IH Hrest) as [[i [id' [g' [Hat Hw]]]]|Hall].
    + left. exists (S i), id', g'. auto.
    + right. constructor; [|exact Hall]. cbn [snd] in *.
      destruct g; cbn [weight] in Hz; try lia; congruence.
  - left. exists 0, id, g. split; [reflexivity | lia].
Qed.

Lemma draining_at_rest (clicks0 expected : list models.Click) (s : server.System) :
  draining clicks0 expected s ->
  (quiescent s <-> work_left s = 0).
Proof.
  intros [Hctx [Hopen [Hcalm [Hrun [Hne _]]]]]. split.
  - intros Hq. unfold work_left.
    destruct (owing_or_selecting _ Hrun) as [[i [id [g [Hat Hw]]]]|Hall].
    + exfalso. specialize (Hq i workers.case_Receive).
      rewrite (step_Worker_at _ _ _ _ _ Hat) in Hq.
      destruct g as [| |ev| |]; cbn [weight] in Hw; try lia.
      * cbn in Hq. discriminate.
      * destruct (clickWorker_step_Persisting id workers.case_Receive ev
                    (server.world s) Hcalm) as [c [w' [Hmove _]]].
        rewrite Hmove in Hq. discriminate.
      * cbn in Hq. discriminate.
    + destruct (server.workers_pool s) as [|[id g] p] eqn:Hp; [congruence|].
      inversion Hall as [|m p' Hg Hrest]; subst. cbn [snd] in Hg. subst g.
      specialize (Hq 0 workers.case_Receive).
      rewrite (step_Worker_at 0 _ s id workers.Selecting) in Hq
        by (rewrite Hp; reflexivity).
      cbn [workers.clickWorker_step] in Hq. unfold channel.receive in Hq.
      destruct (channel.buf (ClickEventsChannel (server.world s))) as [|ev q];
        [|discriminate].
      cbn [List.length Nat.mul Nat.add map snd]. rewrite list_sum_cons.
      cbn [weight Nat.add]. clear - Hrest.
      induction Hrest as [|[id' g'] p' Hg' _ IH]; [reflexivity|].
      cbn [map snd] in *. subst g'. rewrite list_sum_cons. exact IH.
  - intros Hz i choice. unfold work_left in Hz.
    assert (Hbuf : channel.buf (ClickEventsChannel (server.world s)) = []).
    { destruct (channel.buf (ClickEventsChannel (server.world s)));
        [reflexivity | cbn [List.length] in Hz; lia]. }
    assert (Hall : Forall (fun m => snd m = workers.Selecting) (server.workers_pool s)).
    { apply weights_zero; [exact Hrun | lia]. }
    destruct (nth_error (server.workers_pool s) i) as [[id g]|] eqn:Hat.
    + rewrite (step_Worker_at _ _ _ _ _ Hat).
      apply nth_error_In in Hat. rewrite Forall_forall in Hall.
      specialize (Hall _ Hat). cbn [snd] in Hall. subst g.
      cbn [workers.clickWorker_step]. destruct choice.
      * rewrite Hctx. reflexivity.
      * unfold channel.receive. rewrite Hbuf, Hopen. reflexivity.
    + cbn [server.step]. rewrite Hat. reflexivity.
Qed.

(** While the pool is not at rest, some worker can move. *)
Lemma draining_progress (clicks0 expected : list models.Click) (s : server.System) :
  draining clicks0 expected s ->
  0 < work_left s ->
  exists i choice s', server.step (server.Worker i choice) s = Some s'.
Proof.
  intros Hinv Hpos.
  destruct Hinv as [Hctx [Hopen [Hcalm [Hrun [Hne Hacc]]]]].
  destruct (owing_or_selecting _ Hrun) as [[i [id [g [Hat Hw]]]]|Hall].
  - exists i, workers.case_Receive. rewrite (step_Worker_at _ _ _ _ _ Hat).
    destruct g as [| |ev| |]; cbn [weight] in Hw; try lia.
    + eexists. reflexivity.
    + destruct (clickWorker_step_Persisting id workers.case_Receive ev
                  (server.world s) Hcalm) as [c [w' [Hmove _]]].
      rewrite Hmove. eexists. reflexivity.
    + eexists. reflexivity.
  - destruct (server.workers_pool s) as [|[id g] p] eqn:Hp; [congruence|].
    assert (Hsum : list_sum (map (fun m => weight (snd m)) ((id, g) :: p)) = 0).
    { clear - Hall. induction Hall as [|[id' g'] p' Hg' _ IH]; [reflexivity|].
      cbn [map snd] in *. subst g'. rewrite list_sum_cons. exact IH. }
    unfold work_left in Hpos. rewrite Hp, Hsum in Hpos.
    inversion Hall as [|m p' Hg Hrest]; subst. cbn [snd] in Hg. subst g.
    exists 0, workers.case_Receive.
    rewrite (step_Worker_at 0 _ s id workers.Selecting) by (rewrite Hp; reflexivity).
    cbn [workers.clickWorker_step]. unfold channel.receive.
    destruct (channel.buf (ClickEventsChannel (server.world s))) as [|ev q];
      [cbn [List.length] in Hpos; lia|].
    eexists. reflexivity.
Qed.

(** From any draining state some schedule of worker moves brings the pool
    to rest. *)
Lemma draining_comes_to_rest (clicks0 expected : list models.Click) (n : nat) :
  forall (s : server.System),
    draining clicks0 expected s ->
    work_left s = n ->
    exists schedule s',
      server.run (worker_moves schedule) s = Some s' /\ quiescent s'.
Proof.
  induction n as [|n IH]; intros s Hinv Hn.
  - exists [], s. split; [reflexivity|].
    apply (draining_at_rest _ _ _ Hinv). exact Hn.
  - destruct (draining_progress _ _ _ Hinv) as [i [choice [s1 Hstep]]]; [lia|].
    destruct (draining_step _ _ _ _ _ _ Hinv Hstep) as [Hinv1 Hless].
    destruct (IH s1 Hinv1) as [schedule [s' [Hrun Hq]]]; [lia|].
    exists ((i, choice) :: schedule), s'. split; [|exact Hq].
    cbn [worker_moves map server.run fst snd]. rewrite Hstep. exact Hrun.
Qed.

Lemma Spawned_pool (n : nat) :
  forall (from : nat),
    let p := map (fun i => (Z.of_nat i, workers.Spawned)) (seq from n) in
    inflight p = []
    /\ list_sum (map (fun m => weight (snd m)) p) = n
    /\ Forall (fun m => snd m <> workers.Stopped) p.
Proof.
  induction n as [|n IH]; intros from; cbn zeta.
  - cbn. repeat split. constructor.
  - cbn [seq map]. destruct (IH (S from)) as [Hin [Hsum Hrun]].
    split; [exact Hin|]. split.
    + rewrite list_sum_cons. cbn [snd weight]. rewrite Hsum. reflexivity.
    + constructor; [discriminate | exact Hrun].
Qed.

(** RunServerCmd panics at [make] exactly on a negative buffer size;
    otherwise the workers are spawned in the started world and the calls
    enqueued there. *)
Lemma pipeline_start_unfold (BufferSize WorkerCount IntervalMinutes Port : Z)
  (calls : list (api.ClickEvent * string)) (w : World) :
  pipeline_start BufferSize WorkerCount IntervalMinutes Port calls w =
    if (BufferSize <? 0)%Z then None
    else Some {| server.world :=
                   snd (tryEnqueue_all calls
                          (started_world BufferSize WorkerCount IntervalMinutes Port w));
                 server.workers_pool := workers.StartClickWorkers WorkerCount [] |}.
Proof.
  unfold pipeline_start, server.RunServerCmd_start.
  destruct (BufferSize <? 0)%Z; [reflexivity|].
  unfold started_world, startup_lines, log.Printf, bind, modify.
  cbn [server.world server.workers_pool snd log_output set_log_output].
  rewrite <- !app_assoc. reflexivity.
Qed.

Lemma pipeline_start_panics (BufferSize WorkerCount IntervalMinutes Port : Z)
  (calls : list (api.ClickEvent * string)) (w : World) :
  pipeline_start BufferSize WorkerCount IntervalMinutes Port calls w = None
  <-> (BufferSize < 0)%Z.
Proof.
  rewrite pipeline_start_unfold.
  destruct (BufferSize <? 0)%Z eqn:Hneg.
  - apply Z.ltb_lt in Hneg. split; [intros _; exact Hneg | reflexivity].
  - apply Z.ltb_ge in Hneg. split; [discriminate | lia].
Qed.

(** The start of the pipeline is a draining state with [N + 3M] moves to
    go. *)
Lemma pipeline_start_draining (BufferSize WorkerCount IntervalMinutes Port : Z)
  (calls : list (api.ClickEvent * string)) (w : World) (start : server.System) :
  (1 <= WorkerCount)%Z ->
  List.length calls <= Z.to_nat BufferSize ->
  never_fails (gorm.env (db w)) ->
  pipeline_start BufferSize WorkerCount IntervalMinutes Port calls w = Some start ->
  draining (gorm.clicks (db w)) (map (fun c => workers.click_of (fst c)) calls) start
  /\ work_left start = Z.to_nat WorkerCount + 3 * List.length calls.
Proof.
  intros HN HM Hcalm Hstart. rewrite pipeline_start_unfold in Hstart.
  destruct (BufferSize <? 0)%Z; [discriminate|].
  injection Hstart as Hstart. subst start.
  unfold workers.StartClickWorkers.
  cbn [server.world server.workers_pool app].
  set (w0 := started_world BufferSize WorkerCount IntervalMinutes Port w).
  assert (Hopen : channel.closed (ClickEventsChannel w0) = false) by reflexivity.
  pose proof (tryEnqueue_all_from calls w0 Hopen) as Hq. cbn zeta in Hq.
  unfold draining, work_left. cbn [server.world server.workers_pool].
  rewrite Hq. cbn [snd]. clear Hq.
  replace (channel.cap (ClickEventsChannel w0)
           - List.length (channel.buf (ClickEventsChannel w0)))
    with (Z.to_nat BufferSize) by (cbn; lia).
  rewrite firstn_all2 by (rewrite length_map; exact HM).
  destruct (Spawned_pool (Z.to_nat WorkerCount) 0) as [Hin [Hsum Hrun]].
  cbn zeta in Hin, Hsum, Hrun.
  rewrite Hin, Hsum. cbn -[Nat.mul startup_lines]. rewrite length_map.
  split; [|lia].
  split; [reflexivity|]. split; [reflexivity|]. split; [exact Hcalm|].
  split; [exact Hrun|]. split.
  - destruct (Z.to_nat WorkerCount) as [|n] eqn:Hn; [lia | discriminate].
  - exists []. rewrite app_nil_r. split; [reflexivity|]. split; [constructor|].
    cbn [map app]. rewrite map_map. apply Permutation_refl.
Qed.

(** C7. RunServerCmd makes the channel and starts [N >= 1] workers (it
    panics at [make] exactly when the configured buffer size is negative).
    [M] events are then enqueued, [M] no more than the capacity, before any
    of the workers has run, and CreateClick never fails.  Then the
    workers, however they are scheduled, make at most [N + 3M] moves; they
    are at rest exactly after that many, and some schedule takes them
    there.  At rest, the clicks table has gained exactly [M] rows, one per
    enqueued event with the event's content, each under a row id of its
    own, whatever [N] is. *)
Theorem workers_persist_each_queued_event_once :
  forall (BufferSize WorkerCount IntervalMinutes Port : Z)
         (calls : list (api.ClickEvent * string)) (w : World),
    (1 <= WorkerCount)%Z ->
    List.length calls <= Z.to_nat BufferSize ->
    never_fails (gorm.env (db w)) ->
    match pipeline_start BufferSize WorkerCount IntervalMinutes Port calls w with
    | None => (BufferSize < 0)%Z
    | Some start =>
        let expected := map (fun c => workers.click_of (fst c)) calls in
        let moves := Z.to_nat WorkerCount + 3 * List.length calls in
        (0 <= BufferSize)%Z
        /\ (exists schedule s',
               server.run (worker_moves schedule) start = Some s' /\ quiescent s')
        /\ forall schedule s',
             server.run (worker_moves schedule) start = Some s' ->
             List.length schedule <= moves
             /\ (quiescent s' <-> List.length schedule = moves)
             /\ (quiescent s' ->
                 exists added,
                   gorm.clicks (db (server.world s')) = gorm.clicks (db w) ++ added
                   /\ List.length added = List.length calls
                   /\ Permutation (map unset_ClickID added) expected
                   /\ NoDup (map models.ClickID added))
    end.
Proof.
  intros BufferSize WorkerCount IntervalMinutes Port calls w HN HM Hcalm.
  destruct (pipeline_start BufferSize WorkerCount IntervalMinutes Port calls w)
    as [start|] eqn:Hstart;
    [|apply (pipeline_start_panics _ WorkerCount IntervalMinutes Port calls w);
      exact Hstart].
  intros expected moves.
  destruct (pipeline_start_draining _ _ _ _ _ _ _ HN HM Hcalm Hstart) as [Hinv Hleft].
  fold expected in Hinv. fold moves in Hleft.
  split.
  { destruct (Z.lt_ge_cases BufferSize 0) as [Hneg|Hpos]; [|exact Hpos].
    apply (pipeline_start_panics _ WorkerCount IntervalMinutes Port calls w) in Hneg.
    congruence. }
  split.
  - apply (draining_comes_to_rest _ _ moves start Hinv Hleft).
  - intros schedule s' Hrun.
    destruct (draining_run _ _ _ _ _ Hinv Hrun) as [Hinv' Hsum].
    pose proof (draining_at_rest _ _ _ Hinv') as Hrest.
    split; [lia|]. split.
    + rewrite Hrest. lia.
    + intros Hq. apply Hrest in Hq.
      destruct Hinv' as [_ [_ [_ [Hrun' [_ [added [Hclicks [Hids Hperm]]]]]]]].
      unfold work_left in Hq.
      assert (Hbuf : channel.buf (ClickEventsChannel (server.world s')) = []).
      { destruct (channel.buf (ClickEventsChannel (server.world s')));
          [reflexivity | cbn [List.length] in Hq; lia]. }
      assert (Hall : Forall (fun m => snd m = workers.Selecting)
                       (server.workers_pool s')).
      { apply weights_zero; [exact Hrun' | lia]. }
      assert (Hin : inflight (server.workers_pool s') = []).
      { clear - Hall. induction Hall as [|[id g] p Hg _ IH]; [reflexivity|].
        cbn [snd] in Hg. subst g. exact IH. }
      rewrite Hbuf, Hin in Hperm. cbn [map] in Hperm. rewrite !app_nil_r in Hperm.
      exists added. split; [exact Hclicks|]. split; [|split; [exact Hperm | exact Hids]].
      apply Permutation_length in Hperm. rewrite length_map in Hperm.
      rewrite Hperm. unfold expected. apply length_map.
Qed.

Lemma workers_persist_each_queued_event_once_witness :
  pipeline_start 2 2 5 8080 sample_calls (sample_world sample_db []) = Some sample_pipeline
  /\ server.run (worker_moves sample_schedule) sample_pipeline
     = Some sample_pipeline_end
  /\ quiescent sample_pipeline_end
  /\ exists added,
       gorm.clicks (db (server.world sample_pipeline_end))
       = gorm.clicks sample_db ++ added
       /\ List.length added = 2
       /\ Permutation (map unset_ClickID added)
            [workers.click_of (sample_event 1 "aaaaaa" 1700000001);
             workers.click_of (sample_event 2 "Zx91Qp" 1700000002)]
       /\ NoDup (map models.ClickID added).
Proof.
  assert (HN : (1 <= 2)%Z) by lia.
  assert (HM : List.length sample_calls <= Z.to_nat 2) by (vm_compute; lia).
  assert (Hcalm : never_fails (gorm.env (db (sample_world sample_db []))))
    by (intros e []).
  assert (Hstart : pipeline_start 2 2 5 8080 sample_calls (sample_world sample_db [])
                   = Some sample_pipeline) by (vm_compute; reflexivity).
  assert (Hrun : server.run (worker_moves sample_schedule) sample_pipeline
                 = Some sample_pipeline_end) by (vm_compute; reflexivity).
  pose proof (workers_persist_each_queued_event_once 2 2 5 8080 sample_calls
                (sample_world sample_db []) HN HM Hcalm) as Hthm.
  rewrite Hstart in Hthm. cbv beta iota zeta in Hthm.
  destruct Hthm as [_ [_ Hall]].
  destruct (Hall sample_schedule sample_pipeline_end Hrun) as [_ [Hrest Hclicks]].
  assert (Hq : quiescent sample_pipeline_end) by (apply Hrest; reflexivity).
  split; [exact Hstart|]. split; [exact Hrun|]. split; [exact Hq|]. exact (Hclicks Hq).
Defined.

(** * Further properties of the code *)

(** ** GenerateShortCode *)

Lemma GenerateShortCode_loop_enough (n : nat) :
  forall (i : nat) (bytes : list ascii) (w : World),
    n <= List.length (rand_Reader w) ->
    exists out,
      services.GenerateShortCode_loop n i bytes w
      = (Ok out, set_rand_Reader (skipn n (rand_Reader w)) w).
Proof.
  induction n as [|n IH]; intros i bytes w Hn.
  - exists bytes. cbn. rewrite set_rand_Reader_same. reflexivity.
  - cbn [services.GenerateShortCode_loop]. unfold bind, rand.Int.
    destruct (rand_Reader w) as [|v rest] eqn:Hr; [cbn in Hn; lia|].
    destruct (IH (S i) (services.store i
                          (services.charset_at
                             (v mod N.of_nat (String.length services.charset)))
                          bytes)
                (set_rand_Reader rest w)) as [out Hout].
    { cbn in *. lia. }
    exists out. rewrite Hout. cbn [skipn rand_Reader set_rand_Reader].
    destruct w; reflexivity.
Qed.

Lemma GenerateShortCode_loop_short (n : nat) :
  forall (i : nat) (bytes : list ascii) (w : World),
    List.length (rand_Reader w) < n ->
    services.GenerateShortCode_loop n i bytes w
    = (Err (fmt.Errorf "erreur lors de la génération du code aléatoire: "
              (errorString "unexpected EOF")),
       set_rand_Reader [] w).
Proof.
  induction n as [|n IH]; intros i bytes w Hn; [lia|].
  cbn [services.GenerateShortCode_loop]. unfold bind, rand.Int.
  destruct (rand_Reader w) as [|v rest] eqn:Hr.
  - cbn. rewrite <- Hr, set_rand_Reader_same. reflexivity.
  - rewrite IH by (cbn in *; lia). destruct w; reflexivity.
Qed.

(** X1. GenerateShortCode(length) succeeds exactly when the entropy
    source still has [length] draws.  It then returns [length] characters,
    all of the alphabet, and has consumed those draws and touched nothing
    else.  Otherwise it returns the reader's error wrapped, after consuming
    what draws there were. *)
Theorem GenerateShortCode_draws_length_characters :
  forall (length : nat) (w : World),
    if Nat.leb length (List.length (rand_Reader w))
    then exists code,
        services.GenerateShortCode length w
        = (Ok code, set_rand_Reader (skipn length (rand_Reader w)) w)
        /\ String.length code = length
        /\ Forall in_charset (list_ascii_of_string code)
    else exists e,
        services.GenerateShortCode length w
        = (Err (fmt.Errorf "erreur lors de la génération du code aléatoire: " e),
           set_rand_Reader [] w).
Proof.
  intros length w. destruct (Nat.leb_spec length (List.length (rand_Reader w)))
    as [Hle|Hlt].
  - destruct (GenerateShortCode_loop_enough length 0 (repeat zero length) w Hle)
      as [out Hout].
    assert (Hrun : services.GenerateShortCode length w
                   = (Ok (string_of_list_ascii out),
                      set_rand_Reader (skipn length (rand_Reader w)) w)).
    { unfold services.GenerateShortCode, bind. rewrite Hout. reflexivity. }
    exists (string_of_list_ascii out). split; [exact Hrun|].
    apply GenerateShortCode_ok in Hrun. tauto.
  - exists (errorString "unexpected EOF").
    unfold services.GenerateShortCode, bind.
    rewrite (GenerateShortCode_loop_short length 0 _ w Hlt). reflexivity.
Qed.

(** ** What CreateLink touches *)

Lemma GenerateShortCode_world (n : nat) (w w1 : World) (r : result string) :
  services.GenerateShortCode n w = (r, w1) ->
  exists m, m <= n /\ w1 = set_rand_Reader (skipn m (rand_Reader w)) w.
Proof.
  unfold services.GenerateShortCode, bind. intros H.
  destruct (Nat.le_gt_cases n (List.length (rand_Reader w))) as [Hle|Hlt].
  - destruct (GenerateShortCode_loop_enough n 0 (repeat zero n) w Hle) as [out Hout].
    rewrite Hout in H. inversion H; subst. exists n. auto.
  - rewrite (GenerateShortCode_loop_short n 0 _ w Hlt) in H. inversion H; subst.
    exists (List.length (rand_Reader w)). split; [lia|].
    rewrite skipn_all. reflexivity.
Qed.

Lemma repository_GetLinkByShortCode_db (code : string) (d : gorm.DB) :
  snd (repository.GetLinkByShortCode code d)
  = snd (gorm.arrive (gorm.SELECT_links code) d).
Proof. rewrite GetLinkByShortCode_unfold. reflexivity. Qed.

Lemma arrive_effects (st : gorm.stmt) (d : gorm.DB) :
  gorm.journal (snd (gorm.arrive st d)) = gorm.journal d ++ [st]
  /\ gorm.clicks (snd (gorm.arrive st d)) = gorm.clicks d
  /\ gorm.env (snd (gorm.arrive st d)) = tl (gorm.env d).
Proof. unfold gorm.arrive. cbn. auto. Qed.

Lemma repository_CreateLink_effects (l : models.Link) (d : gorm.DB) :
  gorm.journal (snd (repository.CreateLink l d))
  = gorm.journal d ++ [gorm.INSERT_links l]
  /\ gorm.clicks (snd (repository.CreateLink l d)) = gorm.clicks d.
Proof.
  unfold repository.CreateLink, gorm.Create_Link, bind, ret.
  destruct (arrive_effects (gorm.INSERT_links l) d) as [Hj [Hc _]].
  destruct (gorm.arrive (gorm.INSERT_links l) d) as [[e|] d1]; cbn [snd] in *.
  - auto.
  - destruct (gorm.insert_link l (gorm.links d1)) as [[lk|e] rows]; cbn; auto.
Qed.

Lemma last_cons_nonempty {A : Type} (a b : A) (l : list A) (d : A) :
  last (a :: b :: l) d = last (b :: l) d.
Proof. reflexivity. Qed.

Lemma CreateLink_loop_footprint (n : nat) :
  forall (i : Z) (w w' : World) (r : result string),
    services.CreateLink_loop n i w = (r, w') ->
    exists (codes : list string) (m : nat),
      List.length codes <= n
      /\ m <= 6 * n
      /\ gorm.journal (db w') = gorm.journal (db w) ++ map gorm.SELECT_links codes
      /\ rand_Reader w' = skipn m (rand_Reader w)
      /\ gorm.clicks (db w') = gorm.clicks (db w)
      /\ ClickEventsChannel w' = ClickEventsChannel w
      /\ clock w' = clock w
      /\ ctx_done w' = ctx_done w
      /\ forall code, r = Ok code -> code = "" \/ last codes "" = code.
Proof.
  induction n as [|n IH]; intros i w w' r H.
  - cbn in H. inversion H; subst. exists [], 0. cbn. rewrite app_nil_r.
    repeat split; auto. intros code Hc. inversion Hc. left. reflexivity.
  - rewrite CreateLink_loop_step in H.
    destruct (services.GenerateShortCode 6 w) as [[c|e] wg] eqn:Hgen.
    + destruct (GenerateShortCode_world _ _ _ _ Hgen) as [m0 [Hm0 Hwg]].
      pose proof (repository_GetLinkByShortCode_db c (db wg)) as Hdb.
      destruct (arrive_effects (gorm.SELECT_links c) (db wg)) as [Hj [Hc _]].
      destruct (repository.GetLinkByShortCode c (db wg)) as [[l|e] d2];
        cbn [snd] in Hdb; rewrite <- Hdb in Hj, Hc; clear Hdb.
      * apply IH in H.
        destruct H as [codes [m [Hlen [Hm [Hj' [Hr' [Hc' [Hch' [Hck' [Hctx' Hlast]]]]]]]]]].
        subst wg. cbn -[skipn Nat.mul] in *.
        exists (c :: codes), (m0 + m). cbn [List.length map].
        split; [lia|]. split; [lia|].
        split; [rewrite Hj', Hj, <- app_assoc; reflexivity|].
        split; [rewrite Hr', skipn_skipn; f_equal; lia|].
        split; [congruence|]. split; [exact Hch'|]. split; [exact Hck'|].
        split; [exact Hctx'|].
        intros code Hcode. destruct (Hlast code Hcode) as [He|Hl]; [left; exact He|].
        destruct codes as [|c' codes]; [left; symmetry; exact Hl | right; exact Hl].
      * subst wg.
        destruct (errors.Is e ErrRecordNotFound); inversion H; subst;
          cbn -[skipn Nat.mul] in *;
          exists [c], m0; cbn [List.length map last];
          (split; [lia|]); (split; [lia|]); (split; [exact Hj|]);
          repeat split; auto.
        -- intros code Hcode. inversion Hcode. right. reflexivity.
        -- intros code Hcode. discriminate.
    + inversion H; subst.
      destruct (GenerateShortCode_world _ _ _ _ Hgen) as [m0 [Hm0 Hwg]].
      subst w'. exists [], m0. cbn -[skipn Nat.mul]. rewrite app_nil_r.
      split; [lia|]. split; [lia|]. repeat split; auto.
      intros code Hcode. discriminate.
Qed.

(** X2. Whatever the world, one call of CreateLink issues at most five
    SELECTs (one per candidate) followed by at most one INSERT, of the last
    candidate with the requested long URL and no ID set; it consumes at
    most thirty draws and touches neither the clicks table nor the click
    channel.  When it succeeds, the INSERT has been issued. *)
Theorem CreateLink_footprint :
  forall (longURL : string) (w : World),
    let r := fst (services.CreateLink longURL w) in
    let w' := snd (services.CreateLink longURL w) in
    exists (codes : list string) (inserted : list models.Link) (m : nat),
      gorm.journal (db w')
      = gorm.journal (db w) ++ map gorm.SELECT_links codes
          ++ map gorm.INSERT_links inserted
      /\ List.length codes <= 5
      /\ List.length inserted <= 1
      /\ (forall l, In l inserted ->
            l = new_link (last codes "") longURL (clock w))
      /\ (forall link, r = Ok link -> inserted <> [])
      /\ rand_Reader w' = skipn m (rand_Reader w)
      /\ m <= 30
      /\ gorm.clicks (db w') = gorm.clicks (db w)
      /\ ClickEventsChannel w' = ClickEventsChannel w.
Proof.
  intros longURL w. cbn zeta.
  unfold services.CreateLink, services.CreateLink_from, bind.
  destruct (services.CreateLink_loop (Z.to_nat services.maxRetries) 0 w)
    as [r0 w1] eqn:Hloop.
  apply CreateLink_loop_footprint in Hloop.
  destruct Hloop as [codes [m [Hlen [Hm [Hj [Hr [Hc [Hch [Hck [_ Hlast]]]]]]]]]].
  change (Z.to_nat services.maxRetries) with 5 in Hlen, Hm.
  destruct r0 as [code|e].
  - unfold services.CreateLink_persist.
    destruct (String.eqb_spec code "") as [Hempty|Hcode].
    + exists codes, [], m. cbn [map fst snd]. rewrite app_nil_r.
      repeat split; auto; try lia.
      * intros l [].
      * intros link Hl. discriminate.
    + destruct (Hlast code eq_refl) as [He|Hl]; [contradiction|].
      unfold bind, time.Now, gets, on_db, zoom.
      fold (new_link code longURL (clock w1)).
      destruct (repository_CreateLink_effects
                  (new_link code longURL (clock w1)) (db w1)) as [Hj3 Hc3].
      destruct (repository.CreateLink (new_link code longURL (clock w1)) (db w1))
        as [[link' oe] d3]. cbn [snd] in Hj3, Hc3.
      exists codes, [new_link code longURL (clock w1)], m.
      assert (Hw' : snd (match oe with
                         | Some e =>
                             ret (Err (fmt.Errorf
                                         "erreur lors de la création du lien: " e))
                         | None => ret (Ok link')
                         end (set_db d3 w1)) = set_db d3 w1)
        by (destruct oe; reflexivity).
      rewrite Hw'. cbn [db set_db rand_Reader ClickEventsChannel map List.length].
      split; [rewrite Hj3, Hj, <- app_assoc; reflexivity|].
      split; [lia|]. split; [lia|].
      split; [intros l [<-|[]]; rewrite Hl, Hck; reflexivity|].
      split; [intros link _; discriminate|].
      split; [exact Hr|]. split; [lia|].
      split; [congruence | exact Hch].
  - exists codes, [], m. cbn [services.CreateLink_persist ret map fst snd].
    rewrite app_nil_r. repeat split; auto; try lia.
    + intros l [].
    + intros link Hl. discriminate.
Qed.

(** X3. At whichever attempt the entropy source fails while a candidate is
    generated, CreateLink returns that error wrapped twice (by
    GenerateShortCode and by CreateLink) and stops there: the failed
    generation is the last thing that happened, so no statement reaches the
    database for that attempt. *)
Theorem CreateLink_stops_on_entropy_failure :
  forall (longURL : string) (k : nat) (w wk w1 : World)
         (codes : list string) (e : error),
    k < Z.to_nat services.maxRetries ->
    collisions k 0 w codes wk ->
    services.GenerateShortCode 6 wk = (Err e, w1) ->
    services.CreateLink longURL w
    = (Err (fmt.Errorf "erreur lors de la génération du code court: " e), w1)
    /\ db w1 = db wk
    /\ gorm.journal (db w1) = gorm.journal (db w) ++ map gorm.SELECT_links codes
    /\ gorm.links (db w1) = gorm.links (db wk).
Proof.
  intros longURL k w wk w1 codes e Hk Hcol Hgen.
  assert (Hdb : db w1 = db wk).
  { destruct (GenerateShortCode_world _ _ _ _ Hgen) as [m [_ Hw1]].
    subst w1. reflexivity. }
  split.
  - unfold services.CreateLink, services.CreateLink_from.
    replace (Z.to_nat services.maxRetries)
      with (k + S (Z.to_nat services.maxRetries - S k)) at 1 by lia.
    unfold bind at 1.
    rewrite (CreateLink_loop_after_collisions _ _ _ _ _ _ Hcol).
    rewrite CreateLink_loop_step, Hgen. reflexivity.
  - split; [exact Hdb|]. rewrite Hdb. split; [|reflexivity].
    apply collisions_effects in Hcol. tauto.
Qed.

Lemma CreateLink_stops_on_entropy_failure_witness :
  services.CreateLink "https://example.org/a" starved_world
  = (Err (fmt.Errorf "erreur lors de la génération du code court: "
            (fmt.Errorf "erreur lors de la génération du code aléatoire: "
               (errorString "unexpected EOF"))),
     starved_world_end)
  /\ gorm.journal (db starved_world_end) = [gorm.SELECT_links "aaaaaa"].
Proof.
  assert (Hk : 1 < Z.to_nat services.maxRetries) by (vm_compute; lia).
  assert (Hcol : collisions 1 0 starved_world ["aaaaaa"] starved_world_collided).
  { apply (collisions_S 0 0 starved_world "aaaaaa" starved_world_first
             (sample_link 1 "aaaaaa" "https://go.dev/doc")
             starved_db_first [] starved_world_collided);
      [vm_compute; reflexivity | vm_compute; reflexivity | apply collisions_O]. }
  assert (Hgen : services.GenerateShortCode 6 starved_world_collided
                 = (Err (fmt.Errorf "erreur lors de la génération du code aléatoire: "
                           (errorString "unexpected EOF")),
                    starved_world_end))
    by (vm_compute; reflexivity).
  destruct (CreateLink_stops_on_entropy_failure "https://example.org/a" 1
              starved_world starved_world_collided starved_world_end
              ["aaaaaa"] _ Hk Hcol Hgen) as [Hres [_ [Hj _]]].
  split; [exact Hres | exact Hj].
Defined.

(** ** The handlers *)

Lemma Is_Errorf_not_found (prefix : string) (e : error) :
  errors.Is (fmt.Errorf prefix e) ErrRecordNotFound = errors.Is e ErrRecordNotFound.
Proof. reflexivity. Qed.

Lemma services_GetLinkByShortCode_unfold (code : string) (w : World) :
  services.GetLinkByShortCode code w =
    let d' := snd (gorm.arrive (gorm.SELECT_links code) (db w)) in
    (match hd gorm.Quiet (gorm.env (db w)) with
     | gorm.Fails e =>
         Err (fmt.Errorf "erreur lors de la récupération du lien: "
                (fmt.Errorf (lookup_error_prefix code) e))
     | _ =>
         match find (gorm.has_short_code code) (gorm.links d') with
         | Some l => Ok l
         | None =>
             Err (fmt.Errorf "erreur lors de la récupération du lien: "
                    (fmt.Errorf (lookup_error_prefix code) ErrRecordNotFound))
         end
     end, set_db d' w).
Proof.
  unfold services.GetLinkByShortCode, bind, on_db, zoom.
  rewrite GetLinkByShortCode_unfold. cbn zeta.
  destruct (hd gorm.Quiet (gorm.env (db w))) as [|e|c u]; try reflexivity;
    destruct (find _ _); reflexivity.
Qed.


(** A successful CreateLink has appended the link it returns to the links
    table, under a short code of six characters that no older row has, and
    has left the click channel alone. *)
Lemma CreateLink_ok_row (longURL : string) (w w' : World) (link : models.Link) :
  services.CreateLink longURL w = (Ok link, w') ->
  exists rows,
    gorm.links (db w') = rows ++ [link]
    /\ existsb (gorm.has_short_code (models.ShortCode link)) rows = false
    /\ models.LongURL link = longURL
    /\ String.length (models.ShortCode link) = 6
    /\ ClickEventsChannel w' = ClickEventsChannel w.
Proof.
  intros Hrun.
  unfold services.CreateLink, services.CreateLink_from, bind in Hrun.
  destruct (services.CreateLink_loop (Z.to_nat services.maxRetries) 0 w)
    as [[code|e] w1] eqn:Hloop; [|discriminate].
  pose proof (CreateLink_loop_footprint _ _ _ _ _ Hloop) as Hfoot.
  destruct Hfoot as [codes [m [_ [_ [_ [_ [_ [Hch _]]]]]]]].
  apply CreateLink_loop_ok in Hloop.
  destruct Hloop as [Hempty|[Hlen Hchars]]; [subst code; discriminate|].
  unfold services.CreateLink_persist in Hrun.
  rewrite (length_6_not_empty _ Hlen) in Hrun.
  unfold bind, time.Now, gets, on_db, zoom in Hrun.
  fold (new_link code longURL (clock w1)) in Hrun.
  destruct (repository.CreateLink (new_link code longURL (clock w1)) (db w1))
    as [[link' [e'|]] d3] eqn:Hcreate; [discriminate|].
  inversion Hrun; subst link' w'; clear Hrun.
  apply repository_CreateLink_ok in Hcreate.
  destruct Hcreate as [rows [Hrows [Hmiss [Hcode Hurl]]]].
  cbn [new_link models.ShortCode models.LongURL] in Hmiss, Hcode, Hurl.
  exists rows. cbn [db set_db ClickEventsChannel]. rewrite Hcode.
  repeat split; auto.
Qed.

(** X5. When CreateShortLinkHandler answers 201, its body names the short
    code (six characters), the submitted long URL and the full short URL,
    and a redirect request for that code, served next, answers 302 to the
    submitted URL, as long as the driver does not fail the lookup and the
    channel is open. *)
Theorem shorten_then_redirect :
  forall (c : handlers.Request) (w : World) (body : list (string * handlers.json)),
    fst (handlers.CreateShortLinkHandler c w) = handlers.JSON handlers.StatusCreated body ->
    let w1 := snd (handlers.CreateShortLinkHandler c w) in
    (forall e, hd gorm.Quiet (gorm.env (db w1)) <> gorm.Fails e) ->
    channel.closed (ClickEventsChannel w) = false ->
    exists code longURL,
      handlers.Body_long_url c = Some longURL
      /\ handlers.JSON handlers.StatusCreated body = created_answer code longURL
      /\ String.length code = 6
      /\ forall (c2 : handlers.Request),
           handlers.Param_shortCode c2 = code ->
           fst (handlers.RedirectHandler c2 w1)
           = handlers.Redirect handlers.StatusFound longURL.
Proof.
  intros c w body H201 w1 Hcalm Hopen. subst w1.
  unfold handlers.CreateShortLinkHandler in *.
  destruct (handlers.Body_long_url c) as [longURL|]; [|discriminate].
  unfold bind in *.
  destruct (services.CreateLink longURL w) as [[link|err] w1] eqn:Hrun;
    [|discriminate].
  cbn [fst snd ret] in *.
  destruct (CreateLink_ok_row _ _ _ _ Hrun) as [rows [Hrows [Hmiss [Hurl [Hlen Hch]]]]].
  exists (models.ShortCode link), longURL.
  split; [reflexivity|]. split; [rewrite <- H201, Hurl; reflexivity|].
  split; [exact Hlen|].
  intros c2 Hc2.
  pose proof (GetLinkByShortCode_after_insert link rows (db w1) Hrows Hmiss Hcalm)
    as Hfound.
  unfold handlers.RedirectHandler, bind.
  rewrite Hc2, services_GetLinkByShortCode_unfold. cbn zeta.
  rewrite GetLinkByShortCode_unfold in Hfound. cbn zeta in Hfound. cbn [fst] in Hfound.
  assert (Hrow : find (gorm.has_short_code (models.ShortCode link))
                   (gorm.links (snd (gorm.arrive
                                       (gorm.SELECT_links (models.ShortCode link))
                                       (db w1))))
                 = Some link).
  { destruct (hd gorm.Quiet (gorm.env (db w1))); try discriminate;
      destruct (find _ _); inversion Hfound; reflexivity. }
  rewrite Hrow.
  assert (Hlook : match hd gorm.Quiet (gorm.env (db w1)) with
                  | gorm.Fails e =>
                      Err (fmt.Errorf "erreur lors de la récupération du lien: "
                             (fmt.Errorf (lookup_error_prefix (models.ShortCode link)) e))
                  | _ => Ok link
                  end = Ok link).
  { destruct (hd gorm.Quiet (gorm.env (db w1))) as [|e|cc u] eqn:Hev;
      try reflexivity. exfalso. apply (Hcalm e). reflexivity. }
  rewrite Hlook.
  unfold time.Now, gets, handlers.tryEnqueue, channel.select_send.
  cbn [ClickEventsChannel set_db]. rewrite Hch, Hopen.
  destruct (Nat.ltb _ _); cbn; rewrite Hurl; reflexivity.
Qed.

Lemma shorten_then_redirect_witness :
  fst (handlers.CreateShortLinkHandler (a_request "" (Some "https://example.org/a"))
         calm_world)
  = created_answer "bcdefg" "https://example.org/a"
  /\ exists code longURL,
       Some "https://example.org/a" = Some longURL
       /\ created_answer "bcdefg" "https://example.org/a" = created_answer code longURL
       /\ String.length code = 6
       /\ forall (c2 : handlers.Request),
            handlers.Param_shortCode c2 = code ->
            fst (handlers.RedirectHandler c2
                   (snd (handlers.CreateShortLinkHandler
                           (a_request "" (Some "https://example.org/a")) calm_world)))
            = handlers.Redirect handlers.StatusFound longURL.
Proof.
  assert (H201 : fst (handlers.CreateShortLinkHandler
                        (a_request "" (Some "https://example.org/a")) calm_world)
                 = created_answer "bcdefg" "https://example.org/a")
    by (vm_compute; reflexivity).
  assert (Hcalm : forall e,
             hd gorm.Quiet
               (gorm.env (db (snd (handlers.CreateShortLinkHandler
                                     (a_request "" (Some "https://example.org/a"))
                                     calm_world))))
             <> gorm.Fails e) by (intros e; vm_compute; discriminate).
  split; [exact H201|].
  exact (shorten_then_redirect (a_request "" (Some "https://example.org/a"))
           calm_world _ H201 Hcalm eq_refl).
Defined.

Lemma GetLinkStatsHandler_undisturbed (c : handlers.Request) (w : World) :
  gorm.env (db w) = [] ->
  handlers.GetLinkStatsHandler c w =
    match find (gorm.has_short_code (handlers.Param_shortCode c))
            (gorm.links (db w)) with
    | None =>
        (not_found_answer,
         set_db (journalled [gorm.SELECT_links (handlers.Param_shortCode c)] (db w)) w)
    | Some link =>
        (stats_answer link
           (Z.of_nat (List.length (clicks_of_link (models.ID link) (db w)))),
         set_db (journalled [gorm.SELECT_links (handlers.Param_shortCode c);
                             gorm.COUNT_clicks (models.ID link)] (db w)) w)
    end.
Proof.
  intros Henv.
  unfold handlers.GetLinkStatsHandler, services.GetLinkStats, bind, on_db, zoom.
  rewrite GetLinkByShortCode_unfold. cbn zeta.
  unfold gorm.arrive. rewrite Henv. cbn [hd tl fst snd gorm.links].
  destruct (find (gorm.has_short_code (handlers.Param_shortCode c))
              (gorm.links (db w))) as [link|].
  - unfold repository.CountClicksByLinkID, gorm.Where_link_id_Count, bind, gets, ret.
    unfold gorm.arrive. cbn. unfold journalled. rewrite Henv, <- app_assoc.
    reflexivity.
  - cbn. unfold journalled. rewrite Henv. reflexivity.
Qed.

(** X6. On a database that nothing disturbs, GetLinkStatsHandler answers
    the 404 for a short code that has no row, without issuing a COUNT, and
    for a short code that has one it answers 200 with the link's code and
    long URL and, as total_clicks, the number of click rows that carry the
    link's ID. *)
Theorem GetLinkStatsHandler_answer :
  forall (c : handlers.Request) (w : World),
    gorm.env (db w) = [] ->
    let code := handlers.Param_shortCode c in
    let served := handlers.GetLinkStatsHandler c w in
    match find (gorm.has_short_code code) (gorm.links (db w)) with
    | None =>
        fst served = not_found_answer
        /\ gorm.journal (db (snd served))
           = gorm.journal (db w) ++ [gorm.SELECT_links code]
    | Some link =>
        fst served
        = stats_answer link
            (Z.of_nat (List.length (clicks_of_link (models.ID link) (db w))))
        /\ gorm.journal (db (snd served))
           = gorm.journal (db w)
               ++ [gorm.SELECT_links code; gorm.COUNT_clicks (models.ID link)]
    end
    /\ gorm.links (db (snd served)) = gorm.links (db w)
    /\ gorm.clicks (db (snd served)) = gorm.clicks (db w).
Proof.
  intros c w Henv. cbn zeta. rewrite (GetLinkStatsHandler_undisturbed c w Henv).
  destruct (find (gorm.has_short_code (handlers.Param_shortCode c))
              (gorm.links (db w))) as [link|]; cbn; repeat split.
Qed.

Lemma GetLinkStatsHandler_answer_witness :
  fst (handlers.GetLinkStatsHandler (a_request "aaaaaa" None)
         (sample_world sample_db []))
  = stats_answer (sample_link 1 "aaaaaa" "https://go.dev/doc") 3
  /\ gorm.journal (db (snd (handlers.GetLinkStatsHandler (a_request "aaaaaa" None)
                              (sample_world sample_db []))))
     = [gorm.SELECT_links "aaaaaa"; gorm.COUNT_clicks 1].
Proof.
  exact (proj1 (GetLinkStatsHandler_answer (a_request "aaaaaa" None)
                  (sample_world sample_db []) eq_refl)).
Defined.

(** ** From a redirect to the statistics *)

Lemma RedirectHandler_undisturbed (c : handlers.Request) (w : World)
  (link : models.Link) :
  gorm.env (db w) = [] ->
  find (gorm.has_short_code (handlers.Param_shortCode c)) (gorm.links (db w))
  = Some link ->
  channel.closed (ClickEventsChannel w) = false ->
  List.length (channel.buf (ClickEventsChannel w)) < channel.cap (ClickEventsChannel w) ->
  handlers.RedirectHandler c w =
    (handlers.Redirect handlers.StatusFound (models.LongURL link),
     set_ClickEventsChannel
       {| channel.cap := channel.cap (ClickEventsChannel w);
          channel.buf := channel.buf (ClickEventsChannel w)
                           ++ [event_for c link (clock w)];
          channel.closed := false |}
       (set_db (journalled [gorm.SELECT_links (handlers.Param_shortCode c)] (db w)) w)).
Proof.
  intros Henv Hfind Hopen Hroom.
  unfold handlers.RedirectHandler, bind.
  rewrite services_GetLinkByShortCode_unfold. cbn zeta.
  unfold gorm.arrive. rewrite Henv. cbn [hd tl fst snd gorm.links]. rewrite Hfind.
  unfold time.Now, gets, handlers.tryEnqueue, channel.select_send.
  cbn [ClickEventsChannel set_db clock]. rewrite Hopen.
  apply Nat.ltb_lt in Hroom. rewrite Hroom. cbn [ret].
  unfold journalled, event_for. rewrite Henv. reflexivity.
Qed.

Lemma filter_snoc {A : Type} (f : A -> bool) (l : list A) (x : A) :
  filter f (l ++ [x]) = filter f l ++ (if f x then [x] else []).
Proof. rewrite filter_app. reflexivity. Qed.

(** X7. A redirect of a known short code, on an open and empty queue with
    room and an undisturbed database, puts one event in the queue; the
    worker that receives it persists one click row carrying the link's ID;
    after that GetLinkStatsHandler reports one click more for the link than
    there was before the redirect. *)
Theorem redirect_click_is_counted :
  forall (c : handlers.Request) (w : World) (id : Z) (link : models.Link),
    gorm.env (db w) = [] ->
    find (gorm.has_short_code (handlers.Param_shortCode c)) (gorm.links (db w))
    = Some link ->
    channel.closed (ClickEventsChannel w) = false ->
    channel.buf (ClickEventsChannel w) = [] ->
    0 < channel.cap (ClickEventsChannel w) ->
    let before := List.length (clicks_of_link (models.ID link) (db w)) in
    let w1 := snd (handlers.RedirectHandler c w) in
    exists w2 w3,
      fst (handlers.RedirectHandler c w)
      = handlers.Redirect handlers.StatusFound (models.LongURL link)
      /\ workers.clickWorker_step id workers.case_Receive workers.Selecting w1
         = Some (workers.Persisting (event_for c link (clock w)), w2)
      /\ (forall choice,
            workers.clickWorker_step id choice
              (workers.Persisting (event_for c link (clock w))) w2
            = Some (workers.Sleeping, w3))
      /\ List.length (clicks_of_link (models.ID link) (db w3)) = S before
      /\ fst (handlers.GetLinkStatsHandler c w3)
         = stats_answer link (Z.of_nat (S before)).
Proof.
  intros c w id link Henv Hfind Hopen Hbuf Hcap. cbn zeta.
  rewrite (RedirectHandler_undisturbed c w link Henv Hfind Hopen)
    by (rewrite Hbuf; exact Hcap).
  cbn [fst snd]. rewrite Hbuf. cbn [app].
  eexists. eexists. split; [reflexivity|].
  split; [reflexivity|].
  split.
  { intros choice. cbn [workers.clickWorker_step]. unfold bind at 1.
    unfold on_db, zoom.
    unfold repository.CreateClick, gorm.Create_Click, bind at 1 2.
    unfold gorm.arrive. cbn [db set_db set_ClickEventsChannel journalled gorm.env].
    rewrite Henv. cbn. reflexivity. }
  split.
  - unfold clicks_of_link. cbn [db set_db set_log_output gorm.clicks].
    rewrite filter_snoc. unfold gorm.has_link_id at 2. cbn [models.LinkID].
    rewrite N.eqb_refl, length_app. cbn [List.length]. lia.
  - rewrite GetLinkStatsHandler_undisturbed by (cbn; reflexivity).
    cbn [db set_db set_log_output gorm.links]. rewrite Hfind. cbn [fst].
    f_equal. f_equal.
    unfold clicks_of_link. cbn [db set_db set_log_output gorm.clicks].
    rewrite filter_snoc. unfold gorm.has_link_id at 2. cbn [models.LinkID].
    rewrite N.eqb_refl, length_app. cbn [List.length]. lia.
Qed.

Lemma redirect_click_is_counted_witness :
  exists w2 w3,
    fst (handlers.RedirectHandler (a_request "aaaaaa" None) (sample_world sample_db []))
    = handlers.Redirect handlers.StatusFound "https://go.dev/doc"
    /\ workers.clickWorker_step 0 workers.case_Receive workers.Selecting
         (snd (handlers.RedirectHandler (a_request "aaaaaa" None)
                 (sample_world sample_db [])))
       = Some (workers.Persisting
                 (event_for (a_request "aaaaaa" None)
                    (sample_link 1 "aaaaaa" "https://go.dev/doc") 1700000000),
               w2)
    /\ (forall choice,
          workers.clickWorker_step 0 choice
            (workers.Persisting
               (event_for (a_request "aaaaaa" None)
                  (sample_link 1 "aaaaaa" "https://go.dev/doc") 1700000000)) w2
          = Some (workers.Sleeping, w3))
    /\ List.length (clicks_of_link 1 (db w3)) = 4
    /\ fst (handlers.GetLinkStatsHandler (a_request "aaaaaa" None) w3)
       = stats_answer (sample_link 1 "aaaaaa" "https://go.dev/doc") 4.
Proof.
  assert (Hcap : 0 < channel.cap (ClickEventsChannel (sample_world sample_db [])))
    by (cbn; lia).
  exact (redirect_click_is_counted (a_request "aaaaaa" None)
           (sample_world sample_db []) 0%Z
           (sample_link 1 "aaaaaa" "https://go.dev/doc")
           eq_refl eq_refl eq_refl eq_refl Hcap).
Defined.

(** ** One worker keeps the order of the queue *)

Lemma draining_in_order_step (clicks0 expected : list models.Click)
  (i : nat) (choice : workers.select_case) (s s' : server.System) :
  draining clicks0 expected s ->
  draining_in_order clicks0 expected s ->
  server.step (server.Worker i choice) s = Some s' ->
  draining_in_order clicks0 expected s'.
Proof.
  intros [Hctx [Hopen [Hcalm _]]] [id [g [added [Hpool [Hclicks Horder]]]]] Hstep.
  apply step_Worker_inv in Hstep.
  destruct Hstep as [id' [g0 [g' [Hat [Hmove Hpool']]]]].
  rewrite Hpool in Hat, Hpool'.
  destruct i as [|i]; [|destruct i; discriminate].
  cbn in Hat. inversion Hat; subst id' g0; clear Hat.
  cbn [server.replace] in Hpool'.
  destruct s' as [w' pool']. cbn [server.world server.workers_pool] in *.
  subst pool'. unfold draining_in_order. cbn [server.world server.workers_pool].
  destruct g as [| |ev| |].
  - cbn in Hmove. inversion Hmove; subst g' w'.
    exists id, workers.Selecting, added. cbn in *. auto.
  - cbn in Hmove. destruct choice.
    + rewrite Hctx in Hmove. discriminate.
    + unfold channel.receive in Hmove.
      destruct (channel.buf (ClickEventsChannel (server.world s))) as [|ev q] eqn:Hbuf.
      * rewrite Hopen in Hmove. discriminate.
      * inversion Hmove; subst g' w'.
        exists id, (workers.Persisting ev), added. cbn in *. auto.
  - destruct (clickWorker_step_Persisting id choice ev (server.world s) Hcalm)
      as [c [w'0 [Hmove' [Hc [Hunset [_ [_ [Hch _]]]]]]]].
    rewrite Hmove' in Hmove. inversion Hmove; subst g' w'0.
    exists id, workers.Sleeping, (added ++ [c]).
    split; [reflexivity|]. split; [rewrite Hc, Hclicks, app_assoc; reflexivity|].
    rewrite Hch, map_app, <- Horder. cbn [map inflight flat_map snd app].
    rewrite Hunset, <- app_assoc. reflexivity.
  - cbn in Hmove. inversion Hmove; subst g' w'.
    exists id, workers.Selecting, added. cbn in *. auto.
  - cbn in Hmove. discriminate.
Qed.

Lemma draining_in_order_run (clicks0 expected : list models.Click)
  (schedule : list (nat * workers.select_case)) :
  forall (s s' : server.System),
    draining clicks0 expected s ->
    draining_in_order clicks0 expected s ->
    server.run (worker_moves schedule) s = Some s' ->
    draining_in_order clicks0 expected s'.
Proof.
  induction schedule as [|[i choice] rest IH]; intros s s' Hinv Hord Hrun.
  - inversion Hrun; subst. exact Hord.
  - cbn [worker_moves map server.run fst snd] in Hrun.
    destruct (server.step (server.Worker i choice) s) as [s1|] eqn:Hstep;
      [|discriminate].
    destruct (draining_step _ _ _ _ _ _ Hinv Hstep) as [Hinv1 _].
    apply (IH s1 s' Hinv1); [|exact Hrun].
    apply (draining_in_order_step _ _ _ _ _ _ Hinv Hord Hstep).
Qed.

Lemma pipeline_start_in_order (BufferSize IntervalMinutes Port : Z)
  (calls : list (api.ClickEvent * string)) (w : World) (start : server.System) :
  List.length calls <= Z.to_nat BufferSize ->
  pipeline_start BufferSize 1 IntervalMinutes Port calls w = Some start ->
  draining_in_order (gorm.clicks (db w))
    (map (fun c => workers.click_of (fst c)) calls) start.
Proof.
  intros HM Hstart. rewrite pipeline_start_unfold in Hstart.
  destruct (BufferSize <? 0)%Z; [discriminate|].
  injection Hstart as Hstart. subst start.
  unfold workers.StartClickWorkers.
  cbn [server.world server.workers_pool app].
  set (w0 := started_world BufferSize 1 IntervalMinutes Port w).
  assert (Hopen : channel.closed (ClickEventsChannel w0) = false) by reflexivity.
  pose proof (tryEnqueue_all_from calls w0 Hopen) as Hq. cbn zeta in Hq.
  unfold draining_in_order. cbn [server.world server.workers_pool].
  rewrite Hq. cbn [snd]. clear Hq.
  replace (channel.cap (ClickEventsChannel w0)
           - List.length (channel.buf (ClickEventsChannel w0)))
    with (Z.to_nat BufferSize) by (cbn; lia).
  rewrite firstn_all2 by (rewrite length_map; exact HM).
  exists 0%Z, workers.Spawned, []. cbn -[startup_lines].
  rewrite app_nil_r, map_map.
  repeat split.
Qed.

(** X8. With a single worker and a click store that never fails, the click
    rows are written in the order their events were enqueued: at any
    moment the rows added so far are, row ids apart, a prefix of the
    enqueued events' clicks, and once the worker is at rest they are all of
    them, in order.  (RunServerCmd panics at [make] exactly when the
    configured buffer size is negative.) *)
Theorem single_worker_keeps_queue_order :
  forall (BufferSize IntervalMinutes Port : Z) (calls : list (api.ClickEvent * string))
         (w : World),
    List.length calls <= Z.to_nat BufferSize ->
    never_fails (gorm.env (db w)) ->
    match pipeline_start BufferSize 1 IntervalMinutes Port calls w with
    | None => (BufferSize < 0)%Z
    | Some start =>
        (0 <= BufferSize)%Z
        /\ forall (schedule : list (nat * workers.select_case)) (s' : server.System),
             server.run (worker_moves schedule) start = Some s' ->
             let expected := map (fun c => workers.click_of (fst c)) calls in
             exists added,
               gorm.clicks (db (server.world s')) = gorm.clicks (db w) ++ added
               /\ map unset_ClickID added = firstn (List.length added) expected
               /\ (quiescent s' -> map unset_ClickID added = expected)
    end.
Proof.
  intros BufferSize IntervalMinutes Port calls w HM Hcalm.
  destruct (pipeline_start BufferSize 1 IntervalMinutes Port calls w)
    as [start|] eqn:Hstart;
    [|apply (pipeline_start_panics _ 1%Z IntervalMinutes Port calls w); exact Hstart].
  split.
  { destruct (Z.lt_ge_cases BufferSize 0) as [Hneg|Hpos]; [|exact Hpos].
    apply (pipeline_start_panics _ 1%Z IntervalMinutes Port calls w) in Hneg.
    congruence. }
  intros schedule s' Hrun expected.
  assert (H1 : (1 <= 1)%Z) by lia.
  destruct (pipeline_start_draining _ _ _ _ _ _ _ H1 HM Hcalm Hstart) as [Hinv _].
  pose proof (pipeline_start_in_order _ _ _ _ _ _ HM Hstart) as Hord.
  fold expected in Hinv, Hord.
  destruct (draining_run _ _ _ _ _ Hinv Hrun) as [Hinv' _].
  pose proof (draining_in_order_run _ _ _ _ _ Hinv Hord Hrun) as Hord'.
  destruct Hord' as [id [g [added [Hpool [Hclicks Horder]]]]].
  exists added. split; [exact Hclicks|]. split.
  - rewrite <- Horder, <- (length_map unset_ClickID added).
    rewrite firstn_app, Nat.sub_diag, firstn_all. cbn [firstn].
    rewrite app_nil_r. reflexivity.
  - intros Hq. apply (draining_at_rest _ _ _ Hinv') in Hq.
    unfold work_left in Hq. rewrite Hpool in Hq. cbn [map snd] in Hq.
    rewrite list_sum_cons in Hq.
    assert (Hbuf : channel.buf (ClickEventsChannel (server.world s')) = []).
    { destruct (channel.buf (ClickEventsChannel (server.world s')));
        [reflexivity | cbn [List.length] in Hq; lia]. }
    rewrite Hbuf in Horder.
    destruct g; cbn [weight] in Hq; try lia;
      cbn in Horder; rewrite app_nil_r in Horder; exact Horder.
Qed.

Lemma single_worker_keeps_queue_order_witness :
  pipeline_start 2 1 5 8080 sample_calls (sample_world sample_db []) = Some single_pipeline
  /\ server.run (worker_moves single_schedule) single_pipeline
     = Some single_pipeline_end
  /\ exists added,
       gorm.clicks (db (server.world single_pipeline_end))
       = gorm.clicks sample_db ++ added
       /\ map unset_ClickID added
          = firstn (List.length added)
              [workers.click_of (sample_event 1 "aaaaaa" 1700000001);
               workers.click_of (sample_event 2 "Zx91Qp" 1700000002)]
       /\ (quiescent single_pipeline_end ->
           map unset_ClickID added
           = [workers.click_of (sample_event 1 "aaaaaa" 1700000001);
              workers.click_of (sample_event 2 "Zx91Qp" 1700000002)]).
Proof.
  assert (HM : List.length sample_calls <= Z.to_nat 2) by (vm_compute; lia).
  assert (Hcalm : never_fails (gorm.env (db (sample_world sample_db []))))
    by (intros e []).
  assert (Hstart : pipeline_start 2 1 5 8080 sample_calls (sample_world sample_db [])
                   = Some single_pipeline) by (vm_compute; reflexivity).
  assert (Hrun : server.run (worker_moves single_schedule) single_pipeline
                 = Some single_pipeline_end) by (vm_compute; reflexivity).
  pose proof (single_worker_keeps_queue_order 2 5 8080 sample_calls
                (sample_world sample_db []) HM Hcalm) as Hthm.
  rewrite Hstart in Hthm. cbv beta iota zeta in Hthm.
  destruct Hthm as [_ Hall].
  split; [exact Hstart|]. split; [exact Hrun|].
  exact (Hall single_schedule single_pipeline_end Hrun).
Defined.

(** ** Shutdown *)

Lemma run_app (a b : list server.action) (s : server.System) :
  server.run (a ++ b) s =
    match server.run a s with
    | Some s1 => server.run b s1
    | None => None
    end.
Proof.
  revert s. induction a as [|x a IH]; intros s; cbn [app server.run]; [reflexivity|].
  destruct (server.step x s); [apply IH | reflexivity].
Qed.

(** The move after a receive leaves the context and the channel alone,
    whether CreateClick fails or not. *)
Lemma clickWorker_step_Persisting_frame (id : Z) (choice : workers.select_case)
  (ev : api.ClickEvent) (w : World) :
  exists w',
    workers.clickWorker_step id choice (workers.Persisting ev) w
    = Some (workers.Sleeping, w')
    /\ ctx_done w' = ctx_done w
    /\ ClickEventsChannel w' = ClickEventsChannel w.
Proof.
  cbn [workers.clickWorker_step]. unfold bind, on_db, zoom.
  destruct (repository.CreateClick (workers.click_of ev) (db w)) as [[c [e|]] d1];
    eexists; (split; [reflexivity|]); split; reflexivity.
Qed.

(** Once the context is cancelled, a worker can always be brought to
    Stopped by at most three moves of its own, which touch no other worker
    and leave the channel as it is. *)
Lemma worker_can_stop (s : server.System) (i : nat) (id : Z) (g : workers.goroutine) :
  ctx_done (server.world s) = true ->
  nth_error (server.workers_pool s) i = Some (id, g) ->
  exists n s',
    n <= 3
    /\ server.run (worker_moves (repeat (i, workers.case_Done) n)) s = Some s'
    /\ nth_error (server.workers_pool s') i = Some (id, workers.Stopped)
    /\ (forall j, j <> i ->
          nth_error (server.workers_pool s') j = nth_error (server.workers_pool s) j)
    /\ ctx_done (server.world s') = true
    /\ ClickEventsChannel (server.world s') = ClickEventsChannel (server.world s).
Proof.
  assert (Hfinal : forall s0 : server.System,
             ctx_done (server.world s0) = true ->
             nth_error (server.workers_pool s0) i = Some (id, workers.Selecting) ->
             exists s',
               server.step (server.Worker i workers.case_Done) s0 = Some s'
               /\ nth_error (server.workers_pool s') i = Some (id, workers.Stopped)
               /\ (forall j, j <> i ->
                     nth_error (server.workers_pool s') j
                     = nth_error (server.workers_pool s0) j)
               /\ ctx_done (server.world s') = true
               /\ ClickEventsChannel (server.world s')
                  = ClickEventsChannel (server.world s0)).
  { intros s0 Hdone Hat. rewrite (step_Worker_at _ _ _ _ _ Hat).
    cbn [workers.clickWorker_step]. rewrite Hdone.
    eexists. split; [reflexivity|]. cbn [server.world server.workers_pool].
    split; [apply (nth_error_replace_same _ _ _ _ Hat)|].
    split; [intros j Hj; apply nth_error_replace_other; congruence|].
    split; [exact Hdone | reflexivity]. }
  assert (Hquiet : forall (s0 : server.System) (g0 g1 : workers.goroutine) (w1 : World),
             nth_error (server.workers_pool s0) i = Some (id, g0) ->
             workers.clickWorker_step id workers.case_Done g0 (server.world s0)
             = Some (g1, w1) ->
             exists s1,
               server.step (server.Worker i workers.case_Done) s0 = Some s1
               /\ server.world s1 = w1
               /\ nth_error (server.workers_pool s1) i = Some (id, g1)
               /\ (forall j, j <> i ->
                     nth_error (server.workers_pool s1) j
                     = nth_error (server.workers_pool s0) j)).
  { intros s0 g0 g1 w1 Hat Hmove. rewrite (step_Worker_at _ _ _ _ _ Hat), Hmove.
    eexists. split; [reflexivity|]. cbn [server.world server.workers_pool].
    split; [reflexivity|].
    split; [apply (nth_error_replace_same _ _ _ _ Hat)|].
    intros j Hj. apply nth_error_replace_other. congruence. }
  intros Hdone Hat. destruct g as [| |ev| |].
  - (* Spawned: start, then stop *)
    destruct (Hquiet s _ _ _ Hat eq_refl) as [s1 [Hs1 [Hw1 [Hat1 Ho1]]]].
    destruct (Hfinal s1) as [s2 [Hs2 [Hat2 [Ho2 [Hd2 Hc2]]]]];
      [rewrite Hw1; exact Hdone | exact Hat1|].
    exists 2, s2. split; [lia|]. cbn [repeat worker_moves map fst snd server.run].
    rewrite Hs1, Hs2. split; [reflexivity|]. split; [exact Hat2|].
    split; [intros j Hj; rewrite (Ho2 j Hj); apply (Ho1 j Hj)|].
    split; [exact Hd2|]. rewrite Hc2, Hw1. reflexivity.
  - (* Selecting: stop *)
    destruct (Hfinal s Hdone Hat) as [s2 [Hs2 [Hat2 [Ho2 [Hd2 Hc2]]]]].
    exists 1, s2. split; [lia|]. cbn [repeat worker_moves map fst snd server.run].
    rewrite Hs2. auto.
  - (* Persisting: finish the write, pause, stop *)
    destruct (clickWorker_step_Persisting_frame id workers.case_Done ev
                (server.world s)) as [w1 [Hmove [Hd1 Hc1]]].
    destruct (Hquiet s _ _ _ Hat Hmove) as [s1 [Hs1 [Hw1 [Hat1 Ho1]]]].
    destruct (Hquiet s1 _ _ _ Hat1 eq_refl) as [s2 [Hs2 [Hw2 [Hat2 Ho2]]]].
    destruct (Hfinal s2) as [s3 [Hs3 [Hat3 [Ho3 [Hd3 Hc3]]]]];
      [rewrite Hw2, Hw1, Hd1; exact Hdone | exact Hat2|].
    exists 3, s3. split; [lia|]. cbn [repeat worker_moves map fst snd server.run].
    rewrite Hs1, Hs2, Hs3. split; [reflexivity|]. split; [exact Hat3|].
    split; [intros j Hj; rewrite (Ho3 j Hj), (Ho2 j Hj); apply (Ho1 j Hj)|].
    split; [exact Hd3|]. rewrite Hc3, Hw2, Hw1. exact Hc1.
  - (* Sleeping: wake, then stop *)
    destruct (Hquiet s _ _ _ Hat eq_refl) as [s1 [Hs1 [Hw1 [Hat1 Ho1]]]].
    destruct (Hfinal s1) as [s2 [Hs2 [Hat2 [Ho2 [Hd2 Hc2]]]]];
      [rewrite Hw1; exact Hdone | exact Hat1|].
    exists 2, s2. split; [lia|]. cbn [repeat worker_moves map fst snd server.run].
    rewrite Hs1, Hs2. split; [reflexivity|]. split; [exact Hat2|].
    split; [intros j Hj; rewrite (Ho2 j Hj); apply (Ho1 j Hj)|].
    split; [exact Hd2|]. rewrite Hc2, Hw1. reflexivity.
  - (* Stopped already *)
    exists 0, s. split; [lia|]. cbn. auto.
Qed.

Lemma workers_can_stop (k : nat) :
  forall (s : server.System),
    ctx_done (server.world s) = true ->
    k <= List.length (server.workers_pool s) ->
    exists schedule s',
      List.length schedule <= 3 * k
      /\ server.run (worker_moves schedule) s = Some s'
      /\ (forall j, j < k -> state_of s' j = Some workers.Stopped)
      /\ (forall j, k <= j ->
            nth_error (server.workers_pool s') j = nth_error (server.workers_pool s) j)
      /\ ctx_done (server.world s') = true
      /\ ClickEventsChannel (server.world s') = ClickEventsChannel (server.world s).
Proof.
  induction k as [|k IH]; intros s Hdone Hk.
  - exists [], s. cbn. repeat split; auto; intros j Hj; lia.
  - destruct (IH s Hdone) as [sched [s1 [Hlen [Hrun [Hstopped [Hrest [Hd1 Hc1]]]]]]];
      [lia|].
    destruct (nth_error (server.workers_pool s) k) as [[id g]|] eqn:Hat.
    2: { apply nth_error_None in Hat. lia. }
    rewrite <- (Hrest k (Nat.le_refl k)) in Hat.
    destruct (worker_can_stop s1 k id g Hd1 Hat)
      as [n [s2 [Hn [Hrun2 [Hat2 [Ho2 [Hd2 Hc2]]]]]]].
    exists (sched ++ repeat (k, workers.case_Done) n), s2.
    split; [rewrite length_app, repeat_length; lia|].
    split. { unfold worker_moves in *. rewrite map_app, run_app, Hrun. exact Hrun2. }
    split.
    { intros j Hj. unfold state_of. destruct (Nat.eq_dec j k) as [->|Hjk].
      - rewrite Hat2. reflexivity.
      - rewrite (Ho2 j Hjk). apply Hstopped. lia. }
    split.
    { intros j Hj. rewrite (Ho2 j) by lia. apply Hrest. lia. }
    split; [exact Hd2|]. rewrite Hc2. exact Hc1.
Qed.

(** X10. After cancel(), the workers can all reach Stopped with at most
    three moves each (the write in flight, the pause, the select), and
    without any of them reading the channel: the events still queued stay
    where they are. *)
Theorem cancelled_workers_can_all_stop :
  forall (s : server.System),
    ctx_done (server.world s) = true ->
    exists schedule s',
      server.run (worker_moves schedule) s = Some s'
      /\ Forall (fun m => snd m = workers.Stopped) (server.workers_pool s')
      /\ List.length schedule <= 3 * List.length (server.workers_pool s)
      /\ ClickEventsChannel (server.world s') = ClickEventsChannel (server.world s).
Proof.
  intros s Hdone.
  destruct (workers_can_stop (List.length (server.workers_pool s)) s Hdone
              (Nat.le_refl _))
    as [schedule [s' [Hlen [Hrun [Hstopped [Hrest [_ Hch]]]]]]].
  exists schedule, s'. split; [exact Hrun|]. split; [|split; [exact Hlen | exact Hch]].
  apply Forall_forall. intros m Hin. apply In_nth_error in Hin.
  destruct Hin as [j Hj].
  destruct (Nat.lt_ge_cases j (List.length (server.workers_pool s))) as [Hlt|Hge].
  - specialize (Hstopped j Hlt). unfold state_of in Hstopped.
    rewrite Hj in Hstopped. cbn in Hstopped. congruence.
  - rewrite (Hrest j Hge) in Hj.
    apply nth_error_None in Hge. congruence.
Qed.

Lemma cancelled_workers_can_all_stop_witness :
  exists schedule s',
    server.run (worker_moves schedule) cancelled_system = Some s'
    /\ Forall (fun m => snd m = workers.Stopped) (server.workers_pool s')
    /\ List.length schedule <= 3 * 2
    /\ channel.buf (ClickEventsChannel (server.world s'))
       = [sample_event 1 "aaaaaa" 1700000001].
Proof.
  destruct (cancelled_workers_can_all_stop cancelled_system eq_refl)
    as [schedule [s' [Hrun [Hall [Hlen Hch]]]]].
  exists schedule, s'. split; [exact Hrun|]. split; [exact Hall|].
  split; [exact Hlen|]. rewrite Hch. reflexivity.
Defined.

(** ** The link repository on its own *)

Lemma existsb_find_none {A : Type} (f : A -> bool) (l : list A) :
  existsb f l = false -> find f l = None.
Proof.
  induction l as [|a l IH]; cbn; [reflexivity|].
  destruct (f a); cbn; [discriminate | exact IH].
Qed.

Lemma next_rowid_positive (ids : list N) : gorm.next_rowid ids <> 0%N.
Proof. unfold gorm.next_rowid. lia. Qed.

Lemma repository_CreateLink_undisturbed (l : models.Link) (d : gorm.DB) :
  gorm.env d = [] ->
  repository.CreateLink l d =
    if existsb (gorm.has_short_code (models.ShortCode l)) (gorm.links d)
    then ((l, Some (fmt.Errorf "erreur lors de la création du lien : "
                      gorm.unique_violation)),
          journalled [gorm.INSERT_links l] d)
    else
      let l' := {| models.ID := gorm.next_rowid (map models.ID (gorm.links d));
                   models.ShortCode := models.ShortCode l;
                   models.LongURL := models.LongURL l;
                   models.CreatedAt := models.CreatedAt l |} in
      ((l', None),
       {| gorm.links := gorm.links d ++ [l']; gorm.clicks := gorm.clicks d;
          gorm.env := []; gorm.journal := gorm.journal d ++ [gorm.INSERT_links l] |}).
Proof.
  intros Henv.
  unfold repository.CreateLink, gorm.Create_Link, bind, ret.
  unfold gorm.arrive. rewrite Henv. cbn [hd tl fst snd gorm.links].
  unfold gorm.insert_link, journalled.
  destruct (existsb (gorm.has_short_code (models.ShortCode l)) (gorm.links d));
    cbn; rewrite ?Henv; reflexivity.
Qed.

(** X11. On a database that nothing disturbs, GormLinkRepository behaves
    as its interface documents.  CreateLink of a short code that is taken
    returns the UNIQUE-constraint error wrapped and leaves the table as it
    was.  CreateLink of a free short code appends one row whose ID is not
    zero and differs from every ID in the table, returns the link with
    that ID filled in, and GetLinkByShortCode then returns that link.
    GetLinkByShortCode of a code that has no row returns an error in which
    errors.Is finds gorm.ErrRecordNotFound. *)
Theorem GormLinkRepository_contract :
  forall (d : gorm.DB) (l : models.Link),
    gorm.env d = [] ->
    let created := repository.CreateLink l d in
    (if existsb (gorm.has_short_code (models.ShortCode l)) (gorm.links d)
     then
       fst created
       = (l, Some (fmt.Errorf "erreur lors de la création du lien : "
                     gorm.unique_violation))
       /\ gorm.links (snd created) = gorm.links d
     else
       exists l',
         fst created = (l', None)
         /\ gorm.links (snd created) = gorm.links d ++ [l']
         /\ models.ShortCode l' = models.ShortCode l
         /\ models.LongURL l' = models.LongURL l
         /\ models.ID l' <> 0%N
         /\ ~ In (models.ID l') (map models.ID (gorm.links d))
         /\ fst (repository.GetLinkByShortCode (models.ShortCode l) (snd created))
            = Ok l'
         /\ exists e,
              fst (repository.GetLinkByShortCode (models.ShortCode l) d) = Err e
              /\ errors.Is e ErrRecordNotFound = true).
Proof.
  intros d l Henv. cbn zeta. rewrite (repository_CreateLink_undisturbed l d Henv).
  destruct (existsb (gorm.has_short_code (models.ShortCode l)) (gorm.links d))
    eqn:Hex; cbn zeta; cbn [fst snd gorm.links journalled].
  - split; reflexivity.
  - eexists. split; [reflexivity|].
    split; [reflexivity|]. split; [reflexivity|]. split; [reflexivity|].
    cbn [models.ID models.ShortCode].
    split; [apply next_rowid_positive|].
    split.
    { intros Hin. apply next_rowid_above in Hin. lia. }
    split.
    + rewrite GetLinkByShortCode_unfold. cbn zeta. unfold gorm.arrive.
      cbn [hd tl fst snd gorm.links gorm.env].
      rewrite (find_after_misses _ _ [] _ Hex); [reflexivity|].
      apply String.eqb_refl.
    + rewrite GetLinkByShortCode_unfold. cbn zeta. unfold gorm.arrive.
      rewrite Henv. cbn [hd tl fst snd gorm.links].
      rewrite (existsb_find_none _ _ Hex).
      eexists. split; reflexivity.
Qed.

Lemma GormLinkRepository_contract_witness :
  (fst (repository.CreateLink (new_link "aaaaaa" "https://example.org/a" 5) sample_db)
   = (new_link "aaaaaa" "https://example.org/a" 5,
      Some (fmt.Errorf "erreur lors de la création du lien : " gorm.unique_violation))
   /\ gorm.links (snd (repository.CreateLink
                         (new_link "aaaaaa" "https://example.org/a" 5) sample_db))
      = gorm.links sample_db)
  /\ fst (repository.CreateLink (new_link "bcdefg" "https://example.org/a" 5) sample_db)
     = (sample_link_at 3 "bcdefg" "https://example.org/a" 5, None).
Proof.
  split.
  - exact (GormLinkRepository_contract sample_db
             (new_link "aaaaaa" "https://example.org/a" 5) eq_refl).
  - destruct (GormLinkRepository_contract sample_db
                (new_link "bcdefg" "https://example.org/a" 5) eq_refl)
      as [l' [Hcreated _]].
    rewrite Hcreated. vm_compute in Hcreated. inversion Hcreated. reflexivity.
Defined.

(** ** Which candidate CreateLink takes *)

Lemma store_skipn (i j : nat) (c : ascii) (bytes : list ascii) :
  i < j -> skipn j (services.store i c bytes) = skipn j bytes.
Proof.
  revert i j. induction bytes as [|b rest IH]; intros [|i] [|j] Hlt; cbn; try lia;
    try reflexivity.
  apply IH. lia.
Qed.

(** The generation loop writes the characters its draws spell from
    position [i] on. *)
Lemma GenerateShortCode_loop_content (n : nat) :
  forall (i : nat) (bytes : list ascii) (w : World),
    n <= List.length (rand_Reader w) ->
    i + n <= List.length bytes ->
    services.GenerateShortCode_loop n i bytes w
    = (Ok (firstn i bytes ++ map drawn (firstn n (rand_Reader w))
             ++ skipn (i + n) bytes),
       set_rand_Reader (skipn n (rand_Reader w)) w).
Proof.
  induction n as [|n IH]; intros i bytes w Hn Hlen.
  - cbn [services.GenerateShortCode_loop firstn map app skipn].
    rewrite Nat.add_0_r, firstn_skipn, set_rand_Reader_same. reflexivity.
  - cbn [services.GenerateShortCode_loop]. unfold bind, rand.Int.
    destruct (rand_Reader w) as [|v rest] eqn:Hr; [cbn in Hn; lia|].
    rewrite IH.
    + rewrite store_firstn by lia. rewrite store_skipn by lia.
      cbn [rand_Reader set_rand_Reader].
      change (firstn (S n) (v :: rest)) with (v :: firstn n rest).
      change (skipn (S n) (v :: rest)) with (skipn n rest).
      cbn [map]. rewrite <- app_assoc. cbn [app].
      replace (S i + n) with (i + S n) by lia.
      destruct w; reflexivity.
    + cbn in *. lia.
    + rewrite store_length. lia.
Qed.

Lemma GenerateShortCode_candidate (w : World) :
  6 <= List.length (rand_Reader w) ->
  services.GenerateShortCode 6 w
  = (Ok (candidate (rand_Reader w)),
     set_rand_Reader (skipn 6 (rand_Reader w)) w).
Proof.
  intros Hn. unfold services.GenerateShortCode, bind.
  rewrite GenerateShortCode_loop_content by (rewrite ?repeat_length; lia).
  cbn [firstn app Nat.add]. rewrite skipn_all2 by (rewrite repeat_length; lia).
  rewrite app_nil_r. reflexivity.
Qed.

Lemma find_some_existsb {A : Type} (f : A -> bool) (l : list A) (x : A) :
  find f l = Some x -> existsb f l = true.
Proof.
  intros H. apply find_some in H. apply existsb_exists. exists x. exact H.
Qed.

Lemma find_none_existsb {A : Type} (f : A -> bool) (l : list A) :
  find f l = None -> existsb f l = false.
Proof.
  induction l as [|a l IH]; cbn; [reflexivity|].
  destruct (f a); cbn; [discriminate | exact IH].
Qed.

Lemma up_to_free_none (rows : list models.Link) (codes : list string) :
  find (free_code rows) codes = None -> up_to_free rows codes = codes.
Proof.
  induction codes as [|c rest IH]; [reflexivity|].
  cbn [find up_to_free]. destruct (free_code rows c); [discriminate|].
  intros Hfind. rewrite (IH Hfind). reflexivity.
Qed.

(** On an undisturbed database and with draws for every attempt, the retry
    loop ends with the first candidate that no row has, or with the empty
    code when the [n] candidates are all taken; it has looked up the
    candidates up to that one. *)
Lemma CreateLink_loop_calm (n : nat) :
  forall (i : Z) (w : World),
    gorm.env (db w) = [] ->
    6 * n <= List.length (rand_Reader w) ->
    exists w',
      services.CreateLink_loop n i w
      = (Ok match find (free_code (gorm.links (db w))) (candidates n (rand_Reader w)) with
            | Some code => code
            | None => ""
            end, w')
      /\ gorm.links (db w') = gorm.links (db w)
      /\ gorm.env (db w') = []
      /\ clock w' = clock w
      /\ gorm.journal (db w')
         = gorm.journal (db w)
             ++ map gorm.SELECT_links
                  (up_to_free (gorm.links (db w)) (candidates n (rand_Reader w)))
      /\ forall code,
           find (free_code (gorm.links (db w))) (candidates n (rand_Reader w))
           = Some code ->
           String.length code = 6.
Proof.
  induction n as [|n IH]; intros i w Henv Hdraws.
  - exists w. cbn. rewrite app_nil_r. repeat split; auto. discriminate.
  - rewrite CreateLink_loop_step.
    assert (Hgen := GenerateShortCode_candidate w ltac:(lia)).
    rewrite Hgen.
    assert (Hsix : String.length (candidate (rand_Reader w)) = 6).
    { apply GenerateShortCode_ok in Hgen. tauto. }
    set (c := candidate (rand_Reader w)) in *.
    rewrite GetLinkByShortCode_unfold. cbn zeta.
    cbn [db set_rand_Reader]. unfold gorm.arrive at 1 2. rewrite Henv.
    cbn [hd tl snd gorm.links gorm.env].
    cbn [candidates find up_to_free]. fold c.
    destruct (find (gorm.has_short_code c) (gorm.links (db w))) as [l|] eqn:Hfind.
    + assert (Hfree : free_code (gorm.links (db w)) c = false)
        by (unfold free_code; rewrite (find_some_existsb _ _ _ Hfind); reflexivity).
      rewrite !Hfree.
      specialize (IH (i + 1)%Z
                    (set_log_output
                       (log_output (set_rand_Reader (skipn 6 (rand_Reader w)) w)
                          ++ [retry_line c i])
                       (set_db (snd (gorm.arrive (gorm.SELECT_links c) (db w)))
                          (set_rand_Reader (skipn 6 (rand_Reader w)) w)))).
      cbn [db set_db set_log_output set_rand_Reader rand_Reader clock] in IH.
      unfold gorm.arrive in IH. rewrite Henv in IH.
      cbn [hd tl snd gorm.links gorm.env gorm.journal] in IH.
      destruct IH as [w' [Hrun [Hl [He [Hc [Hj Hlen]]]]]];
        [reflexivity | rewrite length_skipn; lia|].
      exists w'. split.
      { rewrite <- Hrun. unfold gorm.arrive. rewrite Henv. reflexivity. }
      split; [exact Hl|]. split; [exact He|]. split; [exact Hc|].
      split; [|exact Hlen].
      rewrite Hj, <- app_assoc. reflexivity.
    + assert (Hfree : free_code (gorm.links (db w)) c = true)
        by (unfold free_code; rewrite (find_none_existsb _ _ Hfind); reflexivity).
      rewrite !Hfree.
      rewrite Is_Errorf_not_found. cbn [errors.Is errors.eqb].
      eexists. split; [reflexivity|]. cbn [db set_db clock].
      unfold gorm.arrive. rewrite Henv.
      cbn [hd tl snd gorm.links gorm.env gorm.journal].
      split; [reflexivity|]. split; [reflexivity|]. split; [reflexivity|].
      split; [reflexivity|].
      intros code Hcode. inversion Hcode; subst. exact Hsix.
Qed.

(** X9. On an undisturbed database and with thirty draws at hand,
    CreateLink takes the first of its five candidates that no row of the
    links table has: it looks up the candidates up to that one, issues one
    INSERT, for that code, and the link it returns and appends to the table
    carries the code, the requested long URL, the time of the call and the
    next row id.  When the five candidates are all taken it has looked the
    five up, issues no INSERT, returns the exhaustion error and leaves the
    table as it was.  The pre-check thus keeps the INSERT off the codes that
    are taken. *)
Theorem CreateLink_takes_first_free_candidate :
  forall (longURL : string) (w : World),
    gorm.env (db w) = [] ->
    30 <= List.length (rand_Reader w) ->
    let rows := gorm.links (db w) in
    let codes := candidates 5 (rand_Reader w) in
    let after := services.CreateLink longURL w in
    match find (free_code rows) codes with
    | Some code =>
        let link := {| models.ID := gorm.next_rowid (map models.ID rows);
                       models.ShortCode := code;
                       models.LongURL := longURL;
                       models.CreatedAt := clock w |} in
        fst after = Ok link
        /\ gorm.links (db (snd after)) = rows ++ [link]
        /\ gorm.journal (db (snd after))
           = gorm.journal (db w)
               ++ map gorm.SELECT_links (up_to_free rows codes)
               ++ [gorm.INSERT_links (new_link code longURL (clock w))]
    | None =>
        fst after = Err (errors.New exhausted_message)
        /\ gorm.links (db (snd after)) = rows
        /\ gorm.journal (db (snd after))
           = gorm.journal (db w) ++ map gorm.SELECT_links codes
    end.
Proof.
  intros longURL w Henv Hdraws. cbn zeta.
  unfold services.CreateLink, services.CreateLink_from, bind.
  destruct (CreateLink_loop_calm (Z.to_nat services.maxRetries) 0 w Henv)
    as [w' [Hloop [Hlinks [Henv' [Hclock [Hj Hsix]]]]]]; [vm_compute; exact Hdraws|].
  rewrite Hloop. change (Z.to_nat services.maxRetries) with 5 in Hsix, Hj.
  change (Z.to_nat services.maxRetries) with 5.
  destruct (find (free_code (gorm.links (db w))) (candidates 5 (rand_Reader w)))
    as [code|] eqn:Hfind.
  - unfold services.CreateLink_persist.
    rewrite (length_6_not_empty _ (Hsix code eq_refl)).
    unfold bind, time.Now, gets, on_db, zoom.
    rewrite (repository_CreateLink_undisturbed _ _ Henv').
    cbn [models.ShortCode models.LongURL models.CreatedAt].
    apply find_some in Hfind. destruct Hfind as [_ Hfree].
    unfold free_code in Hfree. apply negb_true_iff in Hfree.
    rewrite Hlinks, Hfree, Hclock. cbn [fst snd db set_db gorm.links gorm.journal].
    split; [reflexivity|]. split; [reflexivity|].
    rewrite Hj, <- app_assoc. reflexivity.
  - cbn -[candidates up_to_free]. split; [reflexivity|]. split; [exact Hlinks|].
    rewrite Hj, (up_to_free_none _ _ Hfind). reflexivity.
Qed.

Lemma CreateLink_takes_first_free_candidate_witness :
  find (free_code (gorm.links (db calm_world))) (candidates 5 (rand_Reader calm_world))
  = Some "bcdefg"
  /\ fst (services.CreateLink "https://example.org/a" calm_world)
     = Ok (sample_link_at 3 "bcdefg" "https://example.org/a" 1700000000)
  /\ gorm.links (db (snd (services.CreateLink "https://example.org/a" calm_world)))
     = gorm.links sample_db
       ++ [sample_link_at 3 "bcdefg" "https://example.org/a" 1700000000]
  /\ gorm.journal (db (snd (services.CreateLink "https://example.org/a" calm_world)))
     = [] ++ map gorm.SELECT_links
               (up_to_free (gorm.links sample_db)
                  (candidates 5 (rand_Reader calm_world)))
          ++ [gorm.INSERT_links
                (new_link "bcdefg" "https://example.org/a" 1700000000)].
Proof.
  assert (Henv : gorm.env (db calm_world) = []) by reflexivity.
  assert (Hdraws : 30 <= List.length (rand_Reader calm_world)) by (vm_compute; lia).
  assert (Hfind : find (free_code (gorm.links (db calm_world)))
                    (candidates 5 (rand_Reader calm_world))
                  = Some "bcdefg") by (vm_compute; reflexivity).
  pose proof (CreateLink_takes_first_free_candidate "https://example.org/a"
                calm_world Henv Hdraws) as Hthm.
  cbv zeta in Hthm. rewrite Hfind in Hthm.
  split; [exact Hfind | exact Hthm].
Defined.

(** ** More events than the queue holds *)

Lemma pipeline_start_overflow (BufferSize WorkerCount IntervalMinutes Port : Z)
  (calls : list (api.ClickEvent * string)) (w : World) (start : server.System) :
  (1 <= WorkerCount)%Z ->
  never_fails (gorm.env (db w)) ->
  pipeline_start BufferSize WorkerCount IntervalMinutes Port calls w = Some start ->
  let kept := firstn (Z.to_nat BufferSize) (map fst calls) in
  draining (gorm.clicks (db w)) (map workers.click_of kept) start
  /\ channel.buf (ClickEventsChannel (server.world start)) = kept
  /\ log_output (server.world start)
     = log_output w
         ++ startup_lines BufferSize WorkerCount IntervalMinutes Port
         ++ map dropped_warning (skipn (Z.to_nat BufferSize) (map snd calls)).
Proof.
  intros HN Hcalm Hstart. cbn zeta. rewrite pipeline_start_unfold in Hstart.
  destruct (BufferSize <? 0)%Z; [discriminate|].
  injection Hstart as Hstart. subst start.
  unfold workers.StartClickWorkers.
  cbn [server.world server.workers_pool app].
  set (w0 := started_world BufferSize WorkerCount IntervalMinutes Port w).
  assert (Hopen : channel.closed (ClickEventsChannel w0) = false) by reflexivity.
  pose proof (tryEnqueue_all_from calls w0 Hopen) as Hq. cbn zeta in Hq.
  rewrite Hq. cbn [snd]. clear Hq.
  replace (channel.cap (ClickEventsChannel w0)
           - List.length (channel.buf (ClickEventsChannel w0)))
    with (Z.to_nat BufferSize) by (cbn; lia).
  destruct (Spawned_pool (Z.to_nat WorkerCount) 0) as [Hin [Hsum Hrun]].
  cbn zeta in Hin, Hsum, Hrun.
  split; [|split; [reflexivity|]].
  - unfold draining. cbn [server.world server.workers_pool].
    rewrite Hin. cbn -[startup_lines].
    split; [reflexivity|]. split; [reflexivity|]. split; [exact Hcalm|].
    split; [exact Hrun|]. split.
    + destruct (Z.to_nat WorkerCount) as [|n] eqn:Hn; [lia | discriminate].
    + exists []. rewrite app_nil_r. split; [reflexivity|]. split; [constructor|].
      apply Permutation_refl.
  - cbn [log_output set_log_output set_ClickEventsChannel]. subst w0.
    unfold started_world. cbn [log_output set_log_output].
    rewrite <- app_assoc. reflexivity.
Qed.

(** X12. RunServerCmd makes the channel and starts [N >= 1] workers (it
    panics at [make] exactly when the configured buffer size is negative),
    and events are enqueued before any worker has run, possibly more than
    the queue holds.  Then the queue holds the first [capacity] events, and
    the log holds the lines of the start followed by one warning for each
    event beyond the capacity.  The workers can come to rest, and whenever
    they are at rest the clicks table has gained exactly the clicks of the
    first [capacity] events, one row each. *)
Theorem overflow_persists_first_capacity_events :
  forall (BufferSize WorkerCount IntervalMinutes Port : Z)
         (calls : list (api.ClickEvent * string)) (w : World),
    (1 <= WorkerCount)%Z ->
    never_fails (gorm.env (db w)) ->
    match pipeline_start BufferSize WorkerCount IntervalMinutes Port calls w with
    | None => (BufferSize < 0)%Z
    | Some start =>
        let capacity := Z.to_nat BufferSize in
        (0 <= BufferSize)%Z
        /\ channel.buf (ClickEventsChannel (server.world start))
           = firstn capacity (map fst calls)
        /\ log_output (server.world start)
           = log_output w
               ++ startup_lines BufferSize WorkerCount IntervalMinutes Port
               ++ map dropped_warning (skipn capacity (map snd calls))
        /\ (exists schedule s',
               server.run (worker_moves schedule) start = Some s' /\ quiescent s')
        /\ forall (schedule : list (nat * workers.select_case)) (s' : server.System),
             server.run (worker_moves schedule) start = Some s' ->
             quiescent s' ->
             exists added,
               gorm.clicks (db (server.world s')) = gorm.clicks (db w) ++ added
               /\ List.length added = Nat.min capacity (List.length calls)
               /\ Permutation (map unset_ClickID added)
                    (map workers.click_of (firstn capacity (map fst calls)))
               /\ NoDup (map models.ClickID added)
    end.
Proof.
  intros BufferSize WorkerCount IntervalMinutes Port calls w HN Hcalm.
  destruct (pipeline_start BufferSize WorkerCount IntervalMinutes Port calls w)
    as [start|] eqn:Hstart;
    [|apply (pipeline_start_panics _ WorkerCount IntervalMinutes Port calls w);
      exact Hstart].
  intros capacity.
  destruct (pipeline_start_overflow _ _ _ _ _ _ _ HN Hcalm Hstart)
    as [Hinv [Hbuf0 Hlog]].
  fold capacity in Hinv, Hbuf0, Hlog.
  split.
  { destruct (Z.lt_ge_cases BufferSize 0) as [Hneg|Hpos]; [|exact Hpos].
    apply (pipeline_start_panics _ WorkerCount IntervalMinutes Port calls w) in Hneg.
    congruence. }
  split; [exact Hbuf0|]. split; [exact Hlog|]. split.
  { apply (draining_comes_to_rest _ _ (work_left start) start Hinv eq_refl). }
  intros schedule s' Hrun Hq.
  destruct (draining_run _ _ _ _ _ Hinv Hrun) as [Hinv' _].
  apply (draining_at_rest _ _ _ Hinv') in Hq.
  destruct Hinv' as [_ [_ [_ [Hrun' [_ [added [Hclicks [Hids Hperm]]]]]]]].
  unfold work_left in Hq.
  assert (Hbuf : channel.buf (ClickEventsChannel (server.world s')) = []).
  { destruct (channel.buf (ClickEventsChannel (server.world s')));
      [reflexivity | cbn [List.length] in Hq; lia]. }
  assert (Hall : Forall (fun m => snd m = workers.Selecting) (server.workers_pool s')).
  { apply weights_zero; [exact Hrun' | lia]. }
  assert (Hin : inflight (server.workers_pool s') = []).
  { clear - Hall. induction Hall as [|[id g] p Hg _ IH]; [reflexivity|].
    cbn [snd] in Hg. subst g. exact IH. }
  rewrite Hbuf, Hin in Hperm. cbn [map] in Hperm. rewrite !app_nil_r in Hperm.
  exists added. split; [exact Hclicks|]. split; [|split; [exact Hperm | exact Hids]].
  apply Permutation_length in Hperm. rewrite !length_map in Hperm.
  rewrite Hperm, length_firstn, length_map. reflexivity.
Qed.

Lemma overflow_persists_first_capacity_events_witness :
  pipeline_start 2 1 5 8080 overflow_calls (sample_world sample_db [])
  = Some overflow_pipeline
  /\ log_output (server.world overflow_pipeline)
     = startup_lines 2 1 5 8080 ++ [dropped_warning "aaaaaa"; dropped_warning "Zx91Qp"]
  /\ server.run (worker_moves single_schedule) overflow_pipeline
     = Some overflow_pipeline_end
  /\ quiescent overflow_pipeline_end
  /\ exists added,
       gorm.clicks (db (server.world overflow_pipeline_end))
       = gorm.clicks sample_db ++ added
       /\ List.length added = 2
       /\ Permutation (map unset_ClickID added)
            [workers.click_of (sample_event 1 "aaaaaa" 1700000001);
             workers.click_of (sample_event 2 "Zx91Qp" 1700000002)]
       /\ NoDup (map models.ClickID added).
Proof.
  assert (HN : (1 <= 1)%Z) by lia.
  assert (Hcalm : never_fails (gorm.env (db (sample_world sample_db []))))
    by (intros e []).
  assert (Hstart : pipeline_start 2 1 5 8080 overflow_calls (sample_world sample_db [])
                   = Some overflow_pipeline) by (vm_compute; reflexivity).
  assert (Hrun : server.run (worker_moves single_schedule) overflow_pipeline
                 = Some overflow_pipeline_end) by (vm_compute; reflexivity).
  assert (Hq : quiescent overflow_pipeline_end).
  { intros i choice. destruct i as [|i]; [destruct choice; reflexivity|].
    cbn. destruct i; reflexivity. }
  pose proof (overflow_persists_first_capacity_events 2 1 5 8080 overflow_calls
                (sample_world sample_db []) HN Hcalm) as Hthm.
  rewrite Hstart in Hthm. cbv beta iota zeta in Hthm.
  destruct Hthm as [_ [_ [Hlog [_ Hall]]]].
  split; [exact Hstart|]. split; [exact Hlog|]. split; [exact Hrun|].
  split; [exact Hq|]. exact (Hall single_schedule overflow_pipeline_end Hrun Hq).
Defined.

(** ** A click store that fails *)

(** The move after a receive calls CreateClick once; the table gains the
    click, or nothing when the call fails. *)
Lemma clickWorker_step_Persisting_attempt (id : Z) (choice : workers.select_case)
  (ev : api.ClickEvent) (w : World) :
  exists w' added,
    workers.clickWorker_step id choice (workers.Persisting ev) w
    = Some (workers.Sleeping, w')
    /\ gorm.journal (db w')
       = gorm.journal (db w) ++ [gorm.INSERT_clicks (workers.click_of ev)]
    /\ gorm.clicks (db w') = gorm.clicks (db w) ++ added
    /\ (added = [] \/ exists c, added = [c] /\ unset_ClickID c = workers.click_of ev)
    /\ ctx_done w' = ctx_done w
    /\ ClickEventsChannel w' = ClickEventsChannel w.
Proof.
  cbn [workers.clickWorker_step]. unfold bind at 1. unfold on_db, zoom.
  unfold repository.CreateClick, gorm.Create_Click, bind at 1 2.
  unfold gorm.arrive.
  destruct (hd gorm.Quiet (gorm.env (db w))) as [|e|c u].
  - eexists.
    exists [fst (gorm.insert_click (workers.click_of ev) (gorm.clicks (db w)))].
    split; [reflexivity|]. cbn.
    split; [reflexivity|]. split; [reflexivity|].
    split; [right; eexists; split; reflexivity|]. split; reflexivity.
  - eexists. exists []. split; [reflexivity|]. cbn. rewrite app_nil_r.
    split; [reflexivity|]. split; [reflexivity|].
    split; [left; reflexivity|]. split; reflexivity.
  - eexists.
    exists [fst (gorm.insert_click (workers.click_of ev) (gorm.clicks (db w)))].
    split; [reflexivity|]. cbn.
    split; [reflexivity|]. split; [reflexivity|].
    split; [right; eexists; split; reflexivity|]. split; reflexivity.
Qed.

Lemma attempting_step (journal0 : list gorm.stmt)
  (clicks0 expected : list models.Click)
  (i : nat) (choice : workers.select_case) (s s' : server.System) :
  attempting journal0 clicks0 expected s ->
  server.step (server.Worker i choice) s = Some s' ->
  attempting journal0 clicks0 expected s' /\ work_left s = S (work_left s').
Proof.
  intros [Hctx [Hopen [Hrun [Hne [attempted [added [Hj [Hclicks [Hincl [Hle Hperm]]]]]]]]]]
    Hstep.
  apply step_Worker_inv in Hstep.
  destruct Hstep as [id [g [g' [Hat [Hmove Hpool]]]]].
  destruct s' as [w' pool']. cbn [server.world server.workers_pool] in *.
  destruct (nth_error_replace_split i (id, g) (id, g') _ Hat) as [p1 [p2 [Hp Hp']]].
  rewrite Hp' in Hpool.
  assert (Hne' : forall g0, p1 ++ (id, g0) :: p2 <> []).
  { intros g0. destruct p1; discriminate. }
  assert (Hrun12 : Forall (fun m => snd m <> workers.Stopped) p1
                   /\ Forall (fun m => snd m <> workers.Stopped) p2).
  { rewrite Hp in Hrun. apply Forall_app in Hrun. destruct Hrun as [H1 H2].
    inversion H2; subst. auto. }
  destruct Hrun12 as [Hrun1 Hrun2].
  assert (Hrun' : forall g0, g0 <> workers.Stopped ->
            Forall (fun m => snd m <> workers.Stopped) (p1 ++ (id, g0) :: p2)).
  { intros g0 Hg0. apply Forall_app. split; [exact Hrun1|].
    constructor; [exact Hg0 | exact Hrun2]. }
  unfold attempting, work_left. cbn [server.world server.workers_pool].
  rewrite Hpool. rewrite Hp in Hperm. rewrite Hp.
  rewrite !inflight_app in *. rewrite !weights_app.
  change (inflight ((id, g') :: p2)) with
    (match g' with workers.Persisting ev => [ev] | _ => [] end ++ inflight p2).
  change (inflight ((id, g) :: p2)) with
    (match g with workers.Persisting ev => [ev] | _ => [] end ++ inflight p2) in Hperm.
  cbn [map snd]. rewrite !list_sum_cons.
  destruct g as [| |ev| |].
  - cbn in Hmove. inversion Hmove; subst g' w'. cbn -[Nat.mul].
    split; [|lia].
    split; [exact Hctx|]. split; [exact Hopen|].
    split; [apply Hrun'; discriminate|]. split; [apply Hne'|].
    exists attempted, added. auto.
  - cbn in Hmove. destruct choice.
    + rewrite Hctx in Hmove. discriminate.
    + unfold channel.receive in Hmove.
      destruct (channel.buf (ClickEventsChannel (server.world s))) as [|ev q] eqn:Hbuf.
      * rewrite Hopen in Hmove. discriminate.
      * inversion Hmove; subst g' w'. cbn -[Nat.mul].
        split; [|cbn [List.length]; lia].
        split; [exact Hctx|]. split; [exact Hopen|].
        split; [apply Hrun'; discriminate|]. split; [apply Hne'|].
        exists attempted, added. split; [exact Hj|]. split; [exact Hclicks|].
        split; [exact Hincl|]. split; [exact Hle|].
        etransitivity; [|exact Hperm]. apply Permutation_app_head.
        cbn [app]. rewrite !map_app. cbn [map]. rewrite <- !app_assoc.
        apply Permutation_app_head. cbn [app]. apply Permutation_middle.
  - destruct (clickWorker_step_Persisting_attempt id choice ev (server.world s))
      as [w'0 [added1 [Hmove' [Hj1 [Hc1 [Hadded1 [Hd1 Hch1]]]]]]].
    rewrite Hmove' in Hmove. inversion Hmove; subst g' w'0.
    rewrite Hch1. cbn [weight].
    split; [|lia].
    split; [congruence|]. split; [exact Hopen|].
    split; [apply Hrun'; discriminate|]. split; [apply Hne'|].
    exists (attempted ++ [workers.click_of ev]), (added ++ added1).
    split; [rewrite Hj1, Hj, map_app, <- app_assoc; reflexivity|].
    split; [rewrite Hc1, Hclicks, <- app_assoc; reflexivity|].
    split.
    { rewrite map_app. apply incl_app.
      - apply incl_appl. exact Hincl.
      - apply incl_appr. destruct Hadded1 as [->|[c [-> Hunset]]].
        + intros x [].
        + cbn [map]. rewrite Hunset. apply incl_refl. }
    split.
    { rewrite !length_app. cbn [List.length].
      destruct Hadded1 as [->|[c [-> _]]]; cbn [List.length]; lia. }
    etransitivity; [|exact Hperm]. rewrite <- !app_assoc.
    apply Permutation_app_head. rewrite !map_app. cbn [map app].
    rewrite <- !app_assoc. apply Permutation_middle.
  - cbn in Hmove. inversion Hmove; subst g' w'. cbn -[Nat.mul].
    split; [|lia].
    split; [exact Hctx|]. split; [exact Hopen|].
    split; [apply Hrun'; discriminate|]. split; [apply Hne'|].
    exists attempted, added. auto.
  - cbn in Hmove. discriminate.
Qed.

Lemma attempting_run (journal0 : list gorm.stmt) (clicks0 expected : list models.Click)
  (schedule : list (nat * workers.select_case)) :
  forall (s s' : server.System),
    attempting journal0 clicks0 expected s ->
    server.run (worker_moves schedule) s = Some s' ->
    attempting journal0 clicks0 expected s'
    /\ work_left s = List.length schedule + work_left s'.
Proof.
  induction schedule as [|[i choice] rest IH]; intros s s' Hinv Hrun.
  - inversion Hrun; subst. auto.
  - cbn [worker_moves map server.run fst snd] in Hrun.
    destruct (server.step (server.Worker i choice) s) as [s1|] eqn:Hstep;
      [|discriminate].
    destruct (attempting_step _ _ _ _ _ _ _ Hinv Hstep) as [Hinv1 Hless].
    destruct (IH _ _ Hinv1 Hrun) as [Hinv' Hsum].
    split; [exact Hinv'|]. cbn [List.length]. lia.
Qed.

Lemma Selecting_pool_weight (p : workers.pool) :
  Forall (fun m => snd m = workers.Selecting) p ->
  list_sum (map (fun m => weight (snd m)) p) = 0 /\ inflight p = [].
Proof.
  induction 1 as [|[id g] p Hg _ [IHw IHi]]; [split; reflexivity|].
  cbn [snd] in Hg. subst g. cbn [map snd]. rewrite list_sum_cons.
  split; [exact IHw | exact IHi].
Qed.

Lemma attempting_at_rest (journal0 : list gorm.stmt)
  (clicks0 expected : list models.Click) (s : server.System) :
  attempting journal0 clicks0 expected s ->
  (quiescent s <-> work_left s = 0).
Proof.
  intros [Hctx [Hopen [Hrun [Hne _]]]]. split.
  - intros Hq. unfold work_left.
    destruct (owing_or_selecting _ Hrun) as [[i [id [g [Hat Hw]]]]|Hall].
    + exfalso. specialize (Hq i workers.case_Receive).
      rewrite (step_Worker_at _ _ _ _ _ Hat) in Hq.
      destruct g as [| |ev| |]; cbn [weight] in Hw; try lia.
      * cbn in Hq. discriminate.
      * destruct (clickWorker_step_Persisting_frame id workers.case_Receive ev
                    (server.world s)) as [w' [Hmove _]].
        rewrite Hmove in Hq. discriminate.
      * cbn in Hq. discriminate.
    + destruct (Selecting_pool_weight _ Hall) as [Hsum _]. rewrite Hsum.
      destruct (server.workers_pool s) as [|[id g] p] eqn:Hp; [congruence|].
      inversion Hall as [|m p' Hg Hrest]; subst. cbn [snd] in Hg. subst g.
      specialize (Hq 0 workers.case_Receive).
      rewrite (step_Worker_at 0 _ s id workers.Selecting) in Hq
        by (rewrite Hp; reflexivity).
      cbn [workers.clickWorker_step] in Hq. unfold channel.receive in Hq.
      destruct (channel.buf (ClickEventsChannel (server.world s))) as [|ev q];
        [reflexivity | discriminate].
  - intros Hz i choice. unfold work_left in Hz.
    assert (Hbuf : channel.buf (ClickEventsChannel (server.world s)) = []).
    { destruct (channel.buf (ClickEventsChannel (server.world s)));
        [reflexivity | cbn [List.length] in Hz; lia]. }
    assert (Hall : Forall (fun m => snd m = workers.Selecting) (server.workers_pool s)).
    { apply weights_zero; [exact Hrun | lia]. }
    destruct (nth_error (server.workers_pool s) i) as [[id g]|] eqn:Hat.
    + rewrite (step_Worker_at _ _ _ _ _ Hat).
      apply nth_error_In in Hat. rewrite Forall_forall in Hall.
      specialize (Hall _ Hat). cbn [snd] in Hall. subst g.
      cbn [workers.clickWorker_step]. destruct choice.
      * rewrite Hctx. reflexivity.
      * unfold channel.receive. rewrite Hbuf, Hopen. reflexivity.
    + cbn [server.step]. rewrite Hat. reflexivity.
Qed.

Lemma attempting_progress (journal0 : list gorm.stmt)
  (clicks0 expected : list models.Click) (s : server.System) :
  attempting journal0 clicks0 expected s ->
  0 < work_left s ->
  exists i choice s', server.step (server.Worker i choice) s = Some s'.
Proof.
  intros Hinv Hpos.
  destruct Hinv as [Hctx [Hopen [Hrun [Hne Hacc]]]].
  destruct (owing_or_selecting _ Hrun) as [[i [id [g [Hat Hw]]]]|Hall].
  - exists i, workers.case_Receive. rewrite (step_Worker_at _ _ _ _ _ Hat).
    destruct g as [| |ev| |]; cbn [weight] in Hw; try lia.
    + eexists. reflexivity.
    + destruct (clickWorker_step_Persisting_frame id workers.case_Receive ev
                  (server.world s)) as [w' [Hmove _]].
      rewrite Hmove. eexists. reflexivity.
    + eexists. reflexivity.
  - destruct (Selecting_pool_weight _ Hall) as [Hsum _].
    unfold work_left in Hpos. rewrite Hsum in Hpos.
    destruct (server.workers_pool s) as [|[id g] p] eqn:Hp; [congruence|].
    inversion Hall as [|m p' Hg Hrest]; subst. cbn [snd] in Hg. subst g.
    exists 0, workers.case_Receive.
    rewrite (step_Worker_at 0 _ s id workers.Selecting) by (rewrite Hp; reflexivity).
    cbn [workers.clickWorker_step]. unfold channel.receive.
    destruct (channel.buf (ClickEventsChannel (server.world s))) as [|ev q];
      [cbn [List.length] in Hpos; lia|].
    eexists. reflexivity.
Qed.

Lemma attempting_comes_to_rest (journal0 : list gorm.stmt)
  (clicks0 expected : list models.Click) (n : nat) :
  forall (s : server.System),
    attempting journal0 clicks0 expected s ->
    work_left s = n ->
    exists schedule s',
      server.run (worker_moves schedule) s = Some s' /\ quiescent s'.
Proof.
  induction n as [|n IH]; intros s Hinv Hn.
  - exists [], s. split; [reflexivity|].
    apply (attempting_at_rest _ _ _ _ Hinv). exact Hn.
  - destruct (attempting_progress _ _ _ _ Hinv) as [i [choice [s1 Hstep]]]; [lia|].
    destruct (attempting_step _ _ _ _ _ _ _ Hinv Hstep) as [Hinv1 Hless].
    destruct (IH s1 Hinv1) as [schedule [s' [Hrun Hq]]]; [lia|].
    exists ((i, choice) :: schedule), s'. split; [|exact Hq].
    cbn [worker_moves map server.run fst snd]. rewrite Hstep. exact Hrun.
Qed.

Lemma pipeline_start_attempting (BufferSize WorkerCount IntervalMinutes Port : Z)
  (calls : list (api.ClickEvent * string)) (w : World) (start : server.System) :
  (1 <= WorkerCount)%Z ->
  pipeline_start BufferSize WorkerCount IntervalMinutes Port calls w = Some start ->
  let kept := firstn (Z.to_nat BufferSize) (map fst calls) in
  attempting (gorm.journal (db w)) (gorm.clicks (db w))
    (map workers.click_of kept) start
  /\ work_left start = Z.to_nat WorkerCount + 3 * List.length kept.
Proof.
  intros HN Hstart. cbn zeta. rewrite pipeline_start_unfold in Hstart.
  destruct (BufferSize <? 0)%Z; [discriminate|].
  injection Hstart as Hstart. subst start.
  unfold workers.StartClickWorkers.
  cbn [server.world server.workers_pool app].
  set (w0 := started_world BufferSize WorkerCount IntervalMinutes Port w).
  assert (Hopen : channel.closed (ClickEventsChannel w0) = false) by reflexivity.
  pose proof (tryEnqueue_all_from calls w0 Hopen) as Hq. cbn zeta in Hq.
  unfold attempting, work_left. cbn [server.world server.workers_pool].
  rewrite Hq. cbn [snd]. clear Hq.
  replace (channel.cap (ClickEventsChannel w0)
           - List.length (channel.buf (ClickEventsChannel w0)))
    with (Z.to_nat BufferSize) by (cbn; lia).
  destruct (Spawned_pool (Z.to_nat WorkerCount) 0) as [Hin [Hsum Hrun]].
  cbn zeta in Hin, Hsum, Hrun.
  rewrite Hin, Hsum. cbn -[Nat.mul startup_lines].
  split; [|lia].
  split; [reflexivity|]. split; [reflexivity|].
  split; [exact Hrun|]. split.
  - destruct (Z.to_nat WorkerCount) as [|n] eqn:Hn; [lia | discriminate].
  - exists [], []. cbn. rewrite !app_nil_r.
    split; [reflexivity|]. split; [reflexivity|].
    split; [apply incl_refl|]. split; [lia|]. apply Permutation_refl.
Qed.

(** X13. The pool does not depend on the click store working.
    RunServerCmd makes the channel and starts [N >= 1] workers (it panics
    at [make] exactly when the configured buffer size is negative), and
    events are enqueued before any worker has run.  Whatever CreateClick
    answers, the workers make at most [N + 3K] moves for the [K] events the
    queue accepted, are at rest exactly after that many, and can always get
    there.  At rest CreateClick has been called exactly once per accepted
    event (a failed write is not tried again), and the table has gained
    rows for some of those events only. *)
Theorem workers_attempt_each_event_once :
  forall (BufferSize WorkerCount IntervalMinutes Port : Z)
         (calls : list (api.ClickEvent * string)) (w : World),
    (1 <= WorkerCount)%Z ->
    match pipeline_start BufferSize WorkerCount IntervalMinutes Port calls w with
    | None => (BufferSize < 0)%Z
    | Some start =>
        let kept := firstn (Z.to_nat BufferSize) (map fst calls) in
        let moves := Z.to_nat WorkerCount + 3 * List.length kept in
        (0 <= BufferSize)%Z
        /\ (exists schedule s',
               server.run (worker_moves schedule) start = Some s' /\ quiescent s')
        /\ forall schedule s',
             server.run (worker_moves schedule) start = Some s' ->
             List.length schedule <= moves
             /\ (quiescent s' <-> List.length schedule = moves)
             /\ (quiescent s' ->
                 exists attempted added,
                   gorm.journal (db (server.world s'))
                   = gorm.journal (db w) ++ map gorm.INSERT_clicks attempted
                   /\ Permutation attempted (map workers.click_of kept)
                   /\ gorm.clicks (db (server.world s')) = gorm.clicks (db w) ++ added
                   /\ incl (map unset_ClickID added) (map workers.click_of kept)
                   /\ List.length added <= List.length kept)
    end.
Proof.
  intros BufferSize WorkerCount IntervalMinutes Port calls w HN.
  destruct (pipeline_start BufferSize WorkerCount IntervalMinutes Port calls w)
    as [start|] eqn:Hstart;
    [|apply (pipeline_start_panics _ WorkerCount IntervalMinutes Port calls w);
      exact Hstart].
  intros kept moves.
  destruct (pipeline_start_attempting _ _ _ _ _ _ _ HN Hstart) as [Hinv Hleft].
  fold kept in Hinv, Hleft. fold moves in Hleft.
  split.
  { destruct (Z.lt_ge_cases BufferSize 0) as [Hneg|Hpos]; [|exact Hpos].
    apply (pipeline_start_panics _ WorkerCount IntervalMinutes Port calls w) in Hneg.
    congruence. }
  split.
  - apply (attempting_comes_to_rest _ _ _ moves start Hinv Hleft).
  - intros schedule s' Hrun.
    destruct (attempting_run _ _ _ _ _ _ Hinv Hrun) as [Hinv' Hsum].
    pose proof (attempting_at_rest _ _ _ _ Hinv') as Hrest.
    split; [lia|]. split.
    + rewrite Hrest. lia.
    + intros Hq. apply Hrest in Hq.
      destruct Hinv' as [_ [_ [Hrun' [_ [attempted [added
                          [Hj [Hclicks [Hincl [Hle Hperm]]]]]]]]]].
      unfold work_left in Hq.
      assert (Hbuf : channel.buf (ClickEventsChannel (server.world s')) = []).
      { destruct (channel.buf (ClickEventsChannel (server.world s')));
          [reflexivity | cbn [List.length] in Hq; lia]. }
      assert (Hall : Forall (fun m => snd m = workers.Selecting)
                       (server.workers_pool s')).
      { apply weights_zero; [exact Hrun' | lia]. }
      destruct (Selecting_pool_weight _ Hall) as [_ Hin].
      rewrite Hbuf, Hin in Hperm. cbn [map] in Hperm. rewrite !app_nil_r in Hperm.
      exists attempted, added. split; [exact Hj|]. split; [exact Hperm|].
      split; [exact Hclicks|]. split.
      * intros x Hx. apply (Permutation_in _ Hperm). apply Hincl. exact Hx.
      * apply Permutation_length in Hperm. rewrite length_map in Hperm. lia.
Qed.

Lemma workers_attempt_each_event_once_witness :
  pipeline_start 2 2 5 8080 sample_calls unreliable_world = Some unreliable_pipeline
  /\ server.run (worker_moves sample_schedule) unreliable_pipeline
     = Some unreliable_pipeline_end
  /\ quiescent unreliable_pipeline_end
  /\ gorm.clicks (db (server.world unreliable_pipeline_end)) = gorm.clicks sample_db
  /\ exists attempted added,
       gorm.journal (db (server.world unreliable_pipeline_end))
       = [] ++ map gorm.INSERT_clicks attempted
       /\ Permutation attempted
            [workers.click_of (sample_event 1 "aaaaaa" 1700000001);
             workers.click_of (sample_event 2 "Zx91Qp" 1700000002)]
       /\ gorm.clicks (db (server.world unreliable_pipeline_end))
          = gorm.clicks sample_db ++ added
       /\ incl (map unset_ClickID added)
            [workers.click_of (sample_event 1 "aaaaaa" 1700000001);
             workers.click_of (sample_event 2 "Zx91Qp" 1700000002)]
       /\ List.length added <= 2.
Proof.
  assert (HN : (1 <= 2)%Z) by lia.
  assert (Hstart : pipeline_start 2 2 5 8080 sample_calls unreliable_world
                   = Some unreliable_pipeline) by (vm_compute; reflexivity).
  assert (Hrun : server.run (worker_moves sample_schedule) unreliable_pipeline
                 = Some unreliable_pipeline_end) by (vm_compute; reflexivity).
  pose proof (workers_attempt_each_event_once 2 2 5 8080 sample_calls unreliable_world HN)
    as Hthm.
  rewrite Hstart in Hthm. cbv beta iota zeta in Hthm.
  destruct Hthm as [_ [_ Hall]].
  destruct (Hall sample_schedule unreliable_pipeline_end Hrun) as [_ [Hrest Hdone]].
  assert (Hq : quiescent unreliable_pipeline_end) by (apply Hrest; reflexivity).
  split; [exact Hstart|]. split; [exact Hrun|]. split; [exact Hq|].
  split; [reflexivity|]. exact (Hdone Hq).
Defined.

(** ** The click repository *)

Lemma next_rowid_fresh (ids : list N) : ~ In (gorm.next_rowid ids) ids.
Proof. intros Hin. apply next_rowid_above in Hin. lia. Qed.

Lemma repository_CreateClick_unfold (click : models.Click) (d : gorm.DB) :
  repository.CreateClick click d =
    let d' := snd (gorm.arrive (gorm.INSERT_clicks click) d) in
    match hd gorm.Quiet (gorm.env d) with
    | gorm.Fails e =>
        ((click, Some (fmt.Errorf "erreur lors de la création du clic : " e)), d')
    | _ =>
        ((fst (gorm.insert_click click (gorm.clicks d)), None),
         {| gorm.links := gorm.links d';
            gorm.clicks := snd (gorm.insert_click click (gorm.clicks d));
            gorm.env := gorm.env d'; gorm.journal := gorm.journal d' |})
    end.
Proof.
  unfold repository.CreateClick, gorm.Create_Click, bind, ret, gorm.arrive.
  destruct (hd gorm.Quiet (gorm.env d)); reflexivity.
Qed.

Lemma repository_CountClicksByLinkID_unfold (linkID : N) (d : gorm.DB) :
  fst (repository.CountClicksByLinkID linkID d) =
    match hd gorm.Quiet (gorm.env d) with
    | gorm.Fails e =>
        (0%Z, Some (fmt.Errorf ("erreur lors du comptage des clics pour LinkID "
                                  ++ utoa linkID ++ " : ") e))
    | _ => (Z.of_nat (List.length (clicks_of_link linkID d)), None)
    end.
Proof.
  unfold repository.CountClicksByLinkID, gorm.Where_link_id_Count, bind, ret, gets,
    gorm.arrive, clicks_of_link.
  destruct (hd gorm.Quiet (gorm.env d)); reflexivity.
Qed.

(** X14. GormClickRepository: CreateClick fails exactly when the driver
    fails its INSERT.  When it succeeds the click gets a row id no older
    click row has.  A CountClicksByLinkID that the driver lets through
    afterwards reports, for the click's link, one more than the rows the link
    had if the click was stored, and for every other link, or after a failed
    CreateClick, what the link had. *)
Theorem GormClickRepository_contract :
  forall (click : models.Click) (d : gorm.DB),
    let created := repository.CreateClick click d in
    let d1 := snd created in
    let stored := match snd (fst created) with None => true | Some _ => false end in
    (forall e, hd gorm.Quiet (gorm.env d1) <> gorm.Fails e) ->
    (stored = false <-> exists e, hd gorm.Quiet (gorm.env d) = gorm.Fails e)
    /\ (stored = true ->
        ~ In (models.ClickID (fst (fst created)))
            (map models.ClickID (gorm.clicks d)))
    /\ forall (linkID : N),
         fst (repository.CountClicksByLinkID linkID d1)
         = ((Z.of_nat (List.length (clicks_of_link linkID d))
             + (if stored && N.eqb (models.LinkID click) linkID then 1 else 0))%Z,
            None).
Proof.
  intros click d. cbn zeta. rewrite repository_CreateClick_unfold. cbn zeta.
  intros Hcalm.
  assert (Hcount : forall linkID d1,
             (forall e, hd gorm.Quiet (gorm.env d1) <> gorm.Fails e) ->
             fst (repository.CountClicksByLinkID linkID d1)
             = (Z.of_nat (List.length (clicks_of_link linkID d1)), None)).
  { intros linkID d1 Hd1. rewrite repository_CountClicksByLinkID_unfold.
    destruct (hd gorm.Quiet (gorm.env d1)) as [|e|c u] eqn:Hev; try reflexivity.
    exfalso. apply (Hd1 e). reflexivity. }
  destruct (hd gorm.Quiet (gorm.env d)) as [|e|c u] eqn:Hev; cbn [fst snd] in *.
  - split; [split; [discriminate | intros [e He]; discriminate]|].
    split.
    + intros _. apply next_rowid_fresh.
    + intros linkID. rewrite (Hcount _ _ Hcalm).
      unfold clicks_of_link, gorm.insert_click. cbn [gorm.clicks snd].
      rewrite filter_snoc, length_app. unfold gorm.has_link_id at 2.
      cbn [models.LinkID andb].
      destruct (N.eqb (models.LinkID click) linkID); cbn [List.length];
        f_equal; lia.
  - split; [split; [intros _; exists e; reflexivity | reflexivity]|].
    split; [discriminate|].
    intros linkID. rewrite (Hcount _ _ Hcalm). cbn [andb].
    unfold clicks_of_link, gorm.arrive. cbn [gorm.clicks snd]. f_equal. lia.
  - split; [split; [discriminate | intros [e He]; discriminate]|].
    split.
    + intros _. apply next_rowid_fresh.
    + intros linkID. rewrite (Hcount _ _ Hcalm).
      unfold clicks_of_link, gorm.insert_click. cbn [gorm.clicks snd].
      rewrite filter_snoc, length_app. unfold gorm.has_link_id at 2.
      cbn [models.LinkID andb].
      destruct (N.eqb (models.LinkID click) linkID); cbn [List.length];
        f_equal; lia.
Qed.

Lemma GormClickRepository_contract_witness :
  fst (repository.CountClicksByLinkID 1
         (snd (repository.CreateClick (sample_click 0 1) sample_db)))
  = (4%Z, None)
  /\ fst (repository.CountClicksByLinkID 2
            (snd (repository.CreateClick (sample_click 0 1) sample_db)))
     = (0%Z, None)
  /\ fst (repository.CountClicksByLinkID 1
            (snd (repository.CreateClick (sample_click 0 1)
                    (with_env [gorm.Fails (sqliteError "disk I/O error")] sample_db))))
     = (3%Z, None).
Proof.
  assert (Hcalm : forall e,
             hd gorm.Quiet
               (gorm.env (snd (repository.CreateClick (sample_click 0 1) sample_db)))
             <> gorm.Fails e)
    by (intros e He; vm_compute in He; discriminate He).
  assert (Hspent : forall e,
             hd gorm.Quiet
               (gorm.env (snd (repository.CreateClick (sample_click 0 1)
                                 (with_env [gorm.Fails (sqliteError "disk I/O error")]
                                    sample_db))))
             <> gorm.Fails e)
    by (intros e He; vm_compute in He; discriminate He).
  destruct (GormClickRepository_contract (sample_click 0 1) sample_db Hcalm)
    as [_ [_ Hcount]].
  destruct (GormClickRepository_contract (sample_click 0 1)
              (with_env [gorm.Fails (sqliteError "disk I/O error")] sample_db)
              Hspent) as [_ [_ Hfailed]].
  split; [exact (Hcount 1%N)|]. split; [exact (Hcount 2%N) | exact (Hfailed 1%N)].
Defined.

(** ** The errors of CreateLink *)

(** A failed INSERT of a link: the driver's failure, or the unique index
    refusing a short code that is in the table, possibly since another
    connection has just put it there. *)
Lemma repository_CreateLink_error (l l' : models.Link) (e : error) (d d' : gorm.DB) :
  repository.CreateLink l d = ((l', Some e), d') ->
  exists e0,
    e = fmt.Errorf "erreur lors de la création du lien : " e0
    /\ (hd gorm.Quiet (gorm.env d) = gorm.Fails e0
        \/ (e0 = gorm.unique_violation
            /\ ((exists c u, hd gorm.Quiet (gorm.env d) = gorm.Races c u)
                \/ existsb (gorm.has_short_code (models.ShortCode l)) (gorm.links d)
                   = true))).
Proof.
  unfold repository.CreateLink, gorm.Create_Link, bind, ret.
  unfold gorm.arrive at 1. cbn zeta.
  destruct (hd gorm.Quiet (gorm.env d)) as [|e1|rc ru] eqn:Hev; cbn [fst snd].
  - unfold gorm.insert_link. cbn [gorm.links].
    destruct (existsb _ _) eqn:Htaken; intros H; inversion H; subst.
    exists gorm.unique_violation. split; [reflexivity|].
    right. split; [reflexivity|]. right. reflexivity.
  - intros H. inversion H; subst. exists e1. split; [reflexivity | left; reflexivity].
  - unfold gorm.insert_link. cbn [gorm.links].
    destruct (existsb _ _); intros H; inversion H; subst.
    exists gorm.unique_violation. split; [reflexivity|].
    right. split; [reflexivity|]. left. exists rc, ru. reflexivity.
Qed.

Lemma GenerateShortCode_failure (n : nat) (w w1 : World) (e : error) :
  services.GenerateShortCode n w = (Err e, w1) ->
  e = fmt.Errorf "erreur lors de la génération du code aléatoire: "
        (errorString "unexpected EOF")
  /\ List.length (rand_Reader w) < n.
Proof.
  unfold services.GenerateShortCode, bind. intros H.
  destruct (Nat.le_gt_cases n (List.length (rand_Reader w))) as [Hle|Hlt].
  - destruct (GenerateShortCode_loop_enough n 0 (repeat zero n) w Hle) as [out Hout].
    rewrite Hout in H. discriminate.
  - rewrite (GenerateShortCode_loop_short n 0 _ w Hlt) in H. inversion H; subst.
    split; [reflexivity | exact Hlt].
Qed.

Lemma In_tl {A : Type} (x : A) (l : list A) : In x (tl l) -> In x l.
Proof. destruct l; [auto | right; assumption]. Qed.

Lemma hd_In (ev : gorm.event) (l : list gorm.event) :
  hd gorm.Quiet l = ev -> ev <> gorm.Quiet -> In ev l.
Proof. destruct l as [|a l]; cbn; intros H Hne; [congruence | left; exact H]. Qed.

Lemma concurrent_insert_tl (script : list gorm.event) :
  concurrent_insert (tl script) -> concurrent_insert script.
Proof. intros [c [u H]]. exists c, u. apply In_tl, H. Qed.

Lemma spurious_not_found_tl (script : list gorm.event) :
  spurious_not_found (tl script) -> spurious_not_found script.
Proof. intros [e [H His]]. exists e. split; [apply In_tl, H | exact His]. Qed.

(** A short code found after a statement has arrived was in the table
    before, or has just been put there by another connection. *)
Lemma taken_after_arrive (st : gorm.stmt) (w w1 : World) (code : string) :
  db w1 = snd (gorm.arrive st (db w)) ->
  taken_or_raced w1 code -> taken_or_raced w code.
Proof.
  intros Hdb [Htaken|[url Hrace]]; rewrite Hdb in *.
  - unfold gorm.arrive in Htaken. cbn [snd gorm.links] in Htaken.
    destruct (hd gorm.Quiet (gorm.env (db w))) as [|e|rc ru] eqn:Hev;
      try (left; exact Htaken).
    unfold gorm.insert_link in Htaken. cbn [models.ShortCode] in Htaken.
    destruct (existsb (gorm.has_short_code rc) (gorm.links (db w)));
      cbn [snd] in Htaken; [left; exact Htaken|].
    rewrite existsb_app in Htaken. apply orb_true_iff in Htaken.
    destruct Htaken as [Hold|Hnew]; [left; exact Hold|].
    cbn [existsb] in Hnew. rewrite orb_false_r in Hnew.
    unfold gorm.has_short_code in Hnew. cbn [models.ShortCode] in Hnew.
    apply String.eqb_eq in Hnew. subst rc.
    right. exists ru. apply hd_In; [exact Hev | discriminate].
  - right. exists url. apply (In_tl _ _ Hrace).
Qed.

(** Where the retry loop of CreateLink fails, what a loop that ran out of
    attempts has met, and what the pre-check has established for the
    candidate the loop ends with. *)
Lemma CreateLink_loop_causes (n : nat) :
  forall (i : Z) (w w' : World) (r : result string),
    services.CreateLink_loop n i w = (r, w') ->
    (forall x, In x (gorm.env (db w')) -> In x (gorm.env (db w)))
    /\ match r with
       | Err err =>
           (err = fmt.Errorf "erreur lors de la génération du code court: "
                    (fmt.Errorf "erreur lors de la génération du code aléatoire: "
                       (errorString "unexpected EOF"))
            /\ List.length (rand_Reader w) < 6 * n)
           \/ exists code e,
                err = fmt.Errorf "database error checking short code uniqueness: "
                        (fmt.Errorf (lookup_error_prefix code) e)
                /\ In (gorm.Fails e) (gorm.env (db w))
                /\ errors.Is e ErrRecordNotFound = false
       | Ok code =>
           (code = "" ->
            6 * n <= List.length (rand_Reader w)
            /\ Forall (taken_or_raced w) (candidates n (rand_Reader w)))
           /\ (code <> "" ->
               existsb (gorm.has_short_code code) (gorm.links (db w')) = false
               \/ spurious_not_found (gorm.env (db w)))
       end.
Proof.
  induction n as [|n IH]; intros i w w' r H.
  - cbn in H. inversion H; subst. split; [auto|]. split; [|congruence].
    intros _. split; [lia | constructor].
  - rewrite CreateLink_loop_step in H.
    destruct (services.GenerateShortCode 6 w) as [[c|e] wg] eqn:Hgen.
    + pose proof (GenerateShortCode_ok _ _ _ _ Hgen) as [Hlen [_ [Hdraws Hwg]]].
      rewrite (GenerateShortCode_candidate w Hdraws) in Hgen.
      injection Hgen as Hc _.
      assert (Hdb : db wg = db w) by (subst wg; reflexivity).
      assert (Hrd : rand_Reader wg = skipn 6 (rand_Reader w))
        by (subst wg; reflexivity).
      assert (Hne : c <> "") by (intros Hempty; rewrite Hempty in Hlen; discriminate).
      rewrite GetLinkByShortCode_unfold in H. cbn zeta in H. rewrite Hdb in H.
      assert (Henv : gorm.env (snd (gorm.arrive (gorm.SELECT_links c) (db w)))
                     = tl (gorm.env (db w))) by reflexivity.
      assert (Hafter : forall w1 code,
                 db w1 = snd (gorm.arrive (gorm.SELECT_links c) (db w)) ->
                 taken_or_raced w1 code -> taken_or_raced w code)
        by (intros w1 code; apply taken_after_arrive).
      set (d2 := snd (gorm.arrive (gorm.SELECT_links c) (db w))) in *.
      clearbody d2.
      assert (Hnext : forall l w2 (r2 : result string),
                 find (gorm.has_short_code c) (gorm.links d2) = Some l ->
                 services.CreateLink_loop n (i + 1)
                   (set_log_output (log_output wg ++ [retry_line c i]) (set_db d2 wg))
                 = (r2, w2) ->
                 (forall x, In x (gorm.env (db w2)) -> In x (gorm.env (db w)))
                 /\ match r2 with
                    | Err err =>
                        (err = fmt.Errorf "erreur lors de la génération du code court: "
                                 (fmt.Errorf
                                    "erreur lors de la génération du code aléatoire: "
                                    (errorString "unexpected EOF"))
                         /\ List.length (rand_Reader w) < 6 * S n)
                        \/ exists code e,
                             err = fmt.Errorf
                                     "database error checking short code uniqueness: "
                                     (fmt.Errorf (lookup_error_prefix code) e)
                             /\ In (gorm.Fails e) (gorm.env (db w))
                             /\ errors.Is e ErrRecordNotFound = false
                    | Ok code =>
                        (code = "" ->
                         6 * S n <= List.length (rand_Reader w)
                         /\ Forall (taken_or_raced w) (candidates (S n) (rand_Reader w)))
                        /\ (code <> "" ->
                            existsb (gorm.has_short_code code) (gorm.links (db w2))
                            = false
                            \/ spurious_not_found (gorm.env (db w)))
                    end).
      { intros l w2 r2 Hfound H2. apply IH in H2.
        cbn [db set_db set_log_output rand_Reader] in H2.
        rewrite Hrd in H2. rewrite length_skipn in H2.
        destruct H2 as [Hsub Hr]. rewrite Henv in Hsub.
        split; [intros x Hx; apply In_tl, Hsub, Hx|].
        destruct r2 as [code|err].
        - destruct Hr as [Hout Hfree]. split.
          + intros Hempty. destruct (Hout Hempty) as [Hmore Hall].
            split; [lia|]. cbn [candidates]. rewrite Hc. constructor.
            * apply (Hafter (set_db d2 wg) c eq_refl). left.
              apply (find_some_existsb _ _ _ Hfound).
            * eapply Forall_impl; [|exact Hall].
              intros code' Hcode'. eapply Hafter; [|exact Hcode']. reflexivity.
          + intros Hcode. destruct (Hfree Hcode) as [Hf|Hs]; [left; exact Hf|].
            right. rewrite Henv in Hs. apply spurious_not_found_tl, Hs.
        - destruct Hr as [[Herr Hshort]|[code [e [Herr [Hin His]]]]].
          + left. split; [exact Herr | lia].
          + right. exists code, e. split; [exact Herr|].
            split; [|exact His]. rewrite Henv in Hin. apply In_tl, Hin. }
      destruct (hd gorm.Quiet (gorm.env (db w))) as [|e|rc ru] eqn:Hev.
      * (* the lookup runs undisturbed *)
        destruct (find (gorm.has_short_code c) (gorm.links d2)) as [l|] eqn:Hfind.
        -- apply (Hnext l _ _ eq_refl H).
        -- rewrite Is_Errorf_not_found in H. cbn [errors.Is errors.eqb] in H.
           injection H as Hr Hw. subst r w'. cbn [db set_db]. rewrite Henv.
           split; [intros x Hx; apply In_tl, Hx|].
           split; [intros Hempty; contradiction|].
           intros _. left. apply find_none_existsb, Hfind.
      * (* the driver fails the lookup *)
        rewrite Is_Errorf_not_found in H.
        destruct (errors.Is e ErrRecordNotFound) eqn:His;
          injection H as Hr Hw; subst r w'; cbn [db set_db]; rewrite Henv;
          (split; [intros x Hx; apply In_tl, Hx|]).
        -- split; [intros Hempty; contradiction|].
           intros _. right. exists e. split; [|exact His].
           apply hd_In; [exact Hev | discriminate].
        -- right. exists c, e. split; [reflexivity|]. split; [|exact His].
           apply hd_In; [exact Hev | discriminate].
      * (* another connection inserts first *)
        destruct (find (gorm.has_short_code c) (gorm.links d2)) as [l|] eqn:Hfind.
        -- apply (Hnext l _ _ eq_refl H).
        -- rewrite Is_Errorf_not_found in H. cbn [errors.Is errors.eqb] in H.
           injection H as Hr Hw. subst r w'. cbn [db set_db]. rewrite Henv.
           split; [intros x Hx; apply In_tl, Hx|].
           split; [intros Hempty; contradiction|].
           intros _. left. apply find_none_existsb, Hfind.
    + apply GenerateShortCode_failure in Hgen as Hcause.
      destruct Hcause as [He Hshort]. subst e.
      assert (Hdb : db wg = db w).
      { destruct (GenerateShortCode_world _ _ _ _ Hgen) as [m [_ Hwg]].
        subst wg. reflexivity. }
      injection H as Hr Hw. subst r w'. rewrite Hdb. split; [auto|].
      left. split; [reflexivity | lia].
Qed.

(** X15. Every error CreateLink returns has one of five shapes, each with
    its cause in the world the call started from.  The fixed exhaustion
    message: thirty draws were there, and each of the five candidates they
    spell was in the links table or was to be inserted by another
    connection.  The entropy error, wrapped twice: fewer than thirty draws
    were left.  An error the driver raised on a pre-check, other than
    not-found, wrapped twice.  An error the driver raised on the INSERT,
    wrapped twice.  The uniqueness violation, wrapped twice: another
    connection's insert was to come, or the driver answered a statement
    with a not-found of its own, so that a pre-check passed without having
    looked.  In particular the error returned is never a value of one of
    the types of package customerrors. *)
Theorem CreateLink_failure_has_a_cause :
  forall (longURL : string) (w : World) (err : error),
    fst (services.CreateLink longURL w) = Err err ->
    CreateLink_failure w err /\ is_customerror err = false.
Proof.
  intros longURL w err H.
  assert (Hcause : CreateLink_failure w err);
    [|split; [exact Hcause | destruct Hcause; reflexivity]].
  unfold services.CreateLink, services.CreateLink_from, bind in H.
  destruct (services.CreateLink_loop (Z.to_nat services.maxRetries) 0 w)
    as [[code|e] w1] eqn:Hloop.
  - apply CreateLink_loop_causes in Hloop. destruct Hloop as [Hsub [Hout Hfree]].
    unfold services.CreateLink_persist in H.
    destruct (String.eqb code "") eqn:Hempty.
    + apply String.eqb_eq in Hempty. cbn in H. inversion H; subst.
      destruct (Hout eq_refl) as [Hdraws Hall].
      change (Z.to_nat services.maxRetries) with 5 in Hdraws, Hall.
      apply failure_exhausted; [exact Hdraws | exact Hall].
    + apply String.eqb_neq in Hempty. specialize (Hfree Hempty).
      unfold bind, time.Now, gets, on_db, zoom in H.
      destruct (repository.CreateLink
                  {| models.ID := 0; models.ShortCode := code;
                     models.LongURL := longURL; models.CreatedAt := clock w1 |}
                  (db w1)) as [[l' [e|]] d3] eqn:Hcreate; [|discriminate].
      apply repository_CreateLink_error in Hcreate.
      cbn [models.ShortCode] in Hcreate.
      destruct Hcreate as [e0 [He [Hdriver|[Hdup Hwhy]]]];
        cbn in H; inversion H; subst.
      * apply failure_persist_driver. apply Hsub.
        apply hd_In; [exact Hdriver | discriminate].
      * apply failure_persist_collision.
        destruct Hwhy as [[c [u Hrace]]|Htaken].
        -- left. exists c, u. apply Hsub. apply hd_In; [exact Hrace | discriminate].
        -- destruct Hfree as [Hf|Hs]; [congruence | right; exact Hs].
  - apply CreateLink_loop_causes in Hloop. destruct Hloop as [_ Hcause].
    cbn in H. inversion H; subst.
    destruct Hcause as [[Herr Hshort]|[code [e0 [Herr [Hin His]]]]]; subst err.
    + apply failure_entropy. vm_compute in Hshort. exact Hshort.
    + apply (failure_precheck w code e0 Hin His).
Qed.

Lemma CreateLink_failure_has_a_cause_witness :
  fst (services.CreateLink "https://example.org/a" race_world)
  = Err (fmt.Errorf "erreur lors de la création du lien: "
           (fmt.Errorf "erreur lors de la création du lien : " gorm.unique_violation))
  /\ CreateLink_failure race_world
       (fmt.Errorf "erreur lors de la création du lien: "
          (fmt.Errorf "erreur lors de la création du lien : " gorm.unique_violation))
  /\ is_customerror
       (fmt.Errorf "erreur lors de la création du lien: "
          (fmt.Errorf "erreur lors de la création du lien : " gorm.unique_violation))
     = false.
Proof.
  assert (H : fst (services.CreateLink "https://example.org/a" race_world)
              = Err (fmt.Errorf "erreur lors de la création du lien: "
                       (fmt.Errorf "erreur lors de la création du lien : "
                          gorm.unique_violation)))
    by (vm_compute; reflexivity).
  split; [exact H|].
  exact (CreateLink_failure_has_a_cause "https://example.org/a" race_world _ H).
Defined.
